(** * The story subsystem of the client: td/telegram/StoryManager.cpp

    A shallow embedding of the coordination layer of [StoryManager]: the
    in-memory store, the per-owner active lists with the two ordered story
    lists, the timers, the viewer cache and the send/edit pipeline.

    Conventions.
    - The manager is one record, [StoryManager], threaded through every
      member function.  Outbound actions (updates, database and binlog
      writes, network queries, calls into other managers, promise
      completions) are appended to the log [effects_].
    - A failed [CHECK] aborts the process: member functions that contain
      one return [option], and [None] is the abort.
    - Everything the file reads from the rest of the client ([td_], [G()],
      the option store, the other managers) and every declaration that lives
      in a header outside this file is a field of the record [Td]. *)

From stdpp Require Import gmap strings list.
From Stdlib Require Import ZArith Lia Sorted.

#[local] Set Primitive Projections.
#[local] Open Scope Z_scope.

(** ** Machine integers *)

Definition to_int32 (z : Z) : Z := (z + 2 ^ 31) mod 2 ^ 32 - 2 ^ 31.
Definition to_uint32 (z : Z) : Z := z mod 2 ^ 32.
Definition UINT32_MAX : Z := 2 ^ 32 - 1.
Definition in_int32 (z : Z) : Prop := - 2 ^ 31 <= z < 2 ^ 31.
Definition in_int64 (z : Z) : Prop := - 2 ^ 63 <= z < 2 ^ 63.

(** ** Identifiers and small enumerations *)

(** [DialogId], [UserId], [StoryId], [FileId] wrap an integer; [StoryId()] and
    [DialogId()] are the zero identifiers.  [StoryFullId] is the pair
    (owner dialog, story id) and [DialogDate] the pair (order, dialog). *)
Abbreviation DialogId := Z (only parsing).
Abbreviation UserId := Z (only parsing).
Abbreviation StoryId := Z (only parsing).
Abbreviation FileId := Z (only parsing).
Abbreviation StoryFullId := (Z * Z)%type (only parsing).
Abbreviation DialogDate := (Z * Z)%type (only parsing).
Abbreviation FullMessageId := (Z * Z)%type (only parsing).
Abbreviation Promise := (option nat) (only parsing).

Inductive DialogType :=
| DialogType_None | DialogType_User | DialogType_Chat
| DialogType_Channel | DialogType_SecretChat.

Inductive StoryListId := StoryListId_none | StoryListId_main | StoryListId_archive.

#[global] Instance DialogType_eq_dec : EqDecision DialogType.
Proof. solve_decision. Defined.
#[global] Instance StoryListId_eq_dec : EqDecision StoryListId.
Proof. solve_decision. Defined.

Definition story_list_id_is_valid (l : StoryListId) : bool :=
  match l with StoryListId_none => false | _ => true end.

(** [td::Result<T>] / [td::Status]. *)
Inductive Result (A : Type) :=
| Ok (a : A)
| Error (code : Z) (message : string).
Arguments Ok {A} a.
Arguments Error {A} code message.

Definition is_error {A} (r : Result A) : bool :=
  match r with Ok _ => false | Error _ _ => true end.

(** ** The data model *)

Abbreviation StoryContent := (list Z) (only parsing).
Abbreviation MessageViewer := (Z * Z)%type (only parsing).
Abbreviation MessageViewers := (list (Z * Z)) (only parsing).

Record StoryInteractionInfo := mkStoryInteractionInfo {
  view_count_ : Z;
  recent_viewer_user_ids_ : list Z
}.

Record Story := mkStory {
  date_ : Z;
  expire_date_ : Z;
  receive_date_ : Z;
  is_update_sent_ : bool;
  is_edited_ : bool;
  is_pinned_ : bool;
  is_public_ : bool;
  is_for_close_friends_ : bool;
  is_for_contacts_ : bool;
  is_for_selected_contacts_ : bool;
  noforwards_ : bool;
  interaction_info_ : StoryInteractionInfo;
  privacy_rules_ : list Z;
  content_ : option StoryContent;
  caption_ : string;
  global_id_ : Z
}.

(** [make_unique<Story>()]. *)
Definition new_Story : Story :=
  mkStory 0 0 0 false false false false false false false false
          (mkStoryInteractionInfo (-1) []) [] None "" 0.

Record StoryInfo := mkStoryInfo {
  info_story_id_ : Z;
  info_date_ : Z;
  info_expire_date_ : Z;
  info_is_for_close_friends_ : bool
}.

Record ActiveStories := mkActiveStories {
  max_read_story_id_ : Z;
  story_ids_ : list Z;
  story_list_id_ : StoryListId;
  private_order_ : Z;
  public_order_ : Z
}.

(** [make_unique<ActiveStories>()]. *)
Definition new_ActiveStories : ActiveStories :=
  mkActiveStories 0 [] StoryListId_none 0 0.

Record StoryList := mkStoryList {
  state_ : string;
  server_total_count_ : Z;
  server_has_more_ : bool;
  is_reloaded_server_total_count_ : bool;
  ordered_stories_ : gset (Z * Z);
  list_last_story_date_ : Z * Z;
  sent_total_count_ : Z
}.

Record PendingStory := mkPendingStory {
  dialog_id_ : Z;
  story_id_ : Z;
  send_story_num_ : Z;
  random_id_ : Z;
  was_reuploaded_ : bool;
  log_event_id_ : Z;
  story_ : Story
}.

Record ReadyToSendStory := mkReadyToSendStory {
  ready_file_id_ : Z;
  ready_pending_story_ : PendingStory;
  ready_input_file_ : Z
}.

Record BeingEditedStory := mkBeingEditedStory {
  edited_content_ : option StoryContent;
  edited_caption_ : string;
  edit_caption_ : bool;
  promises_ : list Promise;
  edited_log_event_id_ : Z
}.

Record CachedStoryViewers := mkCachedStoryViewers {
  total_count_ : Z;
  viewers_ : MessageViewers
}.

(** ** Outbound actions *)

Record storyInfo_object := mk_storyInfo_object {
  obj_info_story_id : Z;
  obj_info_date : Z;
  obj_info_is_for_close_friends : bool
}.

Record chatActiveStories_object := mk_chatActiveStories_object {
  obj_chat_id : Z;
  obj_list : StoryListId;
  obj_order : Z;
  obj_max_read_story_id : Z;
  obj_stories : list storyInfo_object
}.

(** The fields of [td_api::story] that this file computes itself; the
    content, caption, privacy and interaction objects are built by other
    modules from the same [Story]. *)
Record story_object := mk_story_object {
  obj_id : Z;
  obj_sender_chat_id : Z;
  obj_date : Z;
  obj_is_being_edited : bool;
  obj_is_edited : bool;
  obj_is_pinned : bool;
  obj_is_visible_only_for_self : bool;
  obj_can_be_replied : bool;
  obj_can_get_viewers : bool;
  obj_has_expired_viewers : bool
}.

Inductive Update :=
| updateStory (s : story_object)
| updateStoryDeleted (chat_id : Z) (story_id : Z)
| updateChatActiveStories (a : chatActiveStories_object)
| updateStoryListChatCount (l : StoryListId) (count : Z).

Inductive Query :=
| SendStoryQuery (file_id : Z) (p : PendingStory) (input_file : Z)
| EditStoryQuery (file_id : Z) (p : PendingStory) (input_file : option Z)
                 (edited : BeingEditedStory)
| GetStoryViewsListQuery (story_id : Z) (offset_date : Z) (offset_user_id : Z)
                         (limit : Z) (p : Promise)
| GetStoriesByIDQuery (user_id : Z) (story_ids : list Z).

Inductive Effect :=
| SendUpdate (u : Update)
| SendQuery (q : Query)
| DbAddStory (id : Z * Z) (expires_at : Z) (s : Story)
| DbDeleteStory (id : Z * Z)
| DbAddActiveStories (owner : Z) (l : StoryListId) (order : Z) (max_read : Z)
                     (infos : list StoryInfo) (p : Promise)
| DbDeleteActiveStories (owner : Z) (p : Promise)
| DbAddActiveStoryListState (l : StoryListId) (state : string) (total_count : Z)
                            (has_more : bool)
| BinlogAdd (kind : string) (log_event_id : Z)
| BinlogRewrite (kind : string) (log_event_id : Z)
| BinlogErase (log_event_id : Z)
| FileDelete (file_id : Z)
| FileCancelUpload (file_id : Z)
| FileDeletePartialRemoteLocation (file_id : Z)
| FileResumeUpload (file_id : Z) (bad_parts : list Z) (upload_order : Z)
| FileDeleteFileReference (file_id : Z)
| FileCheckLocalLocation (file_id : Z)
| ContactsOnUpdateUserHasStories (user_id : Z) (has_stories : bool)
                                 (max_active : Z) (max_read : Z)
| ContactsOnViewUserActiveStories (user_ids : list Z)
| ContactsOnGetUsers
| MessagesUpdateStoryMaxReplyMediaTimestamp (id : Z * Z)
| MessagesOnExternalUpdateMessageContent (id : Z * Z)
| MessagesForceCreateDialog (dialog_id : Z)
| WebPagesOnStoryChanged (id : Z * Z)
| PromiseSetValue (p : nat)
| PromiseSetError (p : nat) (code : Z) (message : string).

(** ** The manager *)

Record StoryManager := Build_StoryManager {
  stories_ : gmap (Z * Z) Story;
  stories_by_global_id_ : gmap Z (Z * Z);
  max_story_global_id_ : Z;
  inaccessible_story_full_ids_ : gmap (Z * Z) Z;
  deleted_story_full_ids_ : gset (Z * Z);
  failed_to_load_story_full_ids_ : gset (Z * Z);
  story_messages_ : gmap (Z * Z) (list (Z * Z));
  active_stories_ : gmap Z ActiveStories;
  max_read_story_ids_ : gmap Z Z;
  failed_to_load_active_stories_ : gset Z;
  story_list_main_ : StoryList;
  story_list_archive_ : StoryList;
  being_edited_stories_ : gmap (Z * Z) BeingEditedStory;
  edit_generations_ : gmap (Z * Z) Z;
  send_story_count_ : Z;
  yet_unsent_stories_ : gset Z;
  ready_to_send_stories_ : gmap Z ReadyToSendStory;
  being_uploaded_files_ : gmap Z PendingStory;
  cached_story_viewers_ : gmap (Z * Z) (option CachedStoryViewers);
  opened_owned_stories_ : gmap (Z * Z) Z;
  opened_stories_ : gmap (Z * Z) Z;
  story_reload_timeout_ : gmap Z Z;
  story_expire_timeout_ : gmap Z Z;
  story_can_get_viewers_timeout_ : gmap Z Z;
  has_interaction_info_update_timeout_ : bool;
  effects_ : list Effect
}.
Definition upd_stories_ f (m : StoryManager) : StoryManager :=
  let '(Build_StoryManager x0 x1 x2 x3 x4 x5 x6 x7 x8 x9 x10 x11 x12 x13 x14 x15 x16 x17 x18 x19 x20 x21 x22 x23 x24 x25) := m in
  Build_StoryManager (f x0) x1 x2 x3 x4 x5 x6 x7 x8 x9 x10 x11 x12 x13 x14 x15 x16 x17 x18 x19 x20 x21 x22 x23 x24 x25.
Definition upd_stories_by_global_id_ f (m : StoryManager) : StoryManager :=
  let '(Build_StoryManager x0 x1 x2 x3 x4 x5 x6 x7 x8 x9 x10 x11 x12 x13 x14 x15 x16 x17 x18 x19 x20 x21 x22 x23 x24 x25) := m in
  Build_StoryManager x0 (f x1) x2 x3 x4 x5 x6 x7 x8 x9 x10 x11 x12 x13 x14 x15 x16 x17 x18 x19 x20 x21 x22 x23 x24 x25.
Definition upd_max_story_global_id_ f (m : StoryManager) : StoryManager :=
  let '(Build_StoryManager x0 x1 x2 x3 x4 x5 x6 x7 x8 x9 x10 x11 x12 x13 x14 x15 x16 x17 x18 x19 x20 x21 x22 x23 x24 x25) := m in
  Build_StoryManager x0 x1 (f x2) x3 x4 x5 x6 x7 x8 x9 x10 x11 x12 x13 x14 x15 x16 x17 x18 x19 x20 x21 x22 x23 x24 x25.
Definition upd_inaccessible_story_full_ids_ f (m : StoryManager) : StoryManager :=
  let '(Build_StoryManager x0 x1 x2 x3 x4 x5 x6 x7 x8 x9 x10 x11 x12 x13 x14 x15 x16 x17 x18 x19 x20 x21 x22 x23 x24 x25) := m in
  Build_StoryManager x0 x1 x2 (f x3) x4 x5 x6 x7 x8 x9 x10 x11 x12 x13 x14 x15 x16 x17 x18 x19 x20 x21 x22 x23 x24 x25.
Definition upd_deleted_story_full_ids_ f (m : StoryManager) : StoryManager :=
  let '(Build_StoryManager x0 x1 x2 x3 x4 x5 x6 x7 x8 x9 x10 x11 x12 x13 x14 x15 x16 x17 x18 x19 x20 x21 x22 x23 x24 x25) := m in
  Build_StoryManager x0 x1 x2 x3 (f x4) x5 x6 x7 x8 x9 x10 x11 x12 x13 x14 x15 x16 x17 x18 x19 x20 x21 x22 x23 x24 x25.
Definition upd_failed_to_load_story_full_ids_ f (m : StoryManager) : StoryManager :=
  let '(Build_StoryManager x0 x1 x2 x3 x4 x5 x6 x7 x8 x9 x10 x11 x12 x13 x14 x15 x16 x17 x18 x19 x20 x21 x22 x23 x24 x25) := m in
  Build_StoryManager x0 x1 x2 x3 x4 (f x5) x6 x7 x8 x9 x10 x11 x12 x13 x14 x15 x16 x17 x18 x19 x20 x21 x22 x23 x24 x25.
Definition upd_story_messages_ f (m : StoryManager) : StoryManager :=
  let '(Build_StoryManager x0 x1 x2 x3 x4 x5 x6 x7 x8 x9 x10 x11 x12 x13 x14 x15 x16 x17 x18 x19 x20 x21 x22 x23 x24 x25) := m in
  Build_StoryManager x0 x1 x2 x3 x4 x5 (f x6) x7 x8 x9 x10 x11 x12 x13 x14 x15 x16 x17 x18 x19 x20 x21 x22 x23 x24 x25.
Definition upd_active_stories_ f (m : StoryManager) : StoryManager :=
  let '(Build_StoryManager x0 x1 x2 x3 x4 x5 x6 x7 x8 x9 x10 x11 x12 x13 x14 x15 x16 x17 x18 x19 x20 x21 x22 x23 x24 x25) := m in
  Build_StoryManager x0 x1 x2 x3 x4 x5 x6 (f x7) x8 x9 x10 x11 x12 x13 x14 x15 x16 x17 x18 x19 x20 x21 x22 x23 x24 x25.
Definition upd_max_read_story_ids_ f (m : StoryManager) : StoryManager :=
  let '(Build_StoryManager x0 x1 x2 x3 x4 x5 x6 x7 x8 x9 x10 x11 x12 x13 x14 x15 x16 x17 x18 x19 x20 x21 x22 x23 x24 x25) := m in
  Build_StoryManager x0 x1 x2 x3 x4 x5 x6 x7 (f x8) x9 x10 x11 x12 x13 x14 x15 x16 x17 x18 x19 x20 x21 x22 x23 x24 x25.
Definition upd_failed_to_load_active_stories_ f (m : StoryManager) : StoryManager :=
  let '(Build_StoryManager x0 x1 x2 x3 x4 x5 x6 x7 x8 x9 x10 x11 x12 x13 x14 x15 x16 x17 x18 x19 x20 x21 x22 x23 x24 x25) := m in
  Build_StoryManager x0 x1 x2 x3 x4 x5 x6 x7 x8 (f x9) x10 x11 x12 x13 x14 x15 x16 x17 x18 x19 x20 x21 x22 x23 x24 x25.
Definition upd_story_list_main_ f (m : StoryManager) : StoryManager :=
  let '(Build_StoryManager x0 x1 x2 x3 x4 x5 x6 x7 x8 x9 x10 x11 x12 x13 x14 x15 x16 x17 x18 x19 x20 x21 x22 x23 x24 x25) := m in
  Build_StoryManager x0 x1 x2 x3 x4 x5 x6 x7 x8 x9 (f x10) x11 x12 x13 x14 x15 x16 x17 x18 x19 x20 x21 x22 x23 x24 x25.
Definition upd_story_list_archive_ f (m : StoryManager) : StoryManager :=
  let '(Build_StoryManager x0 x1 x2 x3 x4 x5 x6 x7 x8 x9 x10 x11 x12 x13 x14 x15 x16 x17 x18 x19 x20 x21 x22 x23 x24 x25) := m in
  Build_StoryManager x0 x1 x2 x3 x4 x5 x6 x7 x8 x9 x10 (f x11) x12 x13 x14 x15 x16 x17 x18 x19 x20 x21 x22 x23 x24 x25.
Definition upd_being_edited_stories_ f (m : StoryManager) : StoryManager :=
  let '(Build_StoryManager x0 x1 x2 x3 x4 x5 x6 x7 x8 x9 x10 x11 x12 x13 x14 x15 x16 x17 x18 x19 x20 x21 x22 x23 x24 x25) := m in
  Build_StoryManager x0 x1 x2 x3 x4 x5 x6 x7 x8 x9 x10 x11 (f x12) x13 x14 x15 x16 x17 x18 x19 x20 x21 x22 x23 x24 x25.
Definition upd_edit_generations_ f (m : StoryManager) : StoryManager :=
  let '(Build_StoryManager x0 x1 x2 x3 x4 x5 x6 x7 x8 x9 x10 x11 x12 x13 x14 x15 x16 x17 x18 x19 x20 x21 x22 x23 x24 x25) := m in
  Build_StoryManager x0 x1 x2 x3 x4 x5 x6 x7 x8 x9 x10 x11 x12 (f x13) x14 x15 x16 x17 x18 x19 x20 x21 x22 x23 x24 x25.
Definition upd_send_story_count_ f (m : StoryManager) : StoryManager :=
  let '(Build_StoryManager x0 x1 x2 x3 x4 x5 x6 x7 x8 x9 x10 x11 x12 x13 x14 x15 x16 x17 x18 x19 x20 x21 x22 x23 x24 x25) := m in
  Build_StoryManager x0 x1 x2 x3 x4 x5 x6 x7 x8 x9 x10 x11 x12 x13 (f x14) x15 x16 x17 x18 x19 x20 x21 x22 x23 x24 x25.
Definition upd_yet_unsent_stories_ f (m : StoryManager) : StoryManager :=
  let '(Build_StoryManager x0 x1 x2 x3 x4 x5 x6 x7 x8 x9 x10 x11 x12 x13 x14 x15 x16 x17 x18 x19 x20 x21 x22 x23 x24 x25) := m in
  Build_StoryManager x0 x1 x2 x3 x4 x5 x6 x7 x8 x9 x10 x11 x12 x13 x14 (f x15) x16 x17 x18 x19 x20 x21 x22 x23 x24 x25.
Definition upd_ready_to_send_stories_ f (m : StoryManager) : StoryManager :=
  let '(Build_StoryManager x0 x1 x2 x3 x4 x5 x6 x7 x8 x9 x10 x11 x12 x13 x14 x15 x16 x17 x18 x19 x20 x21 x22 x23 x24 x25) := m in
  Build_StoryManager x0 x1 x2 x3 x4 x5 x6 x7 x8 x9 x10 x11 x12 x13 x14 x15 (f x16) x17 x18 x19 x20 x21 x22 x23 x24 x25.
Definition upd_being_uploaded_files_ f (m : StoryManager) : StoryManager :=
  let '(Build_StoryManager x0 x1 x2 x3 x4 x5 x6 x7 x8 x9 x10 x11 x12 x13 x14 x15 x16 x17 x18 x19 x20 x21 x22 x23 x24 x25) := m in
  Build_StoryManager x0 x1 x2 x3 x4 x5 x6 x7 x8 x9 x10 x11 x12 x13 x14 x15 x16 (f x17) x18 x19 x20 x21 x22 x23 x24 x25.
Definition upd_cached_story_viewers_ f (m : StoryManager) : StoryManager :=
  let '(Build_StoryManager x0 x1 x2 x3 x4 x5 x6 x7 x8 x9 x10 x11 x12 x13 x14 x15 x16 x17 x18 x19 x20 x21 x22 x23 x24 x25) := m in
  Build_StoryManager x0 x1 x2 x3 x4 x5 x6 x7 x8 x9 x10 x11 x12 x13 x14 x15 x16 x17 (f x18) x19 x20 x21 x22 x23 x24 x25.
Definition upd_opened_owned_stories_ f (m : StoryManager) : StoryManager :=
  let '(Build_StoryManager x0 x1 x2 x3 x4 x5 x6 x7 x8 x9 x10 x11 x12 x13 x14 x15 x16 x17 x18 x19 x20 x21 x22 x23 x24 x25) := m in
  Build_StoryManager x0 x1 x2 x3 x4 x5 x6 x7 x8 x9 x10 x11 x12 x13 x14 x15 x16 x17 x18 (f x19) x20 x21 x22 x23 x24 x25.
Definition upd_opened_stories_ f (m : StoryManager) : StoryManager :=
  let '(Build_StoryManager x0 x1 x2 x3 x4 x5 x6 x7 x8 x9 x10 x11 x12 x13 x14 x15 x16 x17 x18 x19 x20 x21 x22 x23 x24 x25) := m in
  Build_StoryManager x0 x1 x2 x3 x4 x5 x6 x7 x8 x9 x10 x11 x12 x13 x14 x15 x16 x17 x18 x19 (f x20) x21 x22 x23 x24 x25.
Definition upd_story_reload_timeout_ f (m : StoryManager) : StoryManager :=
  let '(Build_StoryManager x0 x1 x2 x3 x4 x5 x6 x7 x8 x9 x10 x11 x12 x13 x14 x15 x16 x17 x18 x19 x20 x21 x22 x23 x24 x25) := m in
  Build_StoryManager x0 x1 x2 x3 x4 x5 x6 x7 x8 x9 x10 x11 x12 x13 x14 x15 x16 x17 x18 x19 x20 (f x21) x22 x23 x24 x25.
Definition upd_story_expire_timeout_ f (m : StoryManager) : StoryManager :=
  let '(Build_StoryManager x0 x1 x2 x3 x4 x5 x6 x7 x8 x9 x10 x11 x12 x13 x14 x15 x16 x17 x18 x19 x20 x21 x22 x23 x24 x25) := m in
  Build_StoryManager x0 x1 x2 x3 x4 x5 x6 x7 x8 x9 x10 x11 x12 x13 x14 x15 x16 x17 x18 x19 x20 x21 (f x22) x23 x24 x25.
Definition upd_story_can_get_viewers_timeout_ f (m : StoryManager) : StoryManager :=
  let '(Build_StoryManager x0 x1 x2 x3 x4 x5 x6 x7 x8 x9 x10 x11 x12 x13 x14 x15 x16 x17 x18 x19 x20 x21 x22 x23 x24 x25) := m in
  Build_StoryManager x0 x1 x2 x3 x4 x5 x6 x7 x8 x9 x10 x11 x12 x13 x14 x15 x16 x17 x18 x19 x20 x21 x22 (f x23) x24 x25.
Definition upd_has_interaction_info_update_timeout_ f (m : StoryManager) : StoryManager :=
  let '(Build_StoryManager x0 x1 x2 x3 x4 x5 x6 x7 x8 x9 x10 x11 x12 x13 x14 x15 x16 x17 x18 x19 x20 x21 x22 x23 x24 x25) := m in
  Build_StoryManager x0 x1 x2 x3 x4 x5 x6 x7 x8 x9 x10 x11 x12 x13 x14 x15 x16 x17 x18 x19 x20 x21 x22 x23 (f x24) x25.
Definition upd_effects_ f (m : StoryManager) : StoryManager :=
  let '(Build_StoryManager x0 x1 x2 x3 x4 x5 x6 x7 x8 x9 x10 x11 x12 x13 x14 x15 x16 x17 x18 x19 x20 x21 x22 x23 x24 x25) := m in
  Build_StoryManager x0 x1 x2 x3 x4 x5 x6 x7 x8 x9 x10 x11 x12 x13 x14 x15 x16 x17 x18 x19 x20 x21 x22 x23 x24 (f x25).

(** ** The rest of the client

    What the manager reads from its collaborators and from headers that are
    not part of this file.  The values are those seen during one call. *)

Record Td := mkTd {
  (* StoryId.h, StoryFullId.h, DialogId.h, DialogDate.h *)
  story_id_is_valid : Z -> bool;
  story_id_is_server : Z -> bool;
  story_full_id_is_valid : Z * Z -> bool;
  dialog_id_is_valid : Z -> bool;
  dialog_id_get_type : Z -> DialogType;
  dialog_id_of_user : Z -> Z;
  dialog_id_get_user_id : Z -> Z;
  dialog_date_le : Z * Z -> Z * Z -> bool;
  MAX_DIALOG_DATE : Z * Z;
  MIN_DIALOG_DATE : Z * Z;
  (* StoryInteractionInfo.h, MessageViewer.h *)
  set_view_count : StoryInteractionInfo -> Z -> StoryInteractionInfo * bool;
  get_view_count : StoryInteractionInfo -> Z;
  set_recent_viewer_user_ids : StoryInteractionInfo -> list Z -> StoryInteractionInfo;
  viewers_get_sublist : list (Z * Z) -> Z * Z -> Z -> list (Z * Z);
  viewers_add_sublist : list (Z * Z) -> Z * Z -> list (Z * Z) -> list (Z * Z);
  new_CachedStoryViewers : CachedStoryViewers;
  (* td_->auth_manager_ *)
  is_bot : bool;
  (* G() *)
  unix_time : Z;
  time_now : Z;
  close_flag : bool;
  use_message_database : bool;
  is_test_dc : bool;
  (* td_->option_manager_ *)
  option_is_premium : bool;
  option_story_viewers_expiration_delay : Z;
  option_stories_changelog_user_id : Z;
  (* td_->contacts_manager_ *)
  get_my_id : Z;
  is_user_premium : Z -> bool;
  is_user_contact : Z -> bool;
  get_user_stories_hidden : Z -> bool;
  (* td_->messages_manager_ *)
  have_dialog_force : Z -> bool;
  have_input_peer_read : Z -> bool;
  (* td_->file_manager_, FileId.h, StoryContent.h *)
  file_id_is_valid : Z -> bool;
  file_is_encrypted : Z -> bool;
  file_has_remote_location : Z -> bool;
  file_remote_location_is_web : Z -> bool;
  get_story_content_any_file_id : list Z -> Z;
  (* G()->td_db()->get_binlog(): the id that binlog_add returns *)
  binlog_next_id : Z;
  (* Global::request_aborted_error() *)
  request_aborted_error : Z * string;
  (* G()->td_db()->get_story_db_sync(): the synchronous read of a story or of
     an owner's active stories, followed by on_get_story_from_database or
     on_get_active_stories_from_database. *)
  load_story_from_database : Z * Z -> StoryManager -> option (StoryManager * option Story);
  load_active_stories_from_database :
    Z -> StoryManager -> option (StoryManager * option ActiveStories)
}.

(** ** Small helpers *)

Definition emit (e : Effect) (m : StoryManager) : StoryManager :=
  upd_effects_ (fun l => l ++ [e]) m.

Definition emits (es : list Effect) (m : StoryManager) : StoryManager :=
  upd_effects_ (fun l => l ++ es) m.

(** [promise.set_value(Unit())]; an empty promise ignores it. *)
Definition promise_set_value (p : Promise) (m : StoryManager) : StoryManager :=
  match p with Some n => emit (PromiseSetValue n) m | None => m end.

Definition promise_set_error (p : Promise) (code : Z) (msg : string)
    (m : StoryManager) : StoryManager :=
  match p with Some n => emit (PromiseSetError n code msg) m | None => m end.

(** [td::remove_if]: the kept elements, and whether anything was removed. *)
Definition remove_if {A} (p : A -> bool) (l : list A) : list A * bool :=
  (List.filter (fun x => negb (p x)) l, existsb p l).

(** [*s.begin()] of a [std::set<uint32>]. *)
Definition set_begin (s : gset Z) : option Z :=
  foldr (fun x acc => Some (match acc with None => x | Some y => Z.min x y end))
        None (elements s).

Definition my_dialog_id (td : Td) : Z := dialog_id_of_user td (get_my_id td).

(** ** Member functions, in the order of the file *)

Definition is_story_owned (td : Td) (owner_dialog_id : Z) : bool :=
  bool_decide (owner_dialog_id = my_dialog_id td).

Definition is_active_story (td : Td) (story : option Story) : bool :=
  match story with
  | Some s => unix_time td <? expire_date_ s
  | None => false
  end.

Definition get_story_viewers_expire_date (td : Td) (story : Story) : Z :=
  to_int32 (expire_date_ story + option_story_viewers_expiration_delay td).

Definition get_story (m : StoryManager) (story_full_id : Z * Z) : option Story :=
  stories_ m !! story_full_id.

Definition get_active_stories (m : StoryManager) (owner_dialog_id : Z)
  : option ActiveStories :=
  active_stories_ m !! owner_dialog_id.

(** [story_lists_[story_list_id == StoryListId::archive()]]. *)
Definition story_list_of (l : StoryListId) (m : StoryManager) : StoryList :=
  if decide (l = StoryListId_archive) then story_list_archive_ m else story_list_main_ m.

Definition upd_story_list (l : StoryListId) (f : StoryList -> StoryList)
    (m : StoryManager) : StoryManager :=
  if decide (l = StoryListId_archive) then upd_story_list_archive_ f m
  else upd_story_list_main_ f m.

Definition get_story_list (td : Td) (l : StoryListId) (m : StoryManager)
  : option StoryList :=
  if is_bot td then None
  else if story_list_id_is_valid l then Some (story_list_of l m)
  else None.

Definition set_ordered_stories (s : gset (Z * Z)) (sl : StoryList) : StoryList :=
  mkStoryList (state_ sl) (server_total_count_ sl) (server_has_more_ sl)
              (is_reloaded_server_total_count_ sl) s (list_last_story_date_ sl)
              (sent_total_count_ sl).

Definition set_server_total_count (c : Z) (sl : StoryList) : StoryList :=
  mkStoryList (state_ sl) c (server_has_more_ sl)
              (is_reloaded_server_total_count_ sl) (ordered_stories_ sl)
              (list_last_story_date_ sl) (sent_total_count_ sl).

Definition set_sent_total_count (c : Z) (sl : StoryList) : StoryList :=
  mkStoryList (state_ sl) (server_total_count_ sl) (server_has_more_ sl)
              (is_reloaded_server_total_count_ sl) (ordered_stories_ sl)
              (list_last_story_date_ sl) c.

Definition save_story_list (td : Td) (l : StoryListId) (state : string)
    (total_count : Z) (has_more : bool) (m : StoryManager) : StoryManager :=
  if close_flag td || negb (use_message_database td) then m
  else emit (DbAddActiveStoryListState l state total_count has_more) m.

(** [update_story_list_sent_total_count(story_list_id, story_list)], on the
    list it is handed; the update it sends is returned beside the list. *)
Definition update_story_list_sent_total_count (td : Td) (story_list_id : StoryListId)
    (story_list : StoryList) : StoryList * list Effect :=
  if (server_total_count_ story_list =? -1) || is_bot td then (story_list, [])
  else
    let new_total_count := to_int32 (Z.of_nat (size (ordered_stories_ story_list))) in
    let new_total_count :=
      if bool_decide (list_last_story_date_ story_list <> MAX_DIALOG_DATE td)
      then Z.max new_total_count (server_total_count_ story_list)
      else new_total_count in
    if bool_decide (sent_total_count_ story_list <> new_total_count) then
      let story_list := set_sent_total_count new_total_count story_list in
      (story_list,
       [SendUpdate (updateStoryListChatCount story_list_id (sent_total_count_ story_list))])
    else (story_list, []).

(** The same call on the list stored in the manager. *)
Definition update_story_list_sent_total_count_in (td : Td) (l : StoryListId)
    (m : StoryManager) : StoryManager :=
  let r := update_story_list_sent_total_count td l (story_list_of l m) in
  emits r.2 (upd_story_list l (fun _ => r.1) m).

(** [update_story_list_sent_total_count(story_list_id)]. *)
Definition update_story_list_sent_total_count_by_id (td : Td) (l : StoryListId)
    (m : StoryManager) : option StoryManager :=
  if is_bot td then Some m
  else
    _ ← get_story_list td l m;
    Some (update_story_list_sent_total_count_in td l m).

Definition get_changelog_story_dialog_id (td : Td) : Z :=
  dialog_id_of_user td (option_stories_changelog_user_id td).

Definition is_subscribed_to_dialog_stories (td : Td) (owner_dialog_id : Z) : bool :=
  if bool_decide (owner_dialog_id = get_changelog_story_dialog_id td) then true
  else match dialog_id_get_type td owner_dialog_id with
       | DialogType_User =>
           if bool_decide (owner_dialog_id = my_dialog_id td) then true
           else is_user_contact td (dialog_id_get_user_id td owner_dialog_id)
       | _ => false
       end.

Definition get_dialog_story_list_id (td : Td) (owner_dialog_id : Z) : StoryListId :=
  if negb (is_subscribed_to_dialog_stories td owner_dialog_id) then StoryListId_none
  else match dialog_id_get_type td owner_dialog_id with
       | DialogType_User =>
           if bool_decide (owner_dialog_id <> my_dialog_id td)
              && get_user_stories_hidden td (dialog_id_get_user_id td owner_dialog_id)
           then StoryListId_archive
           else StoryListId_main
       | _ => StoryListId_archive
       end.

Definition get_story_info (td : Td) (m : StoryManager) (story_full_id : Z * Z)
  : StoryInfo :=
  match get_story m story_full_id with
  | Some story =>
      if negb (is_active_story td (Some story)) then mkStoryInfo 0 0 0 false
      else mkStoryInfo story_full_id.2 (date_ story) (expire_date_ story)
                       (is_for_close_friends_ story)
  | None => mkStoryInfo 0 0 0 false
  end.

Definition get_story_info_object (td : Td) (m : StoryManager) (story_full_id : Z * Z)
  : option storyInfo_object :=
  let story_info := get_story_info td m story_full_id in
  if negb (story_id_is_valid td (info_story_id_ story_info)) then None
  else Some (mk_storyInfo_object (info_story_id_ story_info) (info_date_ story_info)
                                 (info_is_for_close_friends_ story_info)).

Definition get_chat_active_stories_object (td : Td) (m : StoryManager)
    (owner_dialog_id : Z) (active_stories : option ActiveStories)
  : chatActiveStories_object :=
  match active_stories with
  | Some a =>
      mk_chatActiveStories_object owner_dialog_id (story_list_id_ a)
        (if story_list_id_is_valid (story_list_id_ a) then public_order_ a else 0)
        (max_read_story_id_ a)
        (omap (fun story_id => get_story_info_object td m (owner_dialog_id, story_id))
              (story_ids_ a))
  | None =>
      mk_chatActiveStories_object owner_dialog_id
        (get_dialog_story_list_id td owner_dialog_id) 0 0 []
  end.

Definition send_update_chat_active_stories (td : Td) (owner_dialog_id : Z)
    (active_stories : option ActiveStories) (m : StoryManager) : StoryManager :=
  emit (SendUpdate (updateChatActiveStories
                      (get_chat_active_stories_object td m owner_dialog_id active_stories)))
       m.

(** [save_active_stories(owner, active_stories, promise, source)].  The row
    is serialised by [SavedActiveStories::store], which starts with
    [CHECK(!story_infos_.empty())]. *)
Definition save_active_stories (td : Td) (owner_dialog_id : Z)
    (active_stories : option ActiveStories) (promise : Promise) (m : StoryManager)
  : option StoryManager :=
  if negb (use_message_database td) then Some (promise_set_value promise m)
  else match active_stories with
       | None => Some (emit (DbDeleteActiveStories owner_dialog_id promise) m)
       | Some a =>
           let order := if story_list_id_is_valid (story_list_id_ a)
                        then private_order_ a else 0 in
           let story_infos :=
             List.filter (fun i => story_id_is_valid td (info_story_id_ i))
               (map (fun story_id => get_story_info td m (owner_dialog_id, story_id))
                    (story_ids_ a)) in
           (* CHECK(!story_infos_.empty()) *)
           if bool_decide (story_infos = []) then None
           else Some (emit (DbAddActiveStories owner_dialog_id (story_list_id_ a) order
                                               (max_read_story_id_ a) story_infos promise)
                           m)
       end.

Definition delete_active_stories_from_story_list (td : Td) (owner_dialog_id : Z)
    (active_stories : ActiveStories) (m : StoryManager) : option StoryManager :=
  if negb (story_list_id_is_valid (story_list_id_ active_stories)) then Some m
  else
    story_list ← get_story_list td (story_list_id_ active_stories) m;
    let key := (private_order_ active_stories, owner_dialog_id) in
    (* CHECK(is_deleted) *)
    if bool_decide (key ∈ ordered_stories_ story_list) then
      Some (upd_story_list (story_list_id_ active_stories)
              (fun sl => set_ordered_stories (ordered_stories_ sl ∖ {[key]}) sl) m)
    else None.

Definition set_orders (list_id : StoryListId) (private_order public_order : Z)
    (a : ActiveStories) : ActiveStories :=
  mkActiveStories (max_read_story_id_ a) (story_ids_ a) list_id private_order public_order.

(** The sort key computed by [update_active_stories_order]. *)
Definition new_private_order (td : Td) (owner_dialog_id : Z)
    (active_stories : ActiveStories) (last_story_id : Z) (last_story : Story) : Z :=
  0 + date_ last_story
  + (if bool_decide (dialog_id_get_type td owner_dialog_id = DialogType_User)
        && is_user_premium td (dialog_id_get_user_id td owner_dialog_id)
     then Z.shiftl 1 33 else 0)
  + (if bool_decide (owner_dialog_id = get_changelog_story_dialog_id td)
     then Z.shiftl 1 34 else 0)
  + (if max_read_story_id_ active_stories <? last_story_id
     then Z.shiftl 1 35 else 0)
  + (if bool_decide (owner_dialog_id = my_dialog_id td)
     then Z.shiftl 1 36 else 0).

(** The middle of [update_active_stories_order]: the owner's key is moved
    inside the ordered lists, and the public order is chosen. *)
Definition update_order_in_story_lists (td : Td) (owner_dialog_id : Z)
    (active_stories : ActiveStories) (new_private : Z) (story_list_id : StoryListId)
    (m : StoryManager) : option (StoryManager * Z) :=
  let old_list_id := story_list_id_ active_stories in
  if story_list_id_is_valid story_list_id then
    story_list ← get_story_list td story_list_id m;
    let new_public :=
      if dialog_date_le td (new_private, owner_dialog_id)
                        (list_last_story_date_ story_list)
      then new_private else 0 in
    m ← (if bool_decide (private_order_ active_stories <> new_private)
            || bool_decide (old_list_id <> story_list_id) then
           m ← delete_active_stories_from_story_list td owner_dialog_id
                 active_stories m;
           (* CHECK(is_inserted) *)
           if bool_decide ((new_private, owner_dialog_id)
                           ∈ ordered_stories_ (story_list_of story_list_id m))
           then None
           else
             let m := upd_story_list story_list_id
                        (fun sl => set_ordered_stories
                           ({[(new_private, owner_dialog_id)]} ∪ ordered_stories_ sl) sl)
                        m in
             m ← (if bool_decide (old_list_id <> story_list_id)
                     && story_list_id_is_valid old_list_id
                  then update_story_list_sent_total_count_by_id td old_list_id m
                  else Some m);
             Some (update_story_list_sent_total_count_in td story_list_id m)
         else Some m);
    Some (m, new_public)
  else if story_list_id_is_valid old_list_id then
    m ← delete_active_stories_from_story_list td owner_dialog_id active_stories m;
    m ← update_story_list_sent_total_count_by_id td old_list_id m;
    Some (m, 0)
  else Some (m, 0).

(** The end of [update_active_stories_order]: the new orders and list are
    written to the entry; the result tells whether the public view changed. *)
Definition store_new_orders (td : Td) (owner_dialog_id : Z)
    (active_stories : ActiveStories) (new_private new_public : Z)
    (story_list_id : StoryListId) (need_save_to_database : bool) (m : StoryManager)
  : StoryManager * ActiveStories * bool * bool :=
  let old_list_id := story_list_id_ active_stories in
  let moved := bool_decide (private_order_ active_stories <> new_private)
               || bool_decide (old_list_id <> story_list_id) in
  if moved || bool_decide (public_order_ active_stories <> new_public) then
    let need_save_to_database := if moved then true else need_save_to_database in
    let a := set_orders old_list_id new_private (public_order_ active_stories)
                        active_stories in
    if bool_decide (public_order_ a <> new_public)
       || bool_decide (old_list_id <> story_list_id) then
      let '(m, a) :=
        if bool_decide (old_list_id <> story_list_id) then
          let '(m, a) :=
            if story_list_id_is_valid old_list_id
               && bool_decide (public_order_ a <> 0) then
              let a := set_orders old_list_id new_private 0 a in
              (send_update_chat_active_stories td owner_dialog_id (Some a) m, a)
            else (m, a) in
          (m, set_orders story_list_id (private_order_ a) (public_order_ a) a)
        else (m, a) in
      let a := set_orders (story_list_id_ a) (private_order_ a) new_public a in
      (m, a, need_save_to_database, true)
    else (m, a, need_save_to_database, false)
  else (m, active_stories, need_save_to_database, false).

(** [update_active_stories_order(owner, active_stories, &need_save_to_database)]:
    the entry behind the pointer and the flag behind [need_save_to_database]
    are returned with the manager and the result. *)
Definition update_active_stories_order (td : Td) (owner_dialog_id : Z)
    (active_stories : ActiveStories) (need_save_to_database : bool) (m : StoryManager)
  : option (StoryManager * ActiveStories * bool * bool) :=
  if is_bot td then Some (m, active_stories, need_save_to_database, false)
  else
    last_story_id ← last (story_ids_ active_stories);
    if negb (dialog_id_is_valid td owner_dialog_id) then None else
    last_story ← get_story m (owner_dialog_id, last_story_id);
    let new_private := new_private_order td owner_dialog_id active_stories
                                         last_story_id last_story in
    if new_private =? 0 then None else
    let story_list_id := get_dialog_story_list_id td owner_dialog_id in
    '(m, new_public) ← update_order_in_story_lists td owner_dialog_id active_stories
                         new_private story_list_id m;
    Some (store_new_orders td owner_dialog_id active_stories new_private new_public
                           story_list_id need_save_to_database m).

(** The filter of [on_update_active_stories]: an id is removed when it is
    not a server id or its story is not active. *)
Definition is_dropped_story_id (td : Td) (m : StoryManager) (owner_dialog_id : Z)
    (story_id : Z) : bool :=
  if negb (story_id_is_server td story_id) then true
  else if negb (is_active_story td (get_story m (owner_dialog_id, story_id))) then true
  else false.

Definition set_read_and_ids (max_read : Z) (ids : list Z) (a : ActiveStories)
  : ActiveStories :=
  mkActiveStories max_read ids (story_list_id_ a) (private_order_ a) (public_order_ a).

(** The branch of [on_update_active_stories] for an empty list: the entry is
    removed. *)
Definition on_update_active_stories_empty (td : Td) (owner_dialog_id : Z)
    (promise : Promise) (from_database : bool) (m : StoryManager)
  : option StoryManager :=
  let m := if bool_decide (dialog_id_get_type td owner_dialog_id = DialogType_User)
           then emit (ContactsOnUpdateUserHasStories
                        (dialog_id_get_user_id td owner_dialog_id) false 0 0) m
           else m in
  m ← match get_active_stories m owner_dialog_id with
      | Some a =>
          m ← (if story_list_id_is_valid (story_list_id_ a) then
                 m ← delete_active_stories_from_story_list td owner_dialog_id a m;
                 story_list ← get_story_list td (story_list_id_ a) m;
                 let m :=
                   if negb from_database
                      && is_reloaded_server_total_count_ story_list
                      && (to_int32 (Z.of_nat (size (ordered_stories_ story_list)))
                          <? server_total_count_ story_list)
                   then
                     let m := upd_story_list (story_list_id_ a)
                                (fun sl => set_server_total_count
                                   (to_int32 (server_total_count_ sl - 1)) sl) m in
                     let sl := story_list_of (story_list_id_ a) m in
                     save_story_list td (story_list_id_ a) (state_ sl)
                                     (server_total_count_ sl) (server_has_more_ sl) m
                   else m in
                 Some (update_story_list_sent_total_count_in td (story_list_id_ a) m)
               else Some m);
          let m := upd_active_stories_ (delete owner_dialog_id) m in
          Some (send_update_chat_active_stories td owner_dialog_id None m)
      | None => Some (upd_max_read_story_ids_ (delete owner_dialog_id) m)
      end;
  m ← (if negb from_database
       then save_active_stories td owner_dialog_id None promise m else Some m);
  Some (upd_failed_to_load_active_stories_ (fun s => {[owner_dialog_id]} ∪ s) m).

(** The entry that is about to be updated, with the read mark it gets: an
    existing entry with the given mark, or a new one that inherits the mark
    stashed in [max_read_story_ids_]. *)
Definition get_or_create_active_stories (owner_dialog_id : Z) (max_read_story_id : Z)
    (first_id : Z) (m : StoryManager) : ActiveStories * Z * StoryManager :=
  match get_active_stories m owner_dialog_id with
  | Some a => (a, max_read_story_id, m)
  | None =>
      let old_max_read_story_id :=
        default 0 (max_read_story_ids_ m !! owner_dialog_id) in
      if bool_decide (old_max_read_story_id <> 0) then
        let m := upd_max_read_story_ids_ (delete owner_dialog_id) m in
        if (max_read_story_id <? old_max_read_story_id)
           && (first_id <=? old_max_read_story_id)
        then (new_ActiveStories, old_max_read_story_id, m)
        else (new_ActiveStories, max_read_story_id, m)
      else (new_ActiveStories, max_read_story_id, m)
  end.

(** The branch of [on_update_active_stories] for a non-empty list
    [first_id :: _]: the entry is created or updated. *)
Definition on_update_active_stories_nonempty (td : Td) (owner_dialog_id : Z)
    (max_read_story_id : Z) (first_id : Z) (story_ids : list Z) (promise : Promise)
    (from_database : bool) (m : StoryManager) : option StoryManager :=
  let m := upd_failed_to_load_active_stories_ (fun s => s ∖ {[owner_dialog_id]}) m in
  let '(a, max_read_story_id, m) :=
    get_or_create_active_stories owner_dialog_id max_read_story_id first_id m in
  let m := if bool_decide (dialog_id_get_type td owner_dialog_id = DialogType_User)
           then emit (ContactsOnUpdateUserHasStories
                        (dialog_id_get_user_id td owner_dialog_id) true
                        (List.last story_ids 0) max_read_story_id) m
           else m in
  '(m, a, need_save_to_database) ←
    (if bool_decide (max_read_story_id_ a <> max_read_story_id)
        || bool_decide (story_ids_ a <> story_ids) then
       let a := set_read_and_ids max_read_story_id story_ids a in
       '(m, a, need_save, _) ← update_active_stories_order td owner_dialog_id a true m;
       Some (send_update_chat_active_stories td owner_dialog_id (Some a) m, a, need_save)
     else
       '(m, a, need_save, r) ← update_active_stories_order td owner_dialog_id a false m;
       Some ((if (r : bool)
              then send_update_chat_active_stories td owner_dialog_id (Some a) m
              else m), a, need_save));
  let m := upd_active_stories_ (insert owner_dialog_id a) m in
  if need_save_to_database && negb from_database
  then save_active_stories td owner_dialog_id (Some a) promise m
  else Some (promise_set_value promise m).

Definition on_update_active_stories (td : Td) (owner_dialog_id : Z)
    (max_read_story_id : Z) (story_ids : list Z) (promise : Promise)
    (from_database : bool) (m : StoryManager) : option StoryManager :=
  if negb (dialog_id_is_valid td owner_dialog_id) then None else
  let '(story_ids, removed) :=
    remove_if (is_dropped_story_id td m owner_dialog_id) story_ids in
  let from_database := if removed then false else from_database in
  match story_ids with
  | [] => on_update_active_stories_empty td owner_dialog_id promise from_database m
  | first_id :: _ =>
      let max_read_story_id :=
        if max_read_story_id <? first_id then 0 else max_read_story_id in
      on_update_active_stories_nonempty td owner_dialog_id max_read_story_id
        first_id story_ids promise from_database m
  end.

(** ** The store: objects, change notification, deletion *)

Definition can_get_story_viewers (td : Td) (story_full_id : Z * Z) (story : Story)
  : Result unit :=
  if negb (is_story_owned td story_full_id.1) then Error 400 "Story is not outgoing"
  else if negb (story_id_is_server td story_full_id.2)
  then Error 400 "Story is not sent yet"
  else if get_story_viewers_expire_date td story <=? unix_time td
  then Error 400 "Story is too old"
  else Ok ().

(** [get_story_object(story_full_id, story)]; [None] is the null object.  The
    flag [is_update_sent_] that the function sets on the story is set by
    [mark_update_sent] in the callers. *)
Definition get_story_object (td : Td) (m : StoryManager) (story_full_id : Z * Z)
    (story : option Story) : option story_object :=
  match story with
  | None => None
  | Some story =>
      match content_ story with
      | None => None
      | Some _ =>
          let dialog_id := story_full_id.1 in
          let story_id := story_full_id.2 in
          let is_owned := is_story_owned td dialog_id in
          if negb is_owned && negb (is_pinned_ story)
             && negb (is_active_story td (Some story))
          then None
          else
            let is_being_edited :=
              is_owned && story_id_is_server td story_id
              && bool_decide (is_Some (being_edited_stories_ m !! story_full_id)) in
            let changelog_dialog_id := get_changelog_story_dialog_id td in
            let is_visible_only_for_self :=
              negb (story_id_is_server td story_id)
              || bool_decide (dialog_id = changelog_dialog_id)
              || (negb (is_pinned_ story) && negb (is_active_story td (Some story))) in
            let can_be_replied :=
              story_id_is_server td story_id
              && bool_decide (dialog_id <> changelog_dialog_id) in
            let can_get_viewers :=
              negb (is_error (can_get_story_viewers td story_full_id story)) in
            let has_expired_viewers :=
              negb can_get_viewers && is_story_owned td dialog_id
              && story_id_is_server td story_id in
            Some (mk_story_object story_id dialog_id (date_ story) is_being_edited
                    (is_edited_ story) (is_pinned_ story) is_visible_only_for_self
                    can_be_replied can_get_viewers has_expired_viewers)
      end
  end.

Definition set_is_update_sent (s : Story) : Story :=
  mkStory (date_ s) (expire_date_ s) (receive_date_ s) true (is_edited_ s)
          (is_pinned_ s) (is_public_ s) (is_for_close_friends_ s) (is_for_contacts_ s)
          (is_for_selected_contacts_ s) (noforwards_ s) (interaction_info_ s)
          (privacy_rules_ s) (content_ s) (caption_ s) (global_id_ s).

Definition mark_update_sent (story_full_id : Z * Z) (m : StoryManager) : StoryManager :=
  upd_stories_ (alter set_is_update_sent story_full_id) m.

Definition get_story_file_ids (story : option Story) : list Z :=
  match story with
  | Some s => default [] (content_ s)
  | None => []
  end.

Definition delete_story_files (story : Story) (m : StoryManager) : StoryManager :=
  emits (map FileDelete (get_story_file_ids (Some story))) m.

Definition send_update_story (td : Td) (story_full_id : Z * Z) (story : Story)
    (m : StoryManager) : option StoryManager :=
  (* CHECK(story_object != nullptr) *)
  story_object ← get_story_object td m story_full_id (Some story);
  Some (emit (SendUpdate (updateStory story_object)) (mark_update_sent story_full_id m)).

Definition delete_story_from_database (td : Td) (story_full_id : Z * Z)
    (m : StoryManager) : StoryManager :=
  if use_message_database td then emit (DbDeleteStory story_full_id) m else m.

Definition on_story_changed (td : Td) (story_full_id : Z * Z) (story : Story)
    (is_changed need_save_to_database from_database : bool) (m : StoryManager)
  : option StoryManager :=
  m ← (if is_active_story td (Some story) then
         (* CHECK(story->global_id_ > 0) *)
         if 0 <? global_id_ story then
           Some (upd_story_expire_timeout_
                   (insert (global_id_ story)
                           (to_int32 (expire_date_ story - unix_time td))) m)
         else None
       else Some m);
  let m :=
    if negb (is_error (can_get_story_viewers td story_full_id story)) then
      upd_story_can_get_viewers_timeout_
        (insert (global_id_ story)
                (to_int32 (get_story_viewers_expire_date td story - unix_time td))) m
    else m in
  if bool_decide (content_ story = None)
     || negb (story_id_is_valid td story_full_id.2) then Some m
  else if is_changed || need_save_to_database then
    let m :=
      if use_message_database td && negb from_database then
        let expires_at :=
          if is_active_story td (Some story)
             && negb (is_story_owned td story_full_id.1)
             && negb (is_pinned_ story)
          then expire_date_ story else 0 in
        emit (DbAddStory story_full_id expires_at story) m
      else m in
    m ← (if is_changed && is_update_sent_ story
         then send_update_story td story_full_id story m else Some m);
    let m := emit (MessagesUpdateStoryMaxReplyMediaTimestamp story_full_id) m in
    let m := emit (WebPagesOnStoryChanged story_full_id) m in
    match story_messages_ m !! story_full_id with
    | Some full_message_ids =>
        (* CHECK(!full_message_ids.empty()) *)
        if bool_decide (full_message_ids = []) then None
        else Some (emits (map MessagesOnExternalUpdateMessageContent full_message_ids) m)
    | None => Some m
    end
  else Some m.

Definition is_inaccessible_story (m : StoryManager) (story_full_id : Z * Z) : bool :=
  bool_decide (is_Some (inaccessible_story_full_ids_ m !! story_full_id)).

Definition get_story_force (td : Td) (story_full_id : Z * Z) (m : StoryManager)
  : option (StoryManager * option Story) :=
  if negb (story_full_id_is_valid td story_full_id) then Some (m, None)
  else
    let story := get_story m story_full_id in
    if bool_decide (is_Some (story ≫= content_)) then Some (m, story)
    else if negb (use_message_database td)
            || bool_decide (story_full_id ∈ failed_to_load_story_full_ids_ m)
            || is_inaccessible_story m story_full_id
            || bool_decide (story_full_id ∈ deleted_story_full_ids_ m)
    then Some (m, None)
    else load_story_from_database td story_full_id m.

Definition get_active_stories_force (td : Td) (owner_dialog_id : Z) (m : StoryManager)
  : option (StoryManager * option ActiveStories) :=
  match get_active_stories m owner_dialog_id with
  | Some a => Some (m, Some a)
  | None =>
      if negb (use_message_database td)
         || bool_decide (owner_dialog_id ∈ failed_to_load_active_stories_ m)
         || negb (dialog_id_is_valid td owner_dialog_id)
      then Some (m, None)
      else load_active_stories_from_database td owner_dialog_id m
  end.

Definition unregister_story_global_id (story : Story) (m : StoryManager)
  : option StoryManager :=
  (* CHECK(story->global_id_ > 0) *)
  if 0 <? global_id_ story
  then Some (upd_stories_by_global_id_ (delete (global_id_ story)) m)
  else None.

(** [td::contains] and [td::remove] on a vector of story ids. *)
Definition contains (l : list Z) (x : Z) : bool := bool_decide (x ∈ l).
Definition remove_value (l : list Z) (x : Z) : list Z :=
  List.filter (fun y => negb (y =? x)) l.

(** The part of [on_delete_story] that forgets a stored story: the update,
    the files, the global id, the record, a pending edit, the edit
    generation and the cached viewers. *)
Definition forget_story (td : Td) (story_full_id : Z * Z) (story : Story)
    (m : StoryManager) : option StoryManager :=
  let m := if is_update_sent_ story
           then emit (SendUpdate (updateStoryDeleted story_full_id.1 story_full_id.2)) m
           else m in
  let m := delete_story_files story m in
  m ← unregister_story_global_id story m;
  let m := upd_stories_ (delete story_full_id) m in
  let m :=
    match being_edited_stories_ m !! story_full_id with
    | Some edited =>
        let m := if bool_decide (edited_log_event_id_ edited <> 0)
                 then emit (BinlogErase (edited_log_event_id_ edited)) m else m in
        upd_being_edited_stories_ (delete story_full_id) m
    | None => m
    end in
  let m := upd_edit_generations_ (delete story_full_id) m in
  Some (upd_cached_story_viewers_ (delete story_full_id) m).

Definition on_delete_story (td : Td) (story_full_id : Z * Z) (m : StoryManager)
  : option StoryManager :=
  let story_id := story_full_id.2 in
  if negb (story_id_is_server td story_id) then Some m
  else
    let m := upd_inaccessible_story_full_ids_ (insert story_full_id (time_now td)) m in
    let m := emit (MessagesUpdateStoryMaxReplyMediaTimestamp story_full_id) m in
    '(m, story) ← get_story_force td story_full_id m;
    match story with
    | None => Some (delete_story_from_database td story_full_id m)
    | Some story =>
        let owner_dialog_id := story_full_id.1 in
        m ← forget_story td story_full_id story m;
        '(m, active_stories) ← get_active_stories_force td owner_dialog_id m;
        m ← match active_stories with
            | Some a =>
                if contains (story_ids_ a) story_id then
                  on_update_active_stories td owner_dialog_id (max_read_story_id_ a)
                    (remove_value (story_ids_ a) story_id) None false m
                else Some m
            | None => Some m
            end;
        Some (delete_story_from_database td story_full_id m)
    end.

(** ** Timers *)

Definition on_story_expire_timeout (td : Td) (story_global_id : Z) (m : StoryManager)
  : option StoryManager :=
  if close_flag td then Some m
  else
    let story_full_id := default (0, 0) (stories_by_global_id_ m !! story_global_id) in
    match get_story m story_full_id with
    | None => Some m
    | Some story =>
        if is_active_story td (Some story) then
          (* timeout used monotonic time instead of wall clock time *)
          on_story_changed td story_full_id story false false false m
        else
          let owner_dialog_id := story_full_id.1 in
          if negb (dialog_id_is_valid td owner_dialog_id) then None else
          m ← (if negb (is_story_owned td owner_dialog_id)
                  && bool_decide (content_ story <> None)
                  && negb (is_pinned_ story)
               then on_delete_story td story_full_id m   (* fully deleted *)
               else Some m);
          match get_active_stories m owner_dialog_id with
          | Some a =>
              if contains (story_ids_ a) story_full_id.2 then
                on_update_active_stories td owner_dialog_id (max_read_story_id_ a)
                  (story_ids_ a) None false m
              else Some m
          | None => Some m
          end
    end.

(** ** Sending and editing stories

    A new story gets the next value of [send_story_count_] as its number, is
    uploaded, becomes ready, and is sent when its number is the smallest one
    not yet sent.  An edit carries the edit generation of its story in
    [random_id_].  The results that other modules compute from the request
    ([get_input_story_content], [get_formatted_text], the privacy rules, the
    random id, the missing file parts of an error) are arguments. *)

(** [make_unique<BeingEditedStory>()]. *)
Definition new_BeingEditedStory : BeingEditedStory :=
  mkBeingEditedStory None "" false [] 0.

Definition set_promises (promises : list Promise) (m : StoryManager) : StoryManager :=
  foldl (fun m p => promise_set_value p m) m promises.

Definition fail_promises (promises : list Promise) (code : Z) (msg : string)
    (m : StoryManager) : StoryManager :=
  foldl (fun m p => promise_set_error p code msg m) m promises.

Definition set_was_reuploaded (p : PendingStory) : PendingStory :=
  mkPendingStory (dialog_id_ p) (story_id_ p) (send_story_num_ p) (random_id_ p)
                 true (log_event_id_ p) (story_ p).

Definition set_log_event_id (log_event_id : Z) (p : PendingStory) : PendingStory :=
  mkPendingStory (dialog_id_ p) (story_id_ p) (send_story_num_ p) (random_id_ p)
                 (was_reuploaded_ p) log_event_id (story_ p).

Definition set_pending_update_sent (p : PendingStory) : PendingStory :=
  mkPendingStory (dialog_id_ p) (story_id_ p) (send_story_num_ p) (random_id_ p)
                 (was_reuploaded_ p) (log_event_id_ p) (set_is_update_sent (story_ p)).

Definition save_send_story_log_event (td : Td) (m : StoryManager) : Z * StoryManager :=
  if negb (use_message_database td) then (0, m)
  else (binlog_next_id td, emit (BinlogAdd "SendStory" (binlog_next_id td)) m).

Definition do_send_story (td : Td) (pending_story : PendingStory) (bad_parts : list Z)
    (m : StoryManager) : option StoryManager :=
  (* CHECK(content != nullptr) *)
  content ← content_ (story_ pending_story);
  let upload_order := send_story_num_ pending_story in
  let file_id := get_story_content_any_file_id td content in
  (* CHECK(file_id.is_valid()) *)
  if negb (file_id_is_valid td file_id) then None
  else
    (* CHECK(is_inserted) *)
    match being_uploaded_files_ m !! file_id with
    | Some _ => None
    | None =>
        Some (emit (FileResumeUpload file_id bad_parts upload_order)
                (upd_being_uploaded_files_ (insert file_id pending_story) m))
    end.

Definition try_send_story (m : StoryManager) : StoryManager :=
  match set_begin (yet_unsent_stories_ m) with
  | None => m
  | Some send_story_num =>
      match ready_to_send_stories_ m !! send_story_num with
      | None => m
      | Some ready =>
          emit (SendQuery (SendStoryQuery (ready_file_id_ ready)
                             (ready_pending_story_ ready) (ready_input_file_ ready)))
            (upd_ready_to_send_stories_ (delete send_story_num) m)
      end
  end.

Definition on_send_story_file_parts_missing (td : Td) (pending_story : PendingStory)
    (bad_parts : list Z) (m : StoryManager) : option StoryManager :=
  do_send_story td pending_story bad_parts m.

(** [edit_generations_[story_full_id]]: the value, and the map in which a
    missing key has been created with value 0. *)
Definition edit_generation_at (story_full_id : Z * Z) (m : StoryManager)
  : Z * StoryManager :=
  match edit_generations_ m !! story_full_id with
  | Some generation => (generation, m)
  | None => (0, upd_edit_generations_ (insert story_full_id 0) m)
  end.

Definition do_edit_story (td : Td) (file_id : Z) (pending_story : PendingStory)
    (input_file : option Z) (m : StoryManager) : option StoryManager :=
  let story_full_id := (dialog_id_ pending_story, story_id_ pending_story) in
  let skip (m : StoryManager) :=
    if file_id_is_valid td file_id then emit (FileCancelUpload file_id) m else m in
  match get_story m story_full_id, being_edited_stories_ m !! story_full_id with
  | Some story, Some edited_story =>
      let '(generation, m) := edit_generation_at story_full_id m in
      if bool_decide (generation <> random_id_ pending_story) then Some (skip m)
      else
        (* CHECK(story->content_ != nullptr) *)
        if bool_decide (content_ story = None) then None
        else Some (emit (SendQuery (EditStoryQuery file_id pending_story input_file
                                      edited_story)) m)
  | _, _ => Some (skip m)
  end.

Definition delete_pending_story (td : Td) (file_id : Z) (pending_story : PendingStory)
    (status : Result unit) (m : StoryManager) : option StoryManager :=
  let m := if file_id_is_valid td file_id
           then emit (FileDeletePartialRemoteLocation file_id) m else m in
  let is_edit := story_id_is_server td (story_id_ pending_story) in
  if is_edit then
    let story_full_id := (dialog_id_ pending_story, story_id_ pending_story) in
    match get_story m story_full_id, being_edited_stories_ m !! story_full_id with
    | Some story, Some edited_story =>
        let '(generation, m) := edit_generation_at story_full_id m in
        if bool_decide (generation <> random_id_ pending_story) then Some m
        else
          (* CHECK(story->content_ != nullptr) *)
          if bool_decide (content_ story = None) then None
          else
            let promises := promises_ edited_story in
            let log_event_id := edited_log_event_id_ edited_story in
            let m := if bool_decide (log_event_id <> 0)
                     then emit (BinlogErase log_event_id) m else m in
            let m := upd_being_edited_stories_ (delete story_full_id) m in
            m ← on_story_changed td story_full_id story true true false m;
            let m := match status with
                     | Ok _ => set_promises promises m
                     | Error code msg => fail_promises promises code msg m
                     end in
            (* CHECK(pending_story->log_event_id_ == 0) *)
            if bool_decide (log_event_id_ pending_story = 0) then Some m else None
    | _, _ => Some m
    end
  else
    let m := upd_yet_unsent_stories_
               (fun s => s ∖ {[ send_story_num_ pending_story ]}) m in
    let m := try_send_story m in
    Some (if bool_decide (log_event_id_ pending_story <> 0)
          then emit (BinlogErase (log_event_id_ pending_story)) m else m).

Definition on_upload_story (td : Td) (file_id : Z) (input_file : option Z)
    (m : StoryManager) : option StoryManager :=
  if close_flag td then Some m
  else
    match being_uploaded_files_ m !! file_id with
    | None => Some m   (* the upload was canceled just before *)
    | Some pending_story =>
        let m := upd_being_uploaded_files_ (delete file_id) m in
        (* CHECK(!file_view.is_encrypted()) *)
        if file_is_encrypted td file_id then None
        else if bool_decide (input_file = None) && file_has_remote_location td file_id then
          if file_remote_location_is_web td file_id then
            delete_pending_story td file_id pending_story
              (Error 400 "Can't use web photo as a story") m
          else if was_reuploaded_ pending_story then
            delete_pending_story td file_id pending_story
              (Error 500 "Failed to reupload story") m
          else
            let pending_story := set_was_reuploaded pending_story in
            let m := emit (FileDeleteFileReference file_id) m in
            do_send_story td pending_story [-1] m
        else
          match input_file with
          | None => None   (* CHECK(input_file != nullptr) *)
          | Some input =>
              let is_edit := story_id_is_server td (story_id_ pending_story) in
              if is_edit then do_edit_story td file_id pending_story input_file m
              else
                let send_story_num := send_story_num_ pending_story in
                let m :=
                  upd_ready_to_send_stories_
                    (fun r => match r !! send_story_num with
                              | Some _ => r
                              | None => <[send_story_num :=
                                            mkReadyToSendStory file_id pending_story input]> r
                              end) m in
                Some (try_send_story m)
          end
    end.

Definition on_upload_story_error (td : Td) (file_id : Z) (code : Z) (msg : string)
    (m : StoryManager) : option StoryManager :=
  if close_flag td then Some m
  else
    match being_uploaded_files_ m !! file_id with
    | None => Some m
    | Some pending_story =>
        let m := upd_being_uploaded_files_ (delete file_id) m in
        delete_pending_story td file_id pending_story (Error code msg) m
    end.

(** The periods that a Premium user may choose besides one day. *)
Definition premium_active_periods : list Z :=
  [6 * 3600; 12 * 3600; 2 * 86400; 3 * 86400; 7 * 86400].

(** [send_story]; the result is what the promise receives.  [StoryId()] is
    the story id 0; [random_id] is the first non-zero value drawn. *)
Definition send_story (td : Td) (content : Result (list Z)) (caption : Result string)
    (privacy_rules : Result (list Z)) (active_period : Z)
    (is_pinned protect_content : bool) (random_id : Z) (m : StoryManager)
  : option (StoryManager * Result (option story_object)) :=
  let dialog_id := my_dialog_id td in
  match content with
  | Error code msg => Some (m, Error code msg)
  | Ok content =>
  match caption with
  | Error code msg => Some (m, Error code msg)
  | Ok caption =>
  match privacy_rules with
  | Error code msg => Some (m, Error code msg)
  | Ok privacy_rules =>
      let invalid_active_period :=
        if negb (active_period =? 86400)
           && negb (is_test_dc td && ((active_period =? 60) || (active_period =? 300)))
        then
          let is_premium := option_is_premium td in
          negb is_premium || negb (contains premium_active_periods active_period)
        else false in
      if invalid_active_period
      then Some (m, Error 400 "Invalid story active period specified")
      else
        let m := emit (MessagesForceCreateDialog dialog_id) m in
        let date := unix_time td in
        let story :=
          mkStory date (to_int32 (date + active_period)) (receive_date_ new_Story)
                  false false is_pinned false false false false protect_content
                  (interaction_info_ new_Story) privacy_rules (Some content) caption 0 in
        let send_story_num := to_uint32 (send_story_count_ m + 1) in
        let m := upd_send_story_count_ (fun _ => send_story_num) m in
        let pending_story := mkPendingStory dialog_id 0 send_story_num random_id false 0 story in
        let '(log_event_id, m) := save_send_story_log_event td m in
        let pending_story := set_log_event_id log_event_id pending_story in
        let m := upd_yet_unsent_stories_ (union {[ send_story_num ]}) m in
        m ← do_send_story td pending_story [] m;
        let object := get_story_object td m (dialog_id, 0) (Some story) in
        (* get_story_object marks the story, which the pending upload now holds *)
        let m := if bool_decide (is_Some object)
                 then upd_being_uploaded_files_
                        (alter set_pending_update_sent
                               (get_story_content_any_file_id td content)) m
                 else m in
        Some (m, Ok object)
  end end end.

Definition set_edited_content (c : option (list Z)) (e : BeingEditedStory)
  : BeingEditedStory :=
  mkBeingEditedStory c (edited_caption_ e) (edit_caption_ e) (promises_ e)
                     (edited_log_event_id_ e).

Definition set_edited_caption (caption : string) (e : BeingEditedStory)
  : BeingEditedStory :=
  mkBeingEditedStory (edited_content_ e) caption true (promises_ e)
                     (edited_log_event_id_ e).

Definition push_promise (p : Promise) (e : BeingEditedStory) : BeingEditedStory :=
  mkBeingEditedStory (edited_content_ e) (edited_caption_ e) (edit_caption_ e)
                     (promises_ e ++ [p]) (edited_log_event_id_ e).

Definition set_edited_log_event_id (id : Z) (e : BeingEditedStory) : BeingEditedStory :=
  mkBeingEditedStory (edited_content_ e) (edited_caption_ e) (edit_caption_ e)
                     (promises_ e) id.

Definition new_story_with_content (c : option (list Z)) : Story :=
  mkStory (date_ new_Story) (expire_date_ new_Story) (receive_date_ new_Story)
          (is_update_sent_ new_Story) (is_edited_ new_Story) (is_pinned_ new_Story)
          (is_public_ new_Story) (is_for_close_friends_ new_Story)
          (is_for_contacts_ new_Story) (is_for_selected_contacts_ new_Story)
          (noforwards_ new_Story) (interaction_info_ new_Story)
          (privacy_rules_ new_Story) c (caption_ new_Story) (global_id_ new_Story).

(** [edit_story]; an absent input is [None], [FileId()] is the file id 0. *)
Definition edit_story (td : Td) (story_id : Z)
    (input_story_content : option (Result (list Z)))
    (input_caption : option (Result string)) (promise : Promise) (m : StoryManager)
  : option StoryManager :=
  let dialog_id := my_dialog_id td in
  let story_full_id := (dialog_id, story_id) in
  match get_story m story_full_id with
  | None => Some (promise_set_error promise 400 "Story not found" m)
  | Some story =>
  if bool_decide (content_ story = None)
  then Some (promise_set_error promise 400 "Story not found" m)
  else if negb (story_id_is_server td story_id)
  then Some (promise_set_error promise 400 "Story can't be edited" m)
  else
  match input_story_content, input_caption with
  | Some (Error code msg), _ => Some (promise_set_error promise code msg m)
  | _, Some (Error code msg) => Some (promise_set_error promise code msg m)
  | _, _ =>
      let content : option (list Z) :=
        match input_story_content with Some (Ok c) => Some c | _ => None end in
      let caption : string :=
        match input_caption with Some (Ok c) => c | _ => "" end in
      let is_caption_edited :=
        match input_caption with
        | Some _ =>
            let current_caption :=
              match being_edited_stories_ m !! story_full_id with
              | Some edited => if edit_caption_ edited then edited_caption_ edited
                               else caption_ story
              | None => caption_ story
              end in
            negb (bool_decide (current_caption = caption))
        | None => false
        end in
      if bool_decide (content = None) && negb is_caption_edited
      then Some (promise_set_value promise m)
      else
        let edited_story :=
          default new_BeingEditedStory (being_edited_stories_ m !! story_full_id) in
        let edit_generation := default 0 (edit_generations_ m !! story_full_id) in
        let '(edited_story, edit_generation) :=
          match content with
          | Some c => (set_edited_content (Some c) edited_story, edit_generation + 1)
          | None => (edited_story, edit_generation)
          end in
        let '(edited_story, edit_generation) :=
          if is_caption_edited
          then (set_edited_caption caption edited_story, edit_generation + 1)
          else (edited_story, edit_generation) in
        let edited_story := push_promise promise edited_story in
        let new_story := new_story_with_content (edited_content_ edited_story) in
        let send_story_count := to_uint32 (send_story_count_ m + 1) in
        let m := upd_send_story_count_ (fun _ => send_story_count) m in
        let pending_story :=
          mkPendingStory dialog_id story_id (UINT32_MAX - send_story_count)
                         edit_generation false 0 new_story in
        let '(edited_story, m) :=
          if use_message_database td then
            if edited_log_event_id_ edited_story =? 0
            then (set_edited_log_event_id (binlog_next_id td) edited_story,
                  emit (BinlogAdd "EditStory" (binlog_next_id td)) m)
            else (edited_story,
                  emit (BinlogRewrite "EditStory" (edited_log_event_id_ edited_story)) m)
          else (edited_story, m) in
        let m := upd_being_edited_stories_ (insert story_full_id edited_story) m in
        let m := upd_edit_generations_ (insert story_full_id edit_generation) m in
        m ← on_story_changed td story_full_id story true true false m;
        if bool_decide (edited_content_ edited_story = None)
        then do_edit_story td 0 pending_story None m
        else do_send_story td pending_story [] m
  end
  end.

(** The entry points through which the rest of the client drives the sending
    of stories: the two requests, the two upload callbacks, and what the
    result handlers of the send and edit queries call. *)
Inductive SendCall :=
| Call_send_story (content : Result (list Z)) (caption : Result string)
                  (privacy_rules : Result (list Z)) (active_period : Z)
                  (is_pinned protect_content : bool) (random_id : Z)
| Call_edit_story (story_id : Z) (input_story_content : option (Result (list Z)))
                  (input_caption : option (Result string)) (promise : Promise)
| Call_on_upload_story (file_id : Z) (input_file : option Z)
| Call_on_upload_story_error (file_id : Z) (code : Z) (msg : string)
| Call_delete_pending_story (file_id : Z) (pending_story : PendingStory)
                            (status : Result unit)
| Call_on_send_story_file_parts_missing (pending_story : PendingStory)
                                        (bad_parts : list Z).

Definition run_send_call (td : Td) (c : SendCall) (m : StoryManager)
  : option StoryManager :=
  match c with
  | Call_send_story content caption privacy_rules active_period is_pinned
                    protect_content random_id =>
      fst <$> send_story td content caption privacy_rules active_period is_pinned
                         protect_content random_id m
  | Call_edit_story story_id input_story_content input_caption promise =>
      edit_story td story_id input_story_content input_caption promise m
  | Call_on_upload_story file_id input_file => on_upload_story td file_id input_file m
  | Call_on_upload_story_error file_id code msg =>
      on_upload_story_error td file_id code msg m
  | Call_delete_pending_story file_id pending_story status =>
      delete_pending_story td file_id pending_story status m
  | Call_on_send_story_file_parts_missing pending_story bad_parts =>
      on_send_story_file_parts_missing td pending_story bad_parts m
  end.

Fixpoint run_send_calls (calls : list (Td * SendCall)) (m : StoryManager)
  : option StoryManager :=
  match calls with
  | [] => Some m
  | (td, c) :: calls => m ← run_send_call td c m; run_send_calls calls m
  end.

(** The numbers of the stories for which a send query has been issued, in
    the order of the queries. *)
Definition sent_story_nums (es : list Effect) : list Z :=
  flat_map (fun e => match e with
                     | SendQuery (SendStoryQuery _ p _) => [send_story_num_ p]
                     | _ => []
                     end) es.

(** What the send queue maintains: numbers not yet sent and numbers already
    issued are at most the counter, an issued number is at most every number
    not yet sent, a ready story is filed under its own number, and the issued
    numbers are in order. *)
Definition send_queue_ok (m : StoryManager) : Prop :=
  0 <= send_story_count_ m /\
  (forall x, x ∈ yet_unsent_stories_ m -> x <= send_story_count_ m) /\
  (forall n, n ∈ sent_story_nums (effects_ m) -> n <= send_story_count_ m) /\
  (forall n x, n ∈ sent_story_nums (effects_ m) -> x ∈ yet_unsent_stories_ m -> n <= x) /\
  (forall k r, ready_to_send_stories_ m !! k = Some r ->
               send_story_num_ (ready_pending_story_ r) = k) /\
  StronglySorted Z.le (sent_story_nums (effects_ m)).

(** The members of the send queue, and the issued numbers, are the same. *)
Definition same_send_queue (m m' : StoryManager) : Prop :=
  send_story_count_ m' = send_story_count_ m /\
  yet_unsent_stories_ m' = yet_unsent_stories_ m /\
  ready_to_send_stories_ m' = ready_to_send_stories_ m /\
  sent_story_nums (effects_ m') = sent_story_nums (effects_ m).

(** The pending edits and the edit generations are the same. *)
Definition same_edits (m m' : StoryManager) : Prop :=
  being_edited_stories_ m' = being_edited_stories_ m /\
  edit_generations_ m' = edit_generations_ m.

(** ** Opened stories *)

(** [close_story]; the result is what the promise receives. *)
Definition close_story (td : Td) (owner_dialog_id story_id : Z) (m : StoryManager)
  : StoryManager * Result unit :=
  if negb (have_dialog_force td owner_dialog_id)
  then (m, Error 400 "Story sender not found")
  else if negb (have_input_peer_read td owner_dialog_id)
  then (m, Error 400 "Can't access the story sender")
  else if negb (story_id_is_valid td story_id)
  then (m, Error 400 "Invalid story identifier specified")
  else
    let story_full_id := (owner_dialog_id, story_id) in
    let '(m, was_opened) :=
      if is_story_owned td owner_dialog_id && story_id_is_server td story_id then
        (* opened_owned_stories_[story_full_id] creates a missing entry *)
        let open_count := default 0 (opened_owned_stories_ m !! story_full_id) in
        if open_count =? 0
        then (upd_opened_owned_stories_ (insert story_full_id 0) m, false)
        else if open_count - 1 =? 0 then
          let m := upd_opened_owned_stories_ (delete story_full_id) m in
          (if bool_decide (opened_owned_stories_ m = ∅)
           then upd_has_interaction_info_update_timeout_ (fun _ => false) m
           else m, true)
        else (upd_opened_owned_stories_ (insert story_full_id (open_count - 1)) m, true)
      else (m, true) in
    if negb was_opened then (m, Error 400 "The story wasn't opened")
    else
      match get_story m story_full_id with
      | None => (m, Ok ())
      | Some story =>
          let m :=
            if story_id_is_server td story_id then
              let open_count := default 0 (opened_stories_ m !! story_full_id) in
              if (0 <? open_count) && (open_count - 1 =? 0) then
                upd_story_reload_timeout_ (delete (global_id_ story))
                  (upd_opened_stories_ (delete story_full_id) m)
              else if 0 <? open_count
              then upd_opened_stories_ (insert story_full_id (open_count - 1)) m
              else upd_opened_stories_ (insert story_full_id open_count) m
            else m in
          (m, Ok ())
      end.

(** ** Story viewers

    A viewer is a pair of a user id and a view date.  Whether an offset
    viewer is empty is decided in MessageViewer.h. *)

Section Viewers.

Variable message_viewer_is_empty : Z * Z -> bool.

(** [get_story_viewers]; the result is what the promise receives at once,
    [None] when the answer is left to the query that has been sent. *)
Definition get_story_viewers (td : Td) (story_id : Z) (offset : option (Z * Z))
    (limit : Z) (promise : Promise) (m : StoryManager)
  : StoryManager * option (Result (list (Z * Z))) :=
  let owner_dialog_id := my_dialog_id td in
  let story_full_id := (owner_dialog_id, story_id) in
  match get_story m story_full_id with
  | None => (m, Some (Error 400 "Story not found"))
  | Some story =>
      if limit <=? 0 then (m, Some (Error 400 "Parameter limit must be positive"))
      else if is_error (can_get_story_viewers td story_full_id story)
              || (get_view_count td (interaction_info_ story) =? 0)
      then (m, Some (Ok []))
      else
        let offset_date := match offset with Some o => o.2 | None => 0 end in
        let offset_user_id := match offset with Some o => o.1 | None => 0 end in
        let offset_viewer := (offset_user_id, offset_date) in
        (* cached_story_viewers_[story_full_id] creates a missing entry *)
        let cached_viewers := default None (cached_story_viewers_ m !! story_full_id) in
        let m := match cached_story_viewers_ m !! story_full_id with
                 | Some _ => m
                 | None => upd_cached_story_viewers_ (insert story_full_id None) m
                 end in
        let result :=
          match cached_viewers with
          | Some cached =>
              if bool_decide (content_ story <> None)
                 && ((total_count_ cached =? get_view_count td (interaction_info_ story))
                     || negb (message_viewer_is_empty offset_viewer))
              then viewers_get_sublist td (viewers_ cached) offset_viewer limit
              else []
          | None => []
          end in
        if bool_decide (result <> []) then
          (* can return the viewers *)
          (emit (ContactsOnViewUserActiveStories (map fst result)) m, Some (Ok result))
        else
          (emit (SendQuery (GetStoryViewsListQuery story_id offset_date offset_user_id
                              limit promise)) m, None)
  end.

Definition set_interaction_info (i : StoryInteractionInfo) (s : Story) : Story :=
  mkStory (date_ s) (expire_date_ s) (receive_date_ s) (is_update_sent_ s) (is_edited_ s)
          (is_pinned_ s) (is_public_ s) (is_for_close_friends_ s) (is_for_contacts_ s)
          (is_for_selected_contacts_ s) (noforwards_ s) i
          (privacy_rules_ s) (content_ s) (caption_ s) (global_id_ s).

(** [on_get_story_viewers]; [r_view_list] is the answer of the server, the
    count and the viewers; the result is what the promise receives. *)
Definition on_get_story_viewers (td : Td) (story_id : Z) (offset : Z * Z)
    (r_view_list : Result (Z * list (Z * Z))) (m : StoryManager)
  : option (StoryManager * Result (list (Z * Z))) :=
  (* G()->ignore_result_if_closing(r_view_list) *)
  let r_view_list :=
    if close_flag td && negb (is_error r_view_list)
    then Error (request_aborted_error td).1 (request_aborted_error td).2
    else r_view_list in
  match r_view_list with
  | Error code msg => Some (m, Error code msg)
  | Ok (count, views) =>
      let owner_dialog_id := my_dialog_id td in
      (* CHECK(story_id.is_server()) *)
      if negb (story_id_is_server td story_id) then None
      else
        let story_full_id := (owner_dialog_id, story_id) in
        match get_story m story_full_id with
        | None => Some (m, Ok [])
        | Some story =>
            let m := emit ContactsOnGetUsers m in
            let size := Z.of_nat (length views) in
            let total_count :=
              if (count <? 0) || (count <? size) then to_int32 size else count in
            m ← match content_ story with
                | None => Some m
                | Some _ =>
                    let '(info, changed) := set_view_count td (interaction_info_ story) count in
                    m ← (if changed then
                           let info := if message_viewer_is_empty offset
                                       then set_recent_viewer_user_ids td info (map fst views)
                                       else info in
                           let story := set_interaction_info info story in
                           let m := upd_stories_ (insert story_full_id story) m in
                           on_story_changed td story_full_id story true true false m
                         else
                           Some (upd_stories_
                                   (insert story_full_id (set_interaction_info info story)) m));
                    (* cached_story_viewers_[story_full_id], created when missing *)
                    let cached :=
                      default (new_CachedStoryViewers td)
                              (default None (cached_story_viewers_ m !! story_full_id)) in
                    let new_total_count :=
                      if total_count <? total_count_ cached
                      then total_count_ cached   (* the count decreased: keep *)
                      else total_count in
                    let cached :=
                      mkCachedStoryViewers new_total_count
                        (viewers_add_sublist td (viewers_ cached) offset views) in
                    Some (upd_cached_story_viewers_ (insert story_full_id (Some cached)) m)
                end;
            let m := emit (ContactsOnViewUserActiveStories (map fst views)) m in
            Some (m, Ok views)
        end
  end.

End Viewers.

(** The two ordered lists are the same. *)
Definition same_story_lists (m m' : StoryManager) : Prop :=
  story_list_main_ m' = story_list_main_ m /\
  story_list_archive_ m' = story_list_archive_ m.

(** ** Messages that show a story

    [story_messages_] maps a story to the set of the messages that contain
    it; the set is kept as the list of its elements. *)

Definition register_story (td : Td) (story_full_id : Z * Z) (full_message_id : Z * Z)
    (m : StoryManager) : option StoryManager :=
  if is_bot td then Some m
  else
    (* CHECK(story_full_id.is_valid()) *)
    if negb (story_full_id_is_valid td story_full_id) then None
    else
      let message_ids := default [] (story_messages_ m !! story_full_id) in
      let message_ids :=
        if bool_decide (full_message_id ∈ message_ids) then message_ids
        else message_ids ++ [full_message_id] in
      Some (upd_story_messages_ (insert story_full_id message_ids) m).

Definition unregister_story (td : Td) (story_full_id : Z * Z) (full_message_id : Z * Z)
    (m : StoryManager) : option StoryManager :=
  if is_bot td then Some m
  else
    (* CHECK(story_full_id.is_valid()) *)
    if negb (story_full_id_is_valid td story_full_id) then None
    else
      let message_ids := default [] (story_messages_ m !! story_full_id) in
      (* LOG_CHECK(is_deleted) *)
      if negb (bool_decide (full_message_id ∈ message_ids)) then None
      else
        let message_ids :=
          List.filter (fun x => negb (bool_decide (x = full_message_id))) message_ids in
        if bool_decide (message_ids = [])
        then Some (upd_story_messages_ (delete story_full_id) m)
        else Some (upd_story_messages_ (insert story_full_id message_ids) m).

(** No story is registered with an empty set of messages; [on_story_changed]
    checks this for the story it is called for. *)
Definition story_messages_nonempty (m : StoryManager) : Prop :=
  forall story_full_id message_ids,
    story_messages_ m !! story_full_id = Some message_ids -> message_ids <> [].

Definition on_story_can_get_viewers_timeout (td : Td) (story_global_id : Z)
    (m : StoryManager) : option StoryManager :=
  if close_flag td then Some m
  else
    let story_full_id := default (0, 0) (stories_by_global_id_ m !! story_global_id) in
    match get_story m story_full_id with
    | None => Some m
    | Some story =>
        if negb (is_error (can_get_story_viewers td story_full_id story)) then
          (* timeout used monotonic time instead of wall clock time *)
          on_story_changed td story_full_id story false false false m
        else
          m ← (if bool_decide (content_ story <> None) && is_update_sent_ story
               then send_update_story td story_full_id story m   (* the flag changed *)
               else Some m);
          Some (upd_cached_story_viewers_ (delete story_full_id) m)
    end.

(** ** Stories known only by their dates *)

Definition set_global_id (global_id : Z) (s : Story) : Story :=
  mkStory (date_ s) (expire_date_ s) (receive_date_ s) (is_update_sent_ s) (is_edited_ s)
          (is_pinned_ s) (is_public_ s) (is_for_close_friends_ s) (is_for_contacts_ s)
          (is_for_selected_contacts_ s) (noforwards_ s) (interaction_info_ s)
          (privacy_rules_ s) (content_ s) (caption_ s) global_id.

Definition set_story_info (date expire_date : Z) (is_for_close_friends : bool)
    (s : Story) : Story :=
  mkStory date expire_date (receive_date_ s) (is_update_sent_ s) (is_edited_ s)
          (is_pinned_ s) (is_public_ s) is_for_close_friends (is_for_contacts_ s)
          (is_for_selected_contacts_ s) (noforwards_ s) (interaction_info_ s)
          (privacy_rules_ s) (content_ s) (caption_ s) (global_id_ s).

(** [register_story_global_id]: the story with its new global id, and the
    manager with the id recorded. *)
Definition register_story_global_id (story_full_id : Z * Z) (story : Story)
    (m : StoryManager) : option (Story * StoryManager) :=
  (* CHECK(story->global_id_ == 0) *)
  if bool_decide (global_id_ story = 0) then
    let global_id := max_story_global_id_ m + 1 in
    Some (set_global_id global_id story,
          upd_stories_by_global_id_ (insert global_id story_full_id)
            (upd_max_story_global_id_ (fun _ => global_id) m))
  else None.

(** [on_get_story_info]; the result is the story id, 0 for [StoryId()]. *)
Definition on_get_story_info (td : Td) (owner_dialog_id : Z) (story_info : StoryInfo)
    (m : StoryManager) : option (StoryManager * Z) :=
  let story_id := info_story_id_ story_info in
  if negb (story_id_is_server td story_id) then Some (m, 0)
  else if bool_decide ((owner_dialog_id, story_id) ∈ deleted_story_full_ids_ m)
  then Some (m, 0)
  else
    let m := emit (MessagesForceCreateDialog owner_dialog_id) m in
    let story_full_id := (owner_dialog_id, story_id) in
    '(story, m) ← match get_story m story_full_id with
                  | Some story => Some (story, m)
                  | None =>
                      '(story, m) ← register_story_global_id story_full_id new_Story m;
                      Some (story,
                            upd_inaccessible_story_full_ids_ (delete story_full_id)
                              (upd_stories_ (insert story_full_id story) m))
                  end;
    let date := if info_date_ story_info <=? 0 then 1 else info_date_ story_info in
    let expire_date :=
      if info_expire_date_ story_info <=? date then to_int32 (date + 1)
      else info_expire_date_ story_info in
    if bool_decide (date_ story <> date)
       || bool_decide (expire_date_ story <> expire_date)
       || bool_decide (is_for_close_friends_ story
                       <> info_is_for_close_friends_ story_info)
    then
      let story := set_story_info date expire_date
                     (info_is_for_close_friends_ story_info) story in
      let m := upd_stories_ (insert story_full_id story) m in
      m ← on_story_changed td story_full_id story true true false m;
      Some (m, story_id)
    else Some (m, story_id).

(** Every stored story has a global id of its own that leads back to it. *)
Definition global_ids_consistent (m : StoryManager) : Prop :=
  forall story_full_id story,
    get_story m story_full_id = Some story ->
    0 < global_id_ story <= max_story_global_id_ m /\
    stories_by_global_id_ m !! global_id_ story = Some story_full_id.

(** ** Sample data for the examples

    One concrete environment: identifiers are valid when positive, server
    story ids are the positive ones up to 1999999999, a positive dialog id is
    a user, [DialogDate]s are ordered by descending order and then descending
    dialog id, and nothing can be loaded from the database. *)

Definition sample_td (now : Z) (bot test_dc premium : bool) : Td :=
  {| story_id_is_valid := fun id => 0 <? id;
     story_id_is_server := fun id => (0 <? id) && (id <=? 1999999999);
     story_full_id_is_valid := fun id => negb (id.1 =? 0) && (0 <? id.2);
     dialog_id_is_valid := fun d => negb (d =? 0);
     dialog_id_get_type := fun d =>
       if 0 <? d then DialogType_User
       else if d <? 0 then DialogType_Channel else DialogType_None;
     dialog_id_of_user := fun u => u;
     dialog_id_get_user_id := fun d => d;
     dialog_date_le := fun a b => (b.1 <? a.1) || ((a.1 =? b.1) && (b.2 <=? a.2));
     MAX_DIALOG_DATE := (0, 0);
     MIN_DIALOG_DATE := (2 ^ 63 - 1, 0);
     set_view_count := fun i c =>
       if view_count_ i <? c
       then (mkStoryInteractionInfo c (recent_viewer_user_ids_ i), true)
       else (i, false);
     get_view_count := fun i => Z.max 0 (view_count_ i);
     set_recent_viewer_user_ids := fun i l => mkStoryInteractionInfo (view_count_ i) l;
     viewers_get_sublist := fun cache offset limit => [];
     viewers_add_sublist := fun cache offset l => cache ++ l;
     new_CachedStoryViewers := mkCachedStoryViewers (-1) [];
     is_bot := bot;
     unix_time := now;
     time_now := now;
     close_flag := false;
     use_message_database := false;
     is_test_dc := test_dc;
     option_is_premium := premium;
     option_story_viewers_expiration_delay := 86400;
     option_stories_changelog_user_id := 777000;
     get_my_id := 1;
     is_user_premium := fun u => u =? 2;
     is_user_contact := fun u => 0 <? u;
     get_user_stories_hidden := fun u => u =? 9;
     have_dialog_force := fun d => negb (d =? 404);
     have_input_peer_read := fun d => negb (d =? 403);
     file_id_is_valid := fun f => 0 <? f;
     file_is_encrypted := fun f => false;
     file_has_remote_location := fun f => false;
     file_remote_location_is_web := fun f => false;
     get_story_content_any_file_id := fun c => List.hd 0 c;
     binlog_next_id := 1;
     request_aborted_error := (500, "Request aborted");
     load_story_from_database := fun id m => Some (m, None);
     load_active_stories_from_database := fun d m => Some (m, None) |}.

Definition sample_story_list (last : Z * Z) (server_total sent_total : Z)
    (owners : gset (Z * Z)) : StoryList :=
  mkStoryList "state" server_total false true owners last sent_total.

(** ** Well-formedness of the ordered lists with respect to one owner

    The owner's entry and the two ordered lists agree: the key of the entry
    is in the list the entry names, and no list holds another key of this
    owner.  The CHECKs on [is_deleted] and [is_inserted] rely on it. *)
Definition owner_keys_consistent (owner_dialog_id : Z) (a : ActiveStories)
    (m : StoryManager) : Prop :=
  (story_list_id_is_valid (story_list_id_ a) = true ->
     (private_order_ a, owner_dialog_id)
       ∈ ordered_stories_ (story_list_of (story_list_id_ a) m)) /\
  (forall l o, story_list_id_is_valid l = true ->
     (o, owner_dialog_id) ∈ ordered_stories_ (story_list_of l m) ->
     l = story_list_id_ a /\ o = private_order_ a).

(** What StoryId.h gives for every identifier: a server id is a valid id.
    [save_active_stories] relies on it for the ids that
    [on_update_active_stories] keeps. *)
Definition server_story_ids_valid (td : Td) : Prop :=
  forall story_id,
    story_id_is_server td story_id = true -> story_id_is_valid td story_id = true.

Definition owner_is_premium (td : Td) (owner_dialog_id : Z) : bool :=
  bool_decide (dialog_id_get_type td owner_dialog_id = DialogType_User)
  && is_user_premium td (dialog_id_get_user_id td owner_dialog_id).

(** The ids that [on_update_active_stories] keeps. *)
Definition kept_story_ids (td : Td) (m : StoryManager) (owner_dialog_id : Z)
    (story_ids : list Z) : list Z :=
  (remove_if (is_dropped_story_id td m owner_dialog_id) story_ids).1.

(** The rows of active stories that a log writes or deletes in the
    database. *)
Definition is_active_stories_row (e : Effect) : bool :=
  match e with
  | DbAddActiveStories _ _ _ _ _ _ | DbDeleteActiveStories _ _ => true
  | _ => false
  end.

Definition active_stories_rows (es : list Effect) : list Effect :=
  List.filter is_active_stories_row es.

(** [same_rows m m']: between [m] and [m'] no row of active stories has been
    written or deleted. *)
Definition same_rows (m m' : StoryManager) : Prop :=
  active_stories_rows (effects_ m') = active_stories_rows (effects_ m).

(** ** Frames: the manager with some members blanked out

    Two managers that agree after blanking differ at most in the blanked
    members. *)
Definition blank_StoryList : StoryList := mkStoryList "" 0 false false ∅ (0, 0) 0.

Definition without_lists_and_effects (m : StoryManager) : StoryManager :=
  upd_story_list_main_ (fun _ => blank_StoryList)
    (upd_story_list_archive_ (fun _ => blank_StoryList)
       (upd_effects_ (fun _ => []) m)).

Definition without_active_part (m : StoryManager) : StoryManager :=
  upd_active_stories_ (fun _ => ∅)
    (upd_max_read_story_ids_ (fun _ => ∅)
       (upd_failed_to_load_active_stories_ (fun _ => ∅)
          (without_lists_and_effects m))).

(** [same_but_lists m m']: [m'] differs from [m] at most in the two story
    lists and in the log, which has only grown; [same_but_active] also lets
    the active part differ. *)
Definition same_but_lists (m m' : StoryManager) : Prop :=
  without_lists_and_effects m' = without_lists_and_effects m
  /\ effects_ m `prefix_of` effects_ m'.

Definition same_but_active (m m' : StoryManager) : Prop :=
  without_active_part m' = without_active_part m
  /\ effects_ m `prefix_of` effects_ m'.

Definition without_story_part (m : StoryManager) : StoryManager :=
  upd_stories_ (fun _ => ∅)
    (upd_stories_by_global_id_ (fun _ => ∅)
       (upd_inaccessible_story_full_ids_ (fun _ => ∅)
          (upd_being_edited_stories_ (fun _ => ∅)
             (upd_edit_generations_ (fun _ => ∅)
                (upd_cached_story_viewers_ (fun _ => ∅)
                   (upd_effects_ (fun _ => []) m)))))).

Definition without_timers (m : StoryManager) : StoryManager :=
  upd_story_expire_timeout_ (fun _ => ∅)
    (upd_story_can_get_viewers_timeout_ (fun _ => ∅) m).

(** [same_but_timers m m']: [m'] differs from [m] at most in the expire and
    viewers timers; in particular the log is the same. *)
Definition same_but_timers (m m' : StoryManager) : Prop :=
  without_timers m' = without_timers m.

(** The owner's active stories need not be read from the database. *)
Definition active_stories_loaded (td : Td) (owner_dialog_id : Z) (m : StoryManager)
  : Prop :=
  is_Some (active_stories_ m !! owner_dialog_id)
  \/ use_message_database td = false
  \/ owner_dialog_id ∈ failed_to_load_active_stories_ m.

(** A story list of which nothing has been loaded yet: its cursor
    [list_last_story_date_] is [MIN_DIALOG_DATE], below every key, and the
    counts are unknown. *)
Definition new_StoryList (td : Td) : StoryList :=
  mkStoryList "" (-1) true false ∅ (MIN_DIALOG_DATE td) (-1).

Definition new_StoryManager (td : Td) : StoryManager :=
  Build_StoryManager ∅ ∅ 0 ∅ ∅ ∅ ∅ ∅ ∅ ∅ (new_StoryList td) (new_StoryList td) ∅ ∅ 0 ∅ ∅
                     ∅ ∅ ∅ ∅ ∅ ∅ ∅ false [].

Definition set_list_last_story_date (d : Z * Z) (sl : StoryList) : StoryList :=
  mkStoryList (state_ sl) (server_total_count_ sl) (server_has_more_ sl)
              (is_reloaded_server_total_count_ sl) (ordered_stories_ sl) d
              (sent_total_count_ sl).

Definition sample_story (date expire : Z) (content : option (list Z)) (pinned : bool)
    (global_id : Z) : Story :=
  mkStory date expire date true false pinned false false false false false
          (mkStoryInteractionInfo 0 []) [] content "" global_id.

(** A store with two stories of user 2, sent at 900 and 950, expiring at
    2000, after both story lists have been loaded to the end (their cursor is
    [MAX_DIALOG_DATE]). *)
Definition sample_manager : StoryManager :=
  let td := sample_td 1000 false false false in
  upd_stories_ (fun _ => {[ (2, 3) := sample_story 900 2000 (Some [31]) false 1;
                            (2, 5) := sample_story 950 2000 (Some [51]) false 2 ]})
    (upd_stories_by_global_id_ (fun _ => {[ 1 := (2, 3); 2 := (2, 5) ]})
       (upd_max_story_global_id_ (fun _ => 2)
          (upd_story_list_main_ (set_list_last_story_date (MAX_DIALOG_DATE td))
             (upd_story_list_archive_ (set_list_last_story_date (MAX_DIALOG_DATE td))
                (new_StoryManager td))))).

(** The sample store with one more story, owned by the user (user 1) and
    listed as active, expiring at 2000. *)
Definition sample_manager_own : StoryManager :=
  upd_stories_ (insert (1, 7) (sample_story 900 2000 (Some [71]) false 3))
    (upd_stories_by_global_id_ (insert 3 (1, 7))
       (upd_active_stories_ (insert 1 (mkActiveStories 0 [7] StoryListId_none 0 0))
          sample_manager)).

(** Two new stories with the files 11 and 12; the second upload finishes
    first, then the first one, and then the first send query succeeds. *)
Definition sample_send_calls : list (Td * SendCall) :=
  let td := sample_td 1000 false false false in
  [ (td, Call_send_story (Ok [11]) (Ok "a") (Ok []) 86400 false false 71);
    (td, Call_send_story (Ok [12]) (Ok "b") (Ok []) 86400 false false 72);
    (td, Call_on_upload_story 12 (Some 2));
    (td, Call_on_upload_story 11 (Some 1));
    (td, Call_delete_pending_story 11
           (mkPendingStory 1 0 1 71 false 0
              (set_is_update_sent
                 (mkStory 1000 87400 0 false false false false false false false false
                          (mkStoryInteractionInfo (-1) []) [] (Some [11]) "a" 0)))
           (Ok ())) ].

(** The sample store while the own story is being edited for the second
    time, with one promise waiting. *)
Definition sample_manager_editing : StoryManager :=
  upd_edit_generations_ (insert (1, 7) 2)
    (upd_being_edited_stories_
       (insert (1, 7) (mkBeingEditedStory None "new caption" true [Some 5%nat] 0))
       sample_manager_own).

(** The pending story of the first edit of the own story. *)
Definition sample_first_edit : PendingStory :=
  mkPendingStory 1 7 (UINT32_MAX - 1) 1 false 0 (new_story_with_content (Some [72])).

(** The sample store after two stories have been requested and uploaded, the
    first of them being sent. *)
Definition sample_manager_sending : StoryManager :=
  let td := sample_td 1000 false false false in
  default (new_StoryManager td)
          (run_send_calls (take 4 sample_send_calls) (new_StoryManager td)).

(** An offset viewer is empty when it names no user and no date. *)
Definition sample_viewer_is_empty (v : Z * Z) : bool := (v.1 =? 0) && (v.2 =? 0).

(** The environment in which every file has a remote location that is not a
    web location. *)
Definition with_remote_files (td : Td) : Td :=
  mkTd (story_id_is_valid td) (story_id_is_server td) (story_full_id_is_valid td)
       (dialog_id_is_valid td) (dialog_id_get_type td) (dialog_id_of_user td)
       (dialog_id_get_user_id td) (dialog_date_le td) (MAX_DIALOG_DATE td)
       (MIN_DIALOG_DATE td)
       (set_view_count td) (get_view_count td) (set_recent_viewer_user_ids td)
       (viewers_get_sublist td) (viewers_add_sublist td) (new_CachedStoryViewers td)
       (is_bot td) (unix_time td) (time_now td) (close_flag td)
       (use_message_database td) (is_test_dc td) (option_is_premium td)
       (option_story_viewers_expiration_delay td) (option_stories_changelog_user_id td)
       (get_my_id td) (is_user_premium td) (is_user_contact td)
       (get_user_stories_hidden td) (have_dialog_force td) (have_input_peer_read td)
       (file_id_is_valid td) (file_is_encrypted td) (fun _ => true) (fun _ => false)
       (get_story_content_any_file_id td) (binlog_next_id td) (request_aborted_error td)
       (load_story_from_database td) (load_active_stories_from_database td).

(** The environment with a message database. *)
Definition with_message_database (td : Td) : Td :=
  mkTd (story_id_is_valid td) (story_id_is_server td) (story_full_id_is_valid td)
       (dialog_id_is_valid td) (dialog_id_get_type td) (dialog_id_of_user td)
       (dialog_id_get_user_id td) (dialog_date_le td) (MAX_DIALOG_DATE td)
       (MIN_DIALOG_DATE td)
       (set_view_count td) (get_view_count td) (set_recent_viewer_user_ids td)
       (viewers_get_sublist td) (viewers_add_sublist td) (new_CachedStoryViewers td)
       (is_bot td) (unix_time td) (time_now td) (close_flag td)
       true (is_test_dc td) (option_is_premium td)
       (option_story_viewers_expiration_delay td) (option_stories_changelog_user_id td)
       (get_my_id td) (is_user_premium td) (is_user_contact td)
       (get_user_stories_hidden td) (have_dialog_force td) (have_input_peer_read td)
       (file_id_is_valid td) (file_is_encrypted td) (file_has_remote_location td)
       (file_remote_location_is_web td)
       (get_story_content_any_file_id td) (binlog_next_id td) (request_aborted_error td)
       (load_story_from_database td) (load_active_stories_from_database td).

(** A new story with the file 11 and the number 1, and the manager while the
    file is being uploaded. *)
Definition sample_pending_story : PendingStory :=
  mkPendingStory 1 0 1 71 false 0 (new_story_with_content (Some [11])).

Definition sample_manager_uploading : StoryManager :=
  upd_being_uploaded_files_ (insert 11 sample_pending_story)
    (upd_yet_unsent_stories_ (fun _ => {[ 1 ]})
       (upd_send_story_count_ (fun _ => 1)
          (new_StoryManager (sample_td 1000 false false false)))).

(** * Properties *)

#[local] Set Warnings "-clear-no-such-hyp".

(** ** Machine integers *)

Lemma to_int32_id z : - 2 ^ 31 <= z < 2 ^ 31 -> to_int32 z = z.
Proof.
  intros Hz. unfold to_int32.
  rewrite Z.mod_small; lia.
Qed.

Lemma to_int32_range z : - 2 ^ 31 <= to_int32 z < 2 ^ 31.
Proof.
  unfold to_int32.
  pose proof (Z.mod_pos_bound (z + 2 ^ 31) (2 ^ 32) ltac:(lia)). lia.
Qed.

(** ** The total count of a story list (update_story_list_sent_total_count) *)

Section SentTotalCount.
Context (td : Td) (l : StoryListId) (sl : StoryList).

Let n : Z := Z.of_nat (size (ordered_stories_ sl)).
Let r := update_story_list_sent_total_count td l sl.

(** Nothing but [sent_total_count_] is written. *)
Lemma update_sent_total_count_frame :
    state_ r.1 = state_ sl /\
    server_total_count_ r.1 = server_total_count_ sl /\
    server_has_more_ r.1 = server_has_more_ sl /\
    is_reloaded_server_total_count_ r.1 = is_reloaded_server_total_count_ sl /\
    ordered_stories_ r.1 = ordered_stories_ sl /\
    list_last_story_date_ r.1 = list_last_story_date_ sl.
  Proof.
    subst r. unfold update_story_list_sent_total_count.
    repeat case_match; simpl; auto 10.
  Qed.

(** The guard: with an unknown server count, or for a bot, nothing happens. *)
Lemma update_sent_total_count_guard :
    server_total_count_ sl = -1 \/ is_bot td = true -> r = (sl, []).
  Proof.
    subst r. unfold update_story_list_sent_total_count.
    intros [-> | ->]; simpl; [done|].
    by rewrite orb_true_r.
  Qed.

(** The value that is stored when the guard passes. *)
Lemma update_sent_total_count_value :
    is_bot td = false -> server_total_count_ sl <> -1 ->
    sent_total_count_ r.1 =
      if bool_decide (list_last_story_date_ sl <> MAX_DIALOG_DATE td)
      then Z.max (to_int32 n) (server_total_count_ sl)
      else to_int32 n.
  Proof.
    intros Hbot Hcnt. subst r n. unfold update_story_list_sent_total_count.
    rewrite Hbot, orb_false_r.
    destruct (Z.eqb_spec (server_total_count_ sl) (-1)) as [|_]; [done|].
    destruct (bool_decide (list_last_story_date_ sl <> MAX_DIALOG_DATE td));
      simpl;
      match goal with
      | |- context [bool_decide (sent_total_count_ sl <> ?v)] =>
          destruct (decide (sent_total_count_ sl = v)) as [Heq|Hne];
          [rewrite bool_decide_eq_false_2 by (by intros ?); exact Heq
          |rewrite bool_decide_eq_true_2 by done; reflexivity]
      end.
  Qed.

(** An update is sent exactly when the stored value changed, and it carries
      the new value. *)
Lemma update_sent_total_count_effects :
    r.2 = if bool_decide (sent_total_count_ r.1 = sent_total_count_ sl) then []
          else [SendUpdate (updateStoryListChatCount l (sent_total_count_ r.1))].
  Proof.
    subst r. unfold update_story_list_sent_total_count.
    destruct (_ || _); simpl; [by rewrite bool_decide_eq_true_2|].
    case_bool_decide as Hne; simpl.
    - rewrite (bool_decide_eq_false_2 (_ = sent_total_count_ sl)); [reflexivity|].
      intros Heq. apply Hne. symmetry. exact Heq.
    - by rewrite bool_decide_eq_true_2.
  Qed.
End SentTotalCount.

(** C1, as the code has it.  After [update_story_list_sent_total_count] on a
    list whose server count is known, for a user that is not a bot:
    [sent_total_count] is [max(|ordered_stories|, server_total_count)] while
    the list is NOT yet fully materialised and [|ordered_stories|] once it is
    ([list_last_story_date = MAX_DIALOG_DATE]); hence it is never below
    [|ordered_stories|], and not below [server_total_count] while the list is
    not fully materialised; [updateStoryListChatCount] is emitted, with the
    new count, exactly when the stored value changes. *)
Theorem C1_sent_total_count (td : Td) (l : StoryListId) (sl : StoryList) :
  is_bot td = false ->
  server_total_count_ sl <> -1 ->
  Z.of_nat (size (ordered_stories_ sl)) < 2 ^ 31 ->
  let n := Z.of_nat (size (ordered_stories_ sl)) in
  let r := update_story_list_sent_total_count td l sl in
  (list_last_story_date_ sl <> MAX_DIALOG_DATE td ->
     sent_total_count_ r.1 = Z.max n (server_total_count_ sl)) /\
  (list_last_story_date_ sl = MAX_DIALOG_DATE td -> sent_total_count_ r.1 = n) /\
  n <= sent_total_count_ r.1 /\
  (list_last_story_date_ sl <> MAX_DIALOG_DATE td ->
     server_total_count_ sl <= sent_total_count_ r.1) /\
  r.2 = (if bool_decide (sent_total_count_ r.1 = sent_total_count_ sl) then []
         else [SendUpdate (updateStoryListChatCount l (sent_total_count_ r.1))]) /\
  ordered_stories_ r.1 = ordered_stories_ sl /\
  server_total_count_ r.1 = server_total_count_ sl /\
  list_last_story_date_ r.1 = list_last_story_date_ sl.
Proof.
  intros Hbot Hcnt Hsize n r.
  pose proof (update_sent_total_count_value td l sl Hbot Hcnt) as Hval.
  pose proof (update_sent_total_count_effects td l sl) as Heff.
  pose proof (update_sent_total_count_frame td l sl) as (_ & Hs & _ & _ & Ho & Hl).
  fold r in Hval, Heff, Hs, Ho, Hl. fold n in Hval.
  rewrite (to_int32_id n) in Hval by (subst n; lia).
  split_and!; try done.
  - intros Hne. by rewrite Hval, bool_decide_eq_true_2.
  - intros Heq. rewrite Hval, bool_decide_eq_false_2; [done|]. by intros ?.
  - rewrite Hval. destruct (bool_decide (list_last_story_date_ sl <> _)); lia.
  - intros Hne. rewrite Hval, bool_decide_eq_true_2 by done. lia.
Qed.

Lemma C1_sent_total_count_witness :
  let td := sample_td 1000 false false false in
  let sl := sample_story_list (7, 2) 5 (-1) {[ (7, 2); (9, 3) ]} in
  is_bot td = false /\
  server_total_count_ sl <> -1 /\
  Z.of_nat (size (ordered_stories_ sl)) < 2 ^ 31 /\
  sent_total_count_ (update_story_list_sent_total_count td StoryListId_main sl).1
    = Z.max (Z.of_nat (size (ordered_stories_ sl))) (server_total_count_ sl).
Proof.
  intros td sl.
  assert (H1 : is_bot td = false) by reflexivity.
  assert (H2 : server_total_count_ sl <> -1) by (by vm_compute).
  assert (H3 : Z.of_nat (size (ordered_stories_ sl)) < 2 ^ 31) by (by vm_compute).
  split_and!; [exact H1 | exact H2 | exact H3 |].
  destruct (C1_sent_total_count td StoryListId_main sl H1 H2 H3) as [Hmax _].
  apply Hmax. by vm_compute.
Defined.

(** C1 as stated fails: on a fully materialised list holding one owner while
    the server reported three, the stored count is the number of owners, not
    the maximum of the two, and it is below the server count. *)
Lemma C1_counterexample :
  let td := sample_td 1000 false false false in
  let sl := sample_story_list (MAX_DIALOG_DATE td) 3 (-1) {[ (7, 2) ]} in
  let sl' := (update_story_list_sent_total_count td StoryListId_main sl).1 in
  list_last_story_date_ sl' = MAX_DIALOG_DATE td /\
  sent_total_count_ sl' = 1 /\
  sent_total_count_ sl' <>
    Z.max (Z.of_nat (size (ordered_stories_ sl'))) (server_total_count_ sl') /\
  ~ (server_total_count_ sl' <= sent_total_count_ sl').
Proof. by vm_compute. Qed.

(** ** The order of an owner in the story lists (update_active_stories_order) *)

Lemma get_story_list_valid td l m :
  is_bot td = false -> story_list_id_is_valid l = true ->
  get_story_list td l m = Some (story_list_of l m).
Proof. intros Hbot Hl. unfold get_story_list. by rewrite Hbot, Hl. Qed.

Lemma update_story_list_sent_total_count_by_id_valid td l m :
  is_bot td = false -> story_list_id_is_valid l = true ->
  update_story_list_sent_total_count_by_id td l m
  = Some (update_story_list_sent_total_count_in td l m).
Proof.
  intros Hbot Hl. unfold update_story_list_sent_total_count_by_id.
  rewrite Hbot, get_story_list_valid by done. done.
Qed.

Lemma delete_active_stories_from_story_list_Some td owner a m :
  is_bot td = false ->
  (story_list_id_is_valid (story_list_id_ a) = true ->
   (private_order_ a, owner) ∈ ordered_stories_ (story_list_of (story_list_id_ a) m)) ->
  delete_active_stories_from_story_list td owner a m
  = Some (if story_list_id_is_valid (story_list_id_ a)
          then upd_story_list (story_list_id_ a)
                 (fun sl => set_ordered_stories
                    (ordered_stories_ sl ∖ {[(private_order_ a, owner)]}) sl) m
          else m).
Proof.
  intros Hbot Hin. unfold delete_active_stories_from_story_list.
  destruct (story_list_id_is_valid (story_list_id_ a)) eqn:Hv; simpl; [|done].
  rewrite get_story_list_valid by done. simpl.
  by rewrite bool_decide_eq_true_2 by auto.
Qed.

(** The entry written by [store_new_orders] carries exactly the new values. *)
Lemma store_new_orders_entry td owner a np pub l ns m :
  let a' := (store_new_orders td owner a np pub l ns m).1.1.2 in
  private_order_ a' = np /\ public_order_ a' = pub /\ story_list_id_ a' = l /\
  max_read_story_id_ a' = max_read_story_id_ a /\ story_ids_ a' = story_ids_ a.
Proof.
  unfold store_new_orders.
  destruct (decide (private_order_ a = np)) as [Hp|Hp];
    destruct (decide (story_list_id_ a = l)) as [Hl|Hl];
    destruct (decide (public_order_ a = pub)) as [Hq|Hq];
    repeat first
      [ rewrite (bool_decide_eq_true_2 (private_order_ a <> np)) by done
      | rewrite (bool_decide_eq_false_2 (private_order_ a <> np)) by (by intros ?)
      | rewrite (bool_decide_eq_true_2 (story_list_id_ a <> l)) by done
      | rewrite (bool_decide_eq_false_2 (story_list_id_ a <> l)) by (by intros ?)
      | rewrite (bool_decide_eq_true_2 (public_order_ a <> pub)) by done
      | rewrite (bool_decide_eq_false_2 (public_order_ a <> pub)) by (by intros ?) ];
    simpl;
    repeat first
      [ rewrite (bool_decide_eq_true_2 (public_order_ a <> pub)) by done
      | rewrite (bool_decide_eq_false_2 (public_order_ a <> pub)) by (by intros ?) ];
    simpl; repeat case_match; simplify_eq/=; auto.
Qed.

(** The public order chosen by [update_order_in_story_lists]. *)
Lemma update_order_in_story_lists_public td owner a np l m m' pub :
  is_bot td = false ->
  update_order_in_story_lists td owner a np l m = Some (m', pub) ->
  pub = if story_list_id_is_valid l
           && dialog_date_le td (np, owner) (list_last_story_date_ (story_list_of l m))
        then np else 0.
Proof.
  intros Hbot. unfold update_order_in_story_lists.
  destruct (story_list_id_is_valid l) eqn:Hl; simpl.
  - rewrite get_story_list_valid by done. simpl.
    intros Hb. apply bind_Some in Hb as (m1 & _ & H1). by simplify_eq.
  - case_match; [|by intros; simplify_eq].
    intros Hb. apply bind_Some in Hb as (m1 & _ & H1).
    apply bind_Some in H1 as (m2 & _ & H2). by simplify_eq.
Qed.

(** Under the well-formedness of the lists no CHECK of the middle part fails. *)
Lemma update_order_in_story_lists_Some td owner a np l m :
  is_bot td = false ->
  owner_keys_consistent owner a m ->
  is_Some (update_order_in_story_lists td owner a np l m).
Proof.
  intros Hbot [Hin Huniq]. unfold update_order_in_story_lists.
  destruct (story_list_id_is_valid l) eqn:Hl; simpl.
  - rewrite get_story_list_valid by done. simpl.
    destruct (bool_decide (private_order_ a <> np) || bool_decide (story_list_id_ a <> l))
      eqn:Hmoved; simpl; [|done].
    rewrite delete_active_stories_from_story_list_Some by done. simpl.
    rewrite bool_decide_eq_false_2.
    + destruct (bool_decide (story_list_id_ a <> l) && story_list_id_is_valid (story_list_id_ a))
        eqn:Hold; simpl; [|done].
      apply andb_true_iff in Hold as [_ Hold].
      rewrite update_story_list_sent_total_count_by_id_valid by done. done.
    + intros Hmem.
      assert ((np, owner) ∈ ordered_stories_ (story_list_of l m)
              /\ ((np, owner) = (private_order_ a, owner) -> story_list_id_ a <> l))
        as [Hmem' Hne].
      { destruct (story_list_id_is_valid (story_list_id_ a)) eqn:Hv;
          [|split; [done|intros _ Heq; rewrite Heq in Hv; congruence]].
        revert Hmem. unfold story_list_of, upd_story_list.
        destruct l, (story_list_id_ a); try done; simpl; set_solver. }
      destruct (Huniq l np Hl Hmem') as [-> ->].
      apply orb_true_iff in Hmoved as [H|H]; apply bool_decide_eq_true in H; [done|].
      by apply Hne.
  - destruct (story_list_id_is_valid (story_list_id_ a)) eqn:Hv; [|done].
    rewrite delete_active_stories_from_story_list_Some by auto. simpl.
    rewrite Hv. rewrite update_story_list_sent_total_count_by_id_valid by done. done.
Qed.

Lemma new_private_order_pos td owner a last_id last_story :
  0 < date_ last_story -> 0 < new_private_order td owner a last_id last_story.
Proof.
  intros Hd. unfold new_private_order.
  change (Z.shiftl 1 33) with (2 ^ 33). change (Z.shiftl 1 34) with (2 ^ 34).
  change (Z.shiftl 1 35) with (2 ^ 35). change (Z.shiftl 1 36) with (2 ^ 36).
  repeat case_match; lia.
Qed.

(** The sum fits the 64-bit accumulator for any 32-bit date. *)
Lemma new_private_order_in_int64 td owner a last_id last_story :
  in_int32 (date_ last_story) ->
  in_int64 (new_private_order td owner a last_id last_story).
Proof.
  unfold in_int32, in_int64, new_private_order. intros Hd.
  change (Z.shiftl 1 33) with (2 ^ 33). change (Z.shiftl 1 34) with (2 ^ 34).
  change (Z.shiftl 1 35) with (2 ^ 35). change (Z.shiftl 1 36) with (2 ^ 36).
  repeat case_match; lia.
Qed.

(** On a well-formed manager no CHECK of [update_active_stories_order] fails. *)
Lemma update_active_stories_order_Some td owner a need_save m last_id last_story :
  is_bot td = false ->
  dialog_id_is_valid td owner = true ->
  last (story_ids_ a) = Some last_id ->
  get_story m (owner, last_id) = Some last_story ->
  0 < date_ last_story ->
  owner_keys_consistent owner a m ->
  is_Some (update_active_stories_order td owner a need_save m).
Proof.
  intros Hbot Hvalid Hlast Hstory Hdate Hwf.
  pose proof (new_private_order_pos td owner a last_id last_story Hdate) as Hpos.
  unfold update_active_stories_order.
  rewrite Hbot, Hlast. simpl. rewrite Hvalid. simpl. rewrite Hstory. simpl.
  destruct (Z.eqb_spec (new_private_order td owner a last_id last_story) 0) as [|_];
    [lia|].
  destruct (update_order_in_story_lists_Some td owner a
              (new_private_order td owner a last_id last_story)
              (get_dialog_story_list_id td owner) m Hbot Hwf) as [[m1 pub] Hm1].
  by rewrite Hm1.
Qed.

(** C2.  For an owner with a non-empty active list whose last story is in
    the store, [update_active_stories_order] completes and leaves
    [private_order = date(last story) + 2^33 (premium) + 2^34 (changelog
    sender) + 2^35 (max_read < last id) + 2^36 (self)], and
    [public_order = private_order] exactly when the owner has a story list
    and [(private_order, owner) <= list_last_story_date] of that list;
    otherwise [public_order = 0]. *)
Theorem C2_private_and_public_order (td : Td) (owner : Z) (a : ActiveStories)
    (need_save : bool) (m : StoryManager) (last_id : Z) (last_story : Story) :
  is_bot td = false ->
  dialog_id_is_valid td owner = true ->
  last (story_ids_ a) = Some last_id ->
  get_story m (owner, last_id) = Some last_story ->
  0 < date_ last_story ->
  owner_keys_consistent owner a m ->
  exists m' a' need_save' changed,
    update_active_stories_order td owner a need_save m
      = Some (m', a', need_save', changed) /\
    private_order_ a' =
      date_ last_story
      + (if owner_is_premium td owner then 2 ^ 33 else 0)
      + (if bool_decide (owner = get_changelog_story_dialog_id td) then 2 ^ 34 else 0)
      + (if max_read_story_id_ a <? last_id then 2 ^ 35 else 0)
      + (if bool_decide (owner = my_dialog_id td) then 2 ^ 36 else 0) /\
    let l := get_dialog_story_list_id td owner in
    let surfaced :=
      story_list_id_is_valid l
      && dialog_date_le td (private_order_ a', owner)
                        (list_last_story_date_ (story_list_of l m)) in
    public_order_ a' = (if surfaced then private_order_ a' else 0) /\
    (public_order_ a' = private_order_ a' <-> surfaced = true) /\
    story_list_id_ a' = l.
Proof.
  intros Hbot Hvalid Hlast Hstory Hdate Hwf.
  pose proof (new_private_order_pos td owner a last_id last_story Hdate) as Hpos.
  unfold update_active_stories_order.
  rewrite Hbot, Hlast. simpl. rewrite Hvalid. simpl. rewrite Hstory. simpl.
  set (np := new_private_order td owner a last_id last_story) in *.
  destruct (Z.eqb_spec np 0) as [|_]; [lia|].
  set (l := get_dialog_story_list_id td owner).
  destruct (update_order_in_story_lists_Some td owner a np l m Hbot Hwf) as [[m1 pub] Hm1].
  rewrite Hm1. simpl.
  apply update_order_in_story_lists_public in Hm1 as Hpub; [|done].
  pose proof (store_new_orders_entry td owner a np pub l need_save m1)
    as (Hp & Hq & Hl & _).
  destruct (store_new_orders td owner a np pub l need_save m1)
    as [[[m' a'] ns'] r] eqn:Hstore.
  simpl in Hp, Hq, Hl.
  exists m', a', ns', r. split; [done|].
  split.
  { rewrite Hp. subst np. unfold new_private_order, owner_is_premium.
    change (Z.shiftl 1 33) with (2 ^ 33). change (Z.shiftl 1 34) with (2 ^ 34).
    change (Z.shiftl 1 35) with (2 ^ 35). change (Z.shiftl 1 36) with (2 ^ 36).
    lia. }
  simpl. rewrite Hp, Hq, Hl. split_and!; [done| |done].
  rewrite Hpub. destruct (_ && _); split; (done || lia).
Qed.



Lemma sample_td_server_story_ids_valid now bot test_dc premium :
  server_story_ids_valid (sample_td now bot test_dc premium).
Proof. intros id H. cbn in *. by apply andb_true_iff in H as [H _]. Qed.

Lemma sample_manager_consistent owner :
  owner_keys_consistent owner new_ActiveStories sample_manager.
Proof.
  split; [done|]. intros l o _ Hin. destruct l; simpl in Hin; set_solver.
Qed.

Lemma C2_private_and_public_order_witness :
  let td := sample_td 1000 false false false in
  let a := mkActiveStories 0 [3; 5] StoryListId_none 0 0 in
  exists m' a' need_save' changed,
    update_active_stories_order td 2 a false sample_manager
      = Some (m', a', need_save', changed) /\
    private_order_ a' = 950 + 2 ^ 33 + 2 ^ 35 /\
    public_order_ a' = private_order_ a'.
Proof.
  intros td a.
  assert (H1 : is_bot td = false) by reflexivity.
  assert (H2 : dialog_id_is_valid td 2 = true) by reflexivity.
  assert (H3 : last (story_ids_ a) = Some 5) by reflexivity.
  assert (H4 : get_story sample_manager (2, 5)
               = Some (sample_story 950 2000 (Some [51]) false 2)) by (by vm_compute).
  assert (H5 : 0 < date_ (sample_story 950 2000 (Some [51]) false 2)) by (by vm_compute).
  destruct (C2_private_and_public_order td 2 a false sample_manager 5 _
              H1 H2 H3 H4 H5 (sample_manager_consistent 2))
    as (m' & a' & ns' & ch & Hrun & Hp & Hq & _).
  exists m', a', ns', ch. split; [exact Hrun|]. split.
  - rewrite Hp. by vm_compute.
  - rewrite Hq, Hp. by vm_compute.
Defined.

(** ** The active stories of an owner (on_update_active_stories) *)

Lemma StronglySorted_filter {A} (R : A -> A -> Prop) (p : A -> bool) (l : list A) :
  StronglySorted R l -> StronglySorted R (List.filter p l).
Proof.
  induction 1 as [|x l Hs IH Hall]; simpl; [constructor|].
  destruct (p x); [|done].
  constructor; [done|].
  rewrite List.Forall_forall in *. intros y Hy.
  apply List.filter_In in Hy as [Hy _]. by apply Hall.
Qed.

Lemma kept_story_ids_spec td m owner ids id :
  id ∈ kept_story_ids td m owner ids <->
  id ∈ ids /\ story_id_is_server td id = true
  /\ is_active_story td (get_story m (owner, id)) = true.
Proof.
  unfold kept_story_ids, remove_if. simpl.
  rewrite !list_elem_of_In, List.filter_In. unfold is_dropped_story_id.
  destruct (story_id_is_server td id), (is_active_story td _); simpl; naive_solver.
Qed.

Lemma remove_if_removed {A} (p : A -> bool) (l : list A) :
  (remove_if p l).2 = false -> (remove_if p l).1 = l.
Proof.
  unfold remove_if. simpl. induction l as [|x l IH]; simpl; [done|].
  destruct (p x); simpl; [done|]. intros H. by rewrite IH.
Qed.

Lemma remove_if_changed {A} (p : A -> bool) (l : list A) :
  (remove_if p l).1 <> l -> (remove_if p l).2 = true.
Proof.
  intros Hne. destruct (remove_if p l).2 eqn:H; [done|].
  by apply remove_if_removed in H.
Qed.


(** Case analysis on the condition of an [if] of the goal. *)
Ltac case_goal_if :=
  match goal with |- context [if ?c then _ else _] => destruct c eqn:? end.

(** Frame lemmas: the list functions touch the two lists and the log only. *)

#[local] Instance same_but_lists_refl : Reflexive same_but_lists.
Proof. by intros m. Qed.
#[local] Instance same_but_lists_trans : Transitive same_but_lists.
Proof.
  unfold same_but_lists. intros m1 m2 m3 [H12 P12] [H23 P23].
  split; [by rewrite H23|by etrans].
Qed.
#[local] Instance same_but_active_refl : Reflexive same_but_active.
Proof. by intros m. Qed.
#[local] Instance same_but_active_trans : Transitive same_but_active.
Proof.
  unfold same_but_active. intros m1 m2 m3 [H12 P12] [H23 P23].
  split; [by rewrite H23|by etrans].
Qed.

Lemma same_but_lists_active m m' : same_but_lists m m' -> same_but_active m m'.
Proof.
  unfold same_but_lists, same_but_active, without_active_part. intros [H P].
  split; [|done].
  apply (f_equal (fun x => upd_active_stories_ (fun _ => ∅)
    (upd_max_read_story_ids_ (fun _ => ∅)
       (upd_failed_to_load_active_stories_ (fun _ => ∅) x)))) in H.
  exact H.
Qed.

Lemma emits_frame es m : same_but_lists m (emits es m).
Proof. split; [reflexivity|by exists es]. Qed.

Lemma emit_frame e m : same_but_lists m (emit e m).
Proof. apply emits_frame. Qed.

Lemma promise_set_value_frame p m : same_but_lists m (promise_set_value p m).
Proof. destruct p; [apply emit_frame|reflexivity]. Qed.

Lemma upd_story_list_frame l f m : same_but_lists m (upd_story_list l f m).
Proof. unfold upd_story_list. by case_match. Qed.

Lemma save_active_stories_frame td owner a p m m' :
  save_active_stories td owner a p m = Some m' -> same_but_lists m m'.
Proof.
  unfold save_active_stories. intros H.
  destruct (negb _); [|destruct a; [destruct (bool_decide _); [done|]|]];
    apply (inj Some) in H; subst m';
    first [apply promise_set_value_frame|apply emit_frame].
Qed.

Lemma save_story_list_frame td l s c h m :
  same_but_lists m (save_story_list td l s c h m).
Proof. unfold save_story_list. case_goal_if; [reflexivity|apply emit_frame]. Qed.

Lemma send_update_chat_active_stories_frame td owner a m :
  same_but_lists m (send_update_chat_active_stories td owner a m).
Proof. apply emit_frame. Qed.

Lemma update_story_list_sent_total_count_in_frame td l m :
  same_but_lists m (update_story_list_sent_total_count_in td l m).
Proof.
  unfold update_story_list_sent_total_count_in.
  etrans; [|apply emits_frame]. apply upd_story_list_frame.
Qed.

Lemma delete_active_stories_from_story_list_frame td owner a m m' :
  delete_active_stories_from_story_list td owner a m = Some m' ->
  same_but_lists m m'.
Proof.
  unfold delete_active_stories_from_story_list. intros H.
  destruct (negb _); [by simplify_eq|].
  apply bind_Some in H as (sl & _ & H).
  destruct (bool_decide _); [|done]. simplify_eq. apply upd_story_list_frame.
Qed.

Lemma update_story_list_sent_total_count_by_id_frame td l m m' :
  update_story_list_sent_total_count_by_id td l m = Some m' ->
  same_but_lists m m'.
Proof.
  unfold update_story_list_sent_total_count_by_id. intros H.
  destruct (is_bot td); [by simplify_eq|].
  apply bind_Some in H as (sl & _ & H). simplify_eq.
  apply update_story_list_sent_total_count_in_frame.
Qed.

(** One backward step through a function that writes lists or log only. *)
Ltac frame_lists_head :=
  lazymatch goal with
  | |- same_but_lists _ (update_story_list_sent_total_count_in _ _ _) =>
      apply update_story_list_sent_total_count_in_frame
  | |- same_but_lists _ (upd_story_list _ _ _) => apply upd_story_list_frame
  | |- same_but_lists _ (save_story_list _ _ _ _ _ _) => apply save_story_list_frame
  | |- same_but_lists _ (send_update_chat_active_stories _ _ _ _) =>
      apply send_update_chat_active_stories_frame
  | |- same_but_lists _ (promise_set_value _ _) => apply promise_set_value_frame
  | |- same_but_lists _ (emit _ _) => apply emit_frame
  | |- same_but_lists _ (emits _ _) => apply emits_frame
  end.

(** Chains the frame lemmas backwards from the final manager. *)
Ltac frame_lists :=
  repeat first
    [ match goal with |- same_but_lists ?x ?x => reflexivity end
    | match goal with
      | H : same_but_lists ?x ?b |- same_but_lists _ ?b => etrans; [|exact H]; clear H
      end
    | etrans; [|frame_lists_head] ].

Lemma update_order_in_story_lists_frame td owner a np l m m' pub :
  update_order_in_story_lists td owner a np l m = Some (m', pub) ->
  same_but_lists m m'.
Proof.
  unfold update_order_in_story_lists. intros H.
  destruct (story_list_id_is_valid l).
  - apply bind_Some in H as (sl & _ & H).
    apply bind_Some in H as (m1 & Hm1 & H). simplify_eq.
    destruct (_ || _); [|by simplify_eq].
    apply bind_Some in Hm1 as (m2 & Hm2 & Hm1).
    destruct (bool_decide (_ ∈ _)); [done|].
    apply bind_Some in Hm1 as (m3 & Hm3 & Hm1). simplify_eq.
    apply delete_active_stories_from_story_list_frame in Hm2.
    destruct (_ && _).
    + apply update_story_list_sent_total_count_by_id_frame in Hm3. frame_lists.
    + simplify_eq. frame_lists.
  - destruct (story_list_id_is_valid (story_list_id_ a)); [|by simplify_eq].
    apply bind_Some in H as (m1 & Hm1 & H).
    apply bind_Some in H as (m2 & Hm2 & H). simplify_eq.
    apply delete_active_stories_from_story_list_frame in Hm1.
    apply update_story_list_sent_total_count_by_id_frame in Hm2.
    frame_lists.
Qed.

Lemma store_new_orders_frame td owner a np pub l ns m :
  same_but_lists m (store_new_orders td owner a np pub l ns m).1.1.1.
Proof.
  unfold store_new_orders.
  repeat case_goal_if; simpl;
    first [reflexivity|apply send_update_chat_active_stories_frame].
Qed.

Lemma update_active_stories_order_entry td owner a ns m m' a' ns' r :
  update_active_stories_order td owner a ns m = Some (m', a', ns', r) ->
  story_ids_ a' = story_ids_ a /\ max_read_story_id_ a' = max_read_story_id_ a /\
  same_but_lists m m'.
Proof.
  unfold update_active_stories_order. intros H.
  destruct (is_bot td); [by simplify_eq|].
  apply bind_Some in H as (last_id & _ & H).
  destruct (negb _); [done|].
  apply bind_Some in H as (last_story & _ & H).
  destruct (_ =? 0); [done|].
  apply bind_Some in H as ([m1 pub] & Hm1 & H).
  apply update_order_in_story_lists_frame in Hm1.
  match type of H with
  | Some (store_new_orders ?t ?o ?x ?np ?p ?l ?n ?mm) = _ =>
      pose proof (store_new_orders_entry t o x np p l n mm) as (_ & _ & _ & Hr & Hi);
      pose proof (store_new_orders_frame t o x np p l n mm) as Hf
  end.
  apply (inj Some) in H. rewrite H in Hr, Hi, Hf. simpl in Hr, Hi, Hf.
  split_and!; [done|done|]. frame_lists.
Qed.

Lemma upd_active_stories_frame f m : same_but_active m (upd_active_stories_ f m).
Proof. by split. Qed.

Lemma upd_max_read_story_ids_frame f m : same_but_active m (upd_max_read_story_ids_ f m).
Proof. by split. Qed.

Lemma upd_failed_to_load_active_stories_frame f m :
  same_but_active m (upd_failed_to_load_active_stories_ f m).
Proof. by split. Qed.

Lemma same_but_lists_step m m1 m2 :
  same_but_active m m1 -> same_but_lists m1 m2 -> same_but_active m m2.
Proof. intros H1 H2. etrans; [exact H1|]. by apply same_but_lists_active. Qed.

Ltac frame_active :=
  repeat first
    [ match goal with |- same_but_active ?x ?x => reflexivity end
    | match goal with
      | H : same_but_active ?x ?b |- same_but_active _ ?b => etrans; [|exact H]; clear H
      | H : same_but_lists ?x ?b |- same_but_active _ ?b =>
          eapply same_but_lists_step; [|exact H]; clear H
      | |- same_but_active _ (upd_active_stories_ _ _) =>
          etrans; [|apply upd_active_stories_frame]
      | |- same_but_active _ (upd_max_read_story_ids_ _ _) =>
          etrans; [|apply upd_max_read_story_ids_frame]
      | |- same_but_active _ (upd_failed_to_load_active_stories_ _ _) =>
          etrans; [|apply upd_failed_to_load_active_stories_frame]
      end
    | eapply same_but_lists_step; [|frame_lists_head] ].

Lemma frame_active_stories m m' :
  same_but_lists m m' -> active_stories_ m' = active_stories_ m.
Proof. intros [H _]. exact (f_equal active_stories_ H). Qed.

Lemma frame_stories m m' : same_but_active m m' -> stories_ m' = stories_ m.
Proof. intros [H _]. exact (f_equal stories_ H). Qed.

(** The empty branch: what is written, and the entry is gone. *)
Lemma on_update_active_stories_empty_spec td owner promise from_db m m' :
  on_update_active_stories_empty td owner promise from_db m = Some m' ->
  same_but_active m m' /\ active_stories_ m' !! owner = None.
Proof.
  unfold on_update_active_stories_empty. intros H.
  apply bind_Some in H as (m1 & Hm1 & H).
  apply bind_Some in H as (m_s & Hsave & H). apply (inj Some) in H.
  assert (same_but_lists m1 m_s) as Hfs.
  { destruct (negb from_db); [by apply save_active_stories_frame in Hsave|].
    apply (inj Some) in Hsave. by subst m_s. }
  assert (same_but_active m m1 /\ active_stories_ m1 !! owner = None) as [Hf Hnone].
  { revert Hm1. unfold get_active_stories.
    match goal with |- context [active_stories_ ?x !! owner] =>
      set (m0 := x); assert (same_but_lists m m0) as Hm0
        by (subst m0; case_goal_if; frame_lists) end.
    clearbody m0. rewrite (frame_active_stories _ _ Hm0).
    destruct (active_stories_ m !! owner) as [a|] eqn:Ha.
    - intros Hm1. apply bind_Some in Hm1 as (m2 & Hm2 & Hm1). apply (inj Some) in Hm1.
      subst m1. split; [|cbn; apply lookup_delete_eq].
      assert (same_but_lists m0 m2) as H02.
      { destruct (story_list_id_is_valid (story_list_id_ a)); [|by simplify_eq].
        apply bind_Some in Hm2 as (m3 & Hm3 & Hm2).
        apply bind_Some in Hm2 as (sl & _ & Hm2). apply (inj Some) in Hm2. subst m2.
        apply delete_active_stories_from_story_list_frame in Hm3.
        case_goal_if; frame_lists. }
      frame_active.
    - intros Hm1. apply (inj Some) in Hm1. subst m1. split; [frame_active|].
      change (active_stories_ m0 !! owner = None).
      by rewrite (frame_active_stories _ _ Hm0). }
  subst m'. split.
  - frame_active.
  - change (active_stories_ m_s !! owner = None).
    by rewrite (frame_active_stories _ _ Hfs).
Qed.

(** The read mark that an entry gets: the given one, but a new entry takes
    the mark remembered for the owner when that one is larger and not below
    the first id. *)
Lemma get_or_create_active_stories_spec owner max_read first_id m :
  let r := get_or_create_active_stories owner max_read first_id m in
  same_but_active m r.2 /\
  r.1.2 = match active_stories_ m !! owner with
          | Some _ => max_read
          | None =>
              let remembered := default 0 (max_read_story_ids_ m !! owner) in
              if bool_decide (remembered <> 0) && (max_read <? remembered)
                 && (first_id <=? remembered)
              then remembered else max_read
          end /\
  r.1.1 = default new_ActiveStories (active_stories_ m !! owner).
Proof.
  unfold get_or_create_active_stories, get_active_stories.
  destruct (active_stories_ m !! owner) as [a|]; simpl;
    [by split_and!|].
  destruct (bool_decide _); simpl; [|by split_and!].
  destruct (_ && _) eqn:Hc; simpl; by split_and!; [frame_active| |].
Qed.

(** The non-empty branch: what is written, and the entry that is stored. *)
Lemma on_update_active_stories_nonempty_spec td owner max_read first_id ids promise
    from_db m m' :
  on_update_active_stories_nonempty td owner max_read first_id ids promise from_db m
    = Some m' ->
  same_but_active m m' /\
  exists a, active_stories_ m' !! owner = Some a /\ story_ids_ a = ids /\
    max_read_story_id_ a
    = match active_stories_ m !! owner with
      | Some _ => max_read
      | None =>
          if bool_decide (default 0 (max_read_story_ids_ m !! owner) <> 0)
             && (max_read <? default 0 (max_read_story_ids_ m !! owner))
             && (first_id <=? default 0 (max_read_story_ids_ m !! owner))
          then default 0 (max_read_story_ids_ m !! owner) else max_read
      end.
Proof.
  unfold on_update_active_stories_nonempty.
  match goal with |- context [get_or_create_active_stories ?o ?r ?f ?x] =>
    pose proof (get_or_create_active_stories_spec o r f x) as (Hf1 & Hmr & _);
    destruct (get_or_create_active_stories o r f x) as [[a mr] m1] end.
  cbn [fst snd] in Hf1, Hmr.
  change (active_stories_ (upd_failed_to_load_active_stories_ ?f m))
    with (active_stories_ m) in Hmr.
  change (max_read_story_ids_ (upd_failed_to_load_active_stories_ ?f m))
    with (max_read_story_ids_ m) in Hmr.
  rewrite <- Hmr. clear Hmr.
  match goal with |- context [update_active_stories_order _ _ _ _ ?x] =>
    set (m2 := x); assert (same_but_lists m1 m2) as Hf2
      by (subst m2; case_goal_if; frame_lists); clearbody m2 end.
  intros H. apply bind_Some in H as ([[m3 a3] ns3] & Hm3 & H).
  assert (same_but_lists m2 m3 /\ story_ids_ a3 = ids /\ max_read_story_id_ a3 = mr)
    as (Hf3 & Hids & Hmax).
  { destruct (decide (max_read_story_id_ a = mr)) as [Ha1|Ha1];
      [destruct (decide (story_ids_ a = ids)) as [Ha2|Ha2]|].
    - rewrite (bool_decide_eq_false_2 (max_read_story_id_ a <> mr)) in Hm3
        by (by intros ?).
      rewrite (bool_decide_eq_false_2 (story_ids_ a <> ids)) in Hm3 by (by intros ?).
      simpl in Hm3.
      apply bind_Some in Hm3 as ([[[m4 a4] ns4] r4] & Hm4 & Hm3).
      apply update_active_stories_order_entry in Hm4 as (Hi & Hr & Hf4).
      simplify_eq. split_and!; [|done|done]. destruct r4; frame_lists.
    - rewrite (bool_decide_eq_true_2 (story_ids_ a <> ids)) in Hm3 by done.
      rewrite orb_true_r in Hm3.
      apply bind_Some in Hm3 as ([[[m4 a4] ns4] r4] & Hm4 & Hm3).
      apply update_active_stories_order_entry in Hm4 as (Hi & Hr & Hf4).
      simplify_eq. split_and!; [frame_lists|done|done].
    - rewrite (bool_decide_eq_true_2 (max_read_story_id_ a <> mr)) in Hm3 by done.
      simpl in Hm3.
      apply bind_Some in Hm3 as ([[[m4 a4] ns4] r4] & Hm4 & Hm3).
      apply update_active_stories_order_entry in Hm4 as (Hi & Hr & Hf4).
      simplify_eq. split_and!; [frame_lists|done|done]. }
  assert (same_but_lists (upd_active_stories_ (insert owner a3) m3) m') as Hfs.
  { destruct (_ && _); [by apply save_active_stories_frame in H|].
    apply (inj Some) in H. subst m'. apply promise_set_value_frame. }
  split.
  - frame_active.
  - exists a3. split_and!; [|done|by rewrite Hmax].
    rewrite (frame_active_stories _ _ Hfs). apply lookup_insert_eq.
Qed.

(** The mark is 0 or not below the first id when the given one is. *)
Lemma new_read_mark_range (entry : option ActiveStories) (remembered max_read first_id : Z) :
  let reset := if max_read <? first_id then 0 else max_read in
  let mark := match entry with
              | Some _ => reset
              | None => if bool_decide (remembered <> 0) && (reset <? remembered)
                           && (first_id <=? remembered)
                        then remembered else reset
              end in
  mark = 0 \/ first_id <= mark.
Proof.
  cbv zeta.
  assert ((if max_read <? first_id then 0 else max_read) = 0
          \/ first_id <= (if max_read <? first_id then 0 else max_read)) as Hreset
    by (destruct (Z.ltb_spec max_read first_id); [by left|by right]).
  destruct entry; [done|].
  destruct (_ && _) eqn:Hc; [|done].
  apply andb_true_iff in Hc as [_ Hc]. apply Z.leb_le in Hc. by right.
Qed.

(** [owner_keys_consistent] looks at the two lists only. *)
Lemma owner_keys_consistent_ext owner a a' m m' :
  story_list_main_ m' = story_list_main_ m ->
  story_list_archive_ m' = story_list_archive_ m ->
  story_list_id_ a' = story_list_id_ a ->
  private_order_ a' = private_order_ a ->
  owner_keys_consistent owner a m -> owner_keys_consistent owner a' m'.
Proof.
  unfold owner_keys_consistent, story_list_of.
  intros -> -> -> ->. done.
Qed.

Lemma get_or_create_active_stories_lists owner max_read first_id m :
  let r := get_or_create_active_stories owner max_read first_id m in
  story_list_main_ r.2 = story_list_main_ m /\
  story_list_archive_ r.2 = story_list_archive_ m.
Proof.
  unfold get_or_create_active_stories.
  by repeat case_goal_if; destruct (get_active_stories m owner).
Qed.

(** Deleting the row of an owner never aborts. *)
Lemma save_active_stories_None_Some td owner promise m :
  is_Some (save_active_stories td owner None promise m).
Proof. unfold save_active_stories. by destruct (negb _). Qed.

Lemma on_update_active_stories_empty_end td owner promise from_db
    (x : option StoryManager) :
  is_Some x ->
  is_Some (m ← x;
           m ← (if negb from_db
                then save_active_stories td owner None promise m else Some m);
           Some (upd_failed_to_load_active_stories_ (fun s => {[owner]} ∪ s) m)).
Proof.
  intros [m ->]. cbn [mbind option_bind].
  destruct (negb from_db); [|done].
  by destruct (save_active_stories_None_Some td owner promise m) as [m' ->].
Qed.

(** No CHECK of the empty branch fails on a well-formed manager. *)
Lemma on_update_active_stories_empty_Some td owner promise from_db m :
  is_bot td = false ->
  (forall a, active_stories_ m !! owner = Some a -> owner_keys_consistent owner a m) ->
  is_Some (on_update_active_stories_empty td owner promise from_db m).
Proof.
  intros Hbot Hwf. unfold on_update_active_stories_empty, get_active_stories.
  apply on_update_active_stories_empty_end.
  match goal with |- context [active_stories_ ?x !! owner] =>
    set (m0 := x);
    assert (story_list_main_ m0 = story_list_main_ m
            /\ story_list_archive_ m0 = story_list_archive_ m
            /\ active_stories_ m0 = active_stories_ m) as (Hl1 & Hl2 & Ha)
      by (subst m0; by case_goal_if); clearbody m0 end.
  rewrite Ha. destruct (active_stories_ m !! owner) as [a|]; simpl; [|done].
  pose proof (Hwf a eq_refl) as Hown.
  apply (owner_keys_consistent_ext owner a a m m0) in Hown as [Hin _]; [|done..].
  destruct (story_list_id_is_valid (story_list_id_ a)) eqn:Hv; simpl; [|done].
  rewrite delete_active_stories_from_story_list_Some by auto. simpl.
  rewrite Hv, get_story_list_valid by done. done.
Qed.

(** The row of an entry can be written when one of its ids is a valid id of
    an active story: [story_infos_] is not empty then. *)
Lemma save_active_stories_Some td owner a promise m id :
  id ∈ story_ids_ a ->
  story_id_is_valid td id = true ->
  is_active_story td (get_story m (owner, id)) = true ->
  is_Some (save_active_stories td owner (Some a) promise m).
Proof.
  intros Hin Hvalid Hact. unfold save_active_stories.
  destruct (negb _); [done|].
  rewrite bool_decide_eq_false_2; [done|]. intros Hnil.
  assert (In (get_story_info td m (owner, id))
            (List.filter (fun i => story_id_is_valid td (info_story_id_ i))
               (map (fun story_id => get_story_info td m (owner, story_id))
                    (story_ids_ a)))) as Hx; [|by rewrite Hnil in Hx].
  apply List.filter_In. split.
  - apply List.in_map_iff. exists id. split; [done|]. by apply list_elem_of_In.
  - unfold get_story_info. destruct (get_story m (owner, id)) as [s|]; [|done].
    by rewrite Hact.
Qed.

(** No CHECK of the non-empty branch fails on a well-formed manager whose
    store holds the last story of the list, with a positive date, when one of
    the ids is a valid id of an active story. *)
Lemma on_update_active_stories_nonempty_Some td owner max_read first_id ids promise
    from_db m last_id last_story kept_id :
  is_bot td = false ->
  dialog_id_is_valid td owner = true ->
  last ids = Some last_id ->
  get_story m (owner, last_id) = Some last_story ->
  0 < date_ last_story ->
  owner_keys_consistent owner (default new_ActiveStories (active_stories_ m !! owner)) m ->
  kept_id ∈ ids ->
  story_id_is_valid td kept_id = true ->
  is_active_story td (get_story m (owner, kept_id)) = true ->
  is_Some (on_update_active_stories_nonempty td owner max_read first_id ids promise
             from_db m).
Proof.
  intros Hbot Hvalid Hlast Hstory Hdate Hwf Hkin Hkvalid Hkact.
  unfold on_update_active_stories_nonempty.
  match goal with |- context [get_or_create_active_stories ?o ?r ?f ?x] =>
    pose proof (get_or_create_active_stories_spec o r f x) as (Hf1 & _ & Ha);
    pose proof (get_or_create_active_stories_lists o r f x) as (Hl1 & Hl2);
    destruct (get_or_create_active_stories o r f x) as [[a mr] m1] end.
  simpl in Hf1, Ha, Hl1, Hl2.
  change (active_stories_ (upd_failed_to_load_active_stories_ ?f m))
    with (active_stories_ m) in Ha.
  match goal with |- context [update_active_stories_order _ _ _ _ ?x] =>
    set (m2 := x);
    assert (story_list_main_ m2 = story_list_main_ m1
            /\ story_list_archive_ m2 = story_list_archive_ m1
            /\ stories_ m2 = stories_ m1) as (Hm1 & Hm2 & Hs)
      by (subst m2; by case_goal_if); clearbody m2 end.
  assert (get_story m2 (owner, last_id) = Some last_story) as Hstory2.
  { unfold get_story. rewrite Hs, (frame_stories _ _ Hf1). exact Hstory. }
  assert (forall a', story_list_id_ a' = story_list_id_ a ->
            private_order_ a' = private_order_ a -> owner_keys_consistent owner a' m2)
    as Hwf2.
  { intros a' E1 E2. subst a.
    apply (owner_keys_consistent_ext owner _ a' m m2) in Hwf; [done|congruence..|done|done]. }
  destruct (decide (max_read_story_id_ a = mr /\ story_ids_ a = ids)) as [[E1 E2]|Hne].
  - rewrite (bool_decide_eq_false_2 (max_read_story_id_ a <> mr)) by (by intros ?).
    rewrite (bool_decide_eq_false_2 (story_ids_ a <> ids)) by (by intros ?).
    simpl.
    destruct (update_active_stories_order_Some td owner a false m2 last_id last_story)
      as [[[[m3 a3] ns3] r3] Hrun];
      [done|done|by rewrite E2|done|done|by apply Hwf2|].
    rewrite Hrun. cbn [mbind option_bind].
    apply update_active_stories_order_entry in Hrun as (Hi & _ & Hf3).
    destruct (ns3 && negb from_db); [|done].
    apply (save_active_stories_Some _ _ _ _ _ kept_id); [by rewrite Hi, E2|done|].
    revert Hkact. unfold get_story.
    assert (stories_ m3 = stories_ m) as <-; [|by destruct r3].
    rewrite (frame_stories _ _ (same_but_lists_active _ _ Hf3)), Hs.
    exact (frame_stories _ _ Hf1).
  - assert (bool_decide (max_read_story_id_ a <> mr) || bool_decide (story_ids_ a <> ids)
            = true) as ->.
    { apply orb_true_iff. rewrite !bool_decide_eq_true.
      destruct (decide (max_read_story_id_ a = mr)); [right|left; done].
      intros ?. by apply Hne. }
    destruct (update_active_stories_order_Some td owner
                (set_read_and_ids mr ids a) true m2 last_id last_story)
      as [[[[m3 a3] ns3] r3] Hrun]; [done..|by apply Hwf2|].
    rewrite Hrun. cbn [mbind option_bind].
    apply update_active_stories_order_entry in Hrun as (Hi & _ & Hf3).
    destruct (ns3 && negb from_db); [|done].
    apply (save_active_stories_Some _ _ _ _ _ kept_id); [by rewrite Hi|done|].
    revert Hkact. unfold get_story.
    assert (stories_ m3 = stories_ m) as <-; [|done].
    rewrite (frame_stories _ _ (same_but_lists_active _ _ Hf3)), Hs.
    exact (frame_stories _ _ Hf1).
Qed.

Lemma filter_sublist {A} (p : A -> bool) (l : list A) : sublist (List.filter p l) l.
Proof.
  induction l as [|x l IH]; simpl; [constructor|].
  destruct (p x); by constructor.
Qed.

Lemma kept_story_ids_last td m owner ids last_id :
  last (kept_story_ids td m owner ids) = Some last_id ->
  exists s, get_story m (owner, last_id) = Some s.
Proof.
  intros Hlast.
  assert (last_id ∈ kept_story_ids td m owner ids) as Hin.
  { destruct (kept_story_ids td m owner ids) as [|x l] using rev_ind; [done|].
    rewrite last_snoc in Hlast. simplify_eq. set_solver. }
  apply kept_story_ids_spec in Hin as (_ & _ & Hact).
  destruct (get_story m (owner, last_id)) as [s|]; [by exists s|done].
Qed.

(** On a well-formed manager no CHECK of [on_update_active_stories] fails. *)
Lemma on_update_active_stories_Some td owner max_read ids promise from_db m :
  is_bot td = false ->
  dialog_id_is_valid td owner = true ->
  server_story_ids_valid td ->
  owner_keys_consistent owner
    (default new_ActiveStories (active_stories_ m !! owner)) m ->
  (forall id s, last (kept_story_ids td m owner ids) = Some id ->
     get_story m (owner, id) = Some s -> 0 < date_ s) ->
  is_Some (on_update_active_stories td owner max_read ids promise from_db m).
Proof.
  intros Hbot Hvalid Hserver Hwf Hdate. unfold on_update_active_stories.
  rewrite Hvalid. cbn [negb].
  pose proof (kept_story_ids_last td m owner ids) as Hlast.
  pose proof (kept_story_ids_spec td m owner ids) as Hkept.
  unfold kept_story_ids in Hlast, Hdate, Hkept.
  destruct (remove_if (is_dropped_story_id td m owner) ids) as [kept removed].
  simpl in Hlast, Hdate, Hkept. destruct kept as [|first_id kept].
  - apply on_update_active_stories_empty_Some; [done|].
    intros a Ha. by rewrite Ha in Hwf.
  - destruct (last (first_id :: kept)) as [last_id|] eqn:El;
      [|by apply last_None in El].
    destruct (Hlast last_id eq_refl) as [s Hs].
    destruct (proj1 (Hkept first_id)) as (_ & Hfs & Hfa); [by left|].
    eapply (on_update_active_stories_nonempty_Some _ _ _ _ _ _ _ _ _ _ first_id);
      eauto; by left.
Qed.

(** What [on_update_active_stories] writes, and the entry it leaves. *)
Lemma on_update_active_stories_spec td owner max_read ids promise from_db m m' :
  on_update_active_stories td owner max_read ids promise from_db m = Some m' ->
  same_but_active m m' /\
  match kept_story_ids td m owner ids with
  | [] => active_stories_ m' !! owner = None
  | first_id :: _ =>
      exists a, active_stories_ m' !! owner = Some a /\
        story_ids_ a = kept_story_ids td m owner ids /\
        (max_read_story_id_ a = 0 \/ first_id <= max_read_story_id_ a) /\
        max_read_story_id_ a
        = (let reset := if max_read <? first_id then 0 else max_read in
           match active_stories_ m !! owner with
           | Some _ => reset
           | None =>
               let remembered := default 0 (max_read_story_ids_ m !! owner) in
               if bool_decide (remembered <> 0) && (reset <? remembered)
                  && (first_id <=? remembered)
               then remembered else reset
           end)
  end.
Proof.
  unfold on_update_active_stories, kept_story_ids.
  destruct (negb _); [done|].
  destruct (remove_if (is_dropped_story_id td m owner) ids) as [kept removed].
  simpl. destruct kept as [|first_id kept]; intros H.
  - by apply on_update_active_stories_empty_spec in H.
  - apply on_update_active_stories_nonempty_spec in H as [Hf (a & Ha & Hids & Hmark)].
    split; [done|]. exists a. split_and!; [done|done| |done].
    rewrite Hmark.
    apply (new_read_mark_range (active_stories_ m !! owner)
             (default 0 (max_read_story_ids_ m !! owner)) max_read first_id).
Qed.

(** ** The snapshot of the database in [on_update_active_stories] *)

Lemma remove_if_kept_all {A} (p : A -> bool) (l : list A) :
  (remove_if p l).1 = l -> (remove_if p l).2 = false.
Proof.
  unfold remove_if. cbn [fst snd]. intros Hsame.
  destruct (existsb p l) eqn:He; [|done]. exfalso.
  apply List.existsb_exists in He as (x & Hin & Hp).
  assert (In x (List.filter (fun x => negb (p x)) l)) as Hx by (by rewrite Hsame).
  apply List.filter_In in Hx as [_ Hx]. by rewrite Hp in Hx.
Qed.

Lemma get_story_info_stories td m m' id :
  stories_ m' = stories_ m -> get_story_info td m' id = get_story_info td m id.
Proof. intros H. unfold get_story_info, get_story. by rewrite H. Qed.

(** [store_new_orders] asks for the row to be saved whenever the key moves. *)
Lemma store_new_orders_need_save td owner a np pub l ns m :
  let ns' := (store_new_orders td owner a np pub l ns m).1.2 in
  (ns = true -> ns' = true) /\
  (private_order_ a <> np \/ story_list_id_ a <> l -> ns' = true).
Proof.
  unfold store_new_orders.
  destruct (bool_decide (private_order_ a <> np)) eqn:Hp;
    destruct (bool_decide (story_list_id_ a <> l)) eqn:Hl;
    cbn [orb]; repeat case_goal_if; cbn [fst snd];
    (split; [try done|]);
    try (intros [H|H]; [by apply bool_decide_eq_false in Hp
                       |by apply bool_decide_eq_false in Hl]);
    done.
Qed.

Lemma update_active_stories_order_need_save td owner a ns m m' a' ns' r :
  update_active_stories_order td owner a ns m = Some (m', a', ns', r) ->
  (ns = true -> ns' = true) /\
  (private_order_ a' <> private_order_ a \/ story_list_id_ a' <> story_list_id_ a ->
   ns' = true).
Proof.
  unfold update_active_stories_order. intros H.
  destruct (is_bot td).
  { apply (inj Some) in H. injection H as _ <- <- _.
    split; [done|]. by intros [?|?]. }
  apply bind_Some in H as (last_id & _ & H).
  destruct (negb _); [done|].
  apply bind_Some in H as (last_story & _ & H).
  destruct (_ =? 0); [done|].
  apply bind_Some in H as ([m1 pub] & Hm1 & H).
  match type of H with
  | Some (store_new_orders ?t ?o ?x ?np ?p ?l ?n ?mm) = _ =>
      pose proof (store_new_orders_entry t o x np p l n mm) as (Hp & _ & Hl & _);
      pose proof (store_new_orders_need_save t o x np p l n mm) as [Hn1 Hn2]
  end.
  apply (inj Some) in H. rewrite H in Hp, Hl, Hn1, Hn2. cbn [fst snd] in Hp, Hl, Hn1, Hn2.
  split; [done|]. intros [Hd|Hd]; apply Hn2; [left|right]; congruence.
Qed.

(** Without a valid snapshot the empty branch ends by deleting the row. *)
Lemma on_update_active_stories_empty_row td owner promise m m' :
  use_message_database td = true ->
  on_update_active_stories_empty td owner promise false m = Some m' ->
  last (effects_ m') = Some (DbDeleteActiveStories owner promise).
Proof.
  intros Hdb H. unfold on_update_active_stories_empty in H.
  apply bind_Some in H as (m1 & _ & H).
  apply bind_Some in H as (m_s & Hsave & H). apply (inj Some) in H. subst m'.
  cbn [negb] in Hsave. unfold save_active_stories in Hsave. rewrite Hdb in Hsave.
  cbn [negb] in Hsave. apply (inj Some) in Hsave. subst m_s.
  change (last (effects_ m1 ++ [DbDeleteActiveStories owner promise])
          = Some (DbDeleteActiveStories owner promise)).
  apply last_snoc.
Qed.

(** Without a valid snapshot the non-empty branch ends by writing the row of
    the entry, when the entry differs from the one before. *)
Lemma on_update_active_stories_nonempty_row td owner max_read first_id ids promise
    m m' a :
  use_message_database td = true ->
  on_update_active_stories_nonempty td owner max_read first_id ids promise false m
    = Some m' ->
  active_stories_ m' !! owner = Some a ->
  let a0 := default new_ActiveStories (active_stories_ m !! owner) in
  (story_ids_ a <> story_ids_ a0 \/ max_read_story_id_ a <> max_read_story_id_ a0 \/
   private_order_ a <> private_order_ a0 \/ story_list_id_ a <> story_list_id_ a0) ->
  last (effects_ m')
  = Some (DbAddActiveStories owner (story_list_id_ a)
            (if story_list_id_is_valid (story_list_id_ a) then private_order_ a else 0)
            (max_read_story_id_ a)
            (List.filter (fun i => story_id_is_valid td (info_story_id_ i))
               (map (fun story_id => get_story_info td m (owner, story_id))
                    (story_ids_ a)))
            promise).
Proof.
  intros Hdb Hrun Ha a0 Hchanged. unfold on_update_active_stories_nonempty in Hrun.
  match type of Hrun with context [get_or_create_active_stories ?o ?r ?f ?x] =>
    pose proof (get_or_create_active_stories_spec o r f x) as (Hf1 & _ & Ha0);
    destruct (get_or_create_active_stories o r f x) as [[a1 mr] m1] end.
  cbn [fst snd] in Hf1, Ha0.
  change (active_stories_ (upd_failed_to_load_active_stories_ ?f m))
    with (active_stories_ m) in Ha0.
  fold a0 in Ha0. subst a1.
  match type of Hrun with context [update_active_stories_order _ _ _ _ ?x] =>
    set (m2 := x) in Hrun; assert (same_but_lists m1 m2) as Hf2
      by (subst m2; case_goal_if; frame_lists); clearbody m2 end.
  apply bind_Some in Hrun as ([[m3 a3] ns3] & Hm3 & Hrun).
  assert (same_but_lists m2 m3 /\
          ((story_ids_ a3 <> story_ids_ a0 \/ max_read_story_id_ a3 <> max_read_story_id_ a0 \/
            private_order_ a3 <> private_order_ a0 \/ story_list_id_ a3 <> story_list_id_ a0) ->
           ns3 = true)) as [Hf3 Hsave].
  { destruct (bool_decide (max_read_story_id_ a0 <> mr) || bool_decide (story_ids_ a0 <> ids)).
    - apply bind_Some in Hm3 as ([[[m4 a4] ns4] r4] & Hm4 & Hm3).
      apply update_active_stories_order_need_save in Hm4 as Hns.
      apply update_active_stories_order_entry in Hm4 as (_ & _ & Hf4).
      apply (inj Some) in Hm3. injection Hm3 as <- <- <-.
      split; [frame_lists|]. intros _. by apply (proj1 Hns).
    - apply bind_Some in Hm3 as ([[[m4 a4] ns4] r4] & Hm4 & Hm3).
      apply update_active_stories_order_need_save in Hm4 as Hns.
      apply update_active_stories_order_entry in Hm4 as (Hi & Hr & Hf4).
      apply (inj Some) in Hm3. injection Hm3 as <- <- <-.
      split; [destruct r4; frame_lists|].
      intros [H|[H|H]]; [congruence| |by apply (proj2 Hns)].
      rewrite Hr in H. done. }
  assert (same_but_active m m3) as Hf by frame_active.
  assert (active_stories_ m' !! owner = Some a3) as Ha3.
  { destruct (ns3 && negb false).
    - rewrite (frame_active_stories _ _ (save_active_stories_frame _ _ _ _ _ _ Hrun)).
      apply lookup_insert_eq.
    - apply (inj Some) in Hrun. subst m'.
      match goal with |- active_stories_ (promise_set_value ?p ?mm) !! _ = _ =>
        rewrite (frame_active_stories _ _ (promise_set_value_frame p mm)) end.
      apply lookup_insert_eq. }
  assert (a3 = a) as -> by congruence. clear Ha3.
  rewrite (Hsave Hchanged) in Hrun. cbn [negb andb] in Hrun.
  unfold save_active_stories in Hrun. rewrite Hdb in Hrun. cbn [negb] in Hrun.
  destruct (bool_decide _); [done|]. apply (inj Some) in Hrun. subst m'.
  change (effects_ (emit ?e ?x)) with (effects_ x ++ [e]). rewrite last_snoc.
  do 2 f_equal. f_equal. apply map_ext. intros id.
  apply get_story_info_stories. exact (frame_stories _ _ Hf).
Qed.

(** The log functions of the active lists write no row of active stories. *)

#[local] Instance same_rows_refl : Reflexive same_rows.
Proof. by intros m. Qed.
#[local] Instance same_rows_trans : Transitive same_rows.
Proof. unfold same_rows. intros m1 m2 m3 H1 H2. by rewrite H2. Qed.

Lemma emits_rows es m : active_stories_rows es = [] -> same_rows m (emits es m).
Proof.
  unfold same_rows, active_stories_rows. intros H.
  change (effects_ (emits es m)) with (effects_ m ++ es).
  by rewrite List.filter_app, H, app_nil_r.
Qed.

Lemma emit_rows e m : is_active_stories_row e = false -> same_rows m (emit e m).
Proof. intros H. apply emits_rows. unfold active_stories_rows. simpl. by rewrite H. Qed.

Lemma promise_set_value_rows p m : same_rows m (promise_set_value p m).
Proof. destruct p; [by apply emit_rows|reflexivity]. Qed.

Lemma upd_story_list_rows l f m : same_rows m (upd_story_list l f m).
Proof. unfold same_rows, upd_story_list. by case_match. Qed.

Lemma update_story_list_sent_total_count_in_rows td l m :
  same_rows m (update_story_list_sent_total_count_in td l m).
Proof.
  unfold update_story_list_sent_total_count_in. cbv zeta.
  etrans; [apply upd_story_list_rows|]. apply emits_rows.
  unfold update_story_list_sent_total_count. by repeat case_goal_if.
Qed.

Ltac rows_head :=
  lazymatch goal with
  | |- same_rows _ (update_story_list_sent_total_count_in _ _ _) =>
      apply update_story_list_sent_total_count_in_rows
  | |- same_rows _ (upd_story_list _ _ _) => apply upd_story_list_rows
  | |- same_rows _ (send_update_chat_active_stories _ _ _ _) => by apply emit_rows
  | |- same_rows _ (promise_set_value _ _) => apply promise_set_value_rows
  | |- same_rows _ (emit _ _) => by apply emit_rows
  end.

Ltac rows_chain :=
  repeat first
    [ match goal with |- same_rows ?x ?x => reflexivity end
    | match goal with
      | H : same_rows ?x ?b |- same_rows _ ?b => etrans; [|exact H]; clear H
      | |- same_rows ?x (upd_active_stories_ _ ?y) => change (same_rows x y)
      | |- same_rows ?x (upd_max_read_story_ids_ _ ?y) => change (same_rows x y)
      | |- same_rows ?x (upd_failed_to_load_active_stories_ _ ?y) =>
          change (same_rows x y)
      end
    | etrans; [|rows_head] ].

Lemma delete_active_stories_from_story_list_rows td owner a m m' :
  delete_active_stories_from_story_list td owner a m = Some m' -> same_rows m m'.
Proof.
  unfold delete_active_stories_from_story_list. intros H.
  destruct (negb _); [apply (inj Some) in H; by subst m'|].
  apply bind_Some in H as (sl & _ & H).
  destruct (bool_decide _); [|done]. apply (inj Some) in H. subst m'.
  apply upd_story_list_rows.
Qed.

Lemma update_story_list_sent_total_count_by_id_rows td l m m' :
  update_story_list_sent_total_count_by_id td l m = Some m' -> same_rows m m'.
Proof.
  unfold update_story_list_sent_total_count_by_id. intros H.
  destruct (is_bot td); [apply (inj Some) in H; by subst m'|].
  apply bind_Some in H as (sl & _ & H). apply (inj Some) in H. subst m'.
  apply update_story_list_sent_total_count_in_rows.
Qed.

Lemma update_order_in_story_lists_rows td owner a np l m m' pub :
  update_order_in_story_lists td owner a np l m = Some (m', pub) -> same_rows m m'.
Proof.
  unfold update_order_in_story_lists. intros H.
  destruct (story_list_id_is_valid l).
  - apply bind_Some in H as (sl & _ & H).
    apply bind_Some in H as (m1 & Hm1 & H). apply (inj Some) in H.
    injection H as <- _.
    destruct (_ || _); [|apply (inj Some) in Hm1; by subst m1].
    apply bind_Some in Hm1 as (m2 & Hm2 & Hm1).
    destruct (bool_decide (_ ∈ _)); [done|].
    apply bind_Some in Hm1 as (m3 & Hm3 & Hm1). apply (inj Some) in Hm1. subst m1.
    apply delete_active_stories_from_story_list_rows in Hm2.
    destruct (_ && _).
    + apply update_story_list_sent_total_count_by_id_rows in Hm3. rows_chain.
    + apply (inj Some) in Hm3. subst m3. rows_chain.
  - destruct (story_list_id_is_valid (story_list_id_ a));
      [|apply (inj Some) in H; injection H as <- _; reflexivity].
    apply bind_Some in H as (m1 & Hm1 & H).
    apply bind_Some in H as (m2 & Hm2 & H). apply (inj Some) in H. injection H as <- _.
    apply delete_active_stories_from_story_list_rows in Hm1.
    apply update_story_list_sent_total_count_by_id_rows in Hm2.
    rows_chain.
Qed.

Lemma store_new_orders_rows td owner a np pub l ns m :
  same_rows m (store_new_orders td owner a np pub l ns m).1.1.1.
Proof.
  unfold store_new_orders.
  repeat case_goal_if; cbn [fst snd]; first [reflexivity|by apply emit_rows].
Qed.

Lemma update_active_stories_order_rows td owner a ns m m' a' ns' r :
  update_active_stories_order td owner a ns m = Some (m', a', ns', r) ->
  same_rows m m'.
Proof.
  unfold update_active_stories_order. intros H.
  destruct (is_bot td); [apply (inj Some) in H; injection H as <- _ _ _; reflexivity|].
  apply bind_Some in H as (last_id & _ & H).
  destruct (negb _); [done|].
  apply bind_Some in H as (last_story & _ & H).
  destruct (_ =? 0); [done|].
  apply bind_Some in H as ([m1 pub] & Hm1 & H).
  apply update_order_in_story_lists_rows in Hm1.
  match type of H with
  | Some (store_new_orders ?t ?o ?x ?np ?p ?l ?n ?mm) = _ =>
      pose proof (store_new_orders_rows t o x np p l n mm) as Hf
  end.
  apply (inj Some) in H. rewrite H in Hf. cbn [fst snd] in Hf. rows_chain.
Qed.

(** With a valid snapshot the empty branch writes no row. *)
Lemma on_update_active_stories_empty_rows td owner promise m m' :
  on_update_active_stories_empty td owner promise true m = Some m' -> same_rows m m'.
Proof.
  unfold on_update_active_stories_empty. intros H.
  apply bind_Some in H as (m1 & Hm1 & H).
  cbn [negb mbind option_bind] in H. apply (inj Some) in H. subst m'.
  revert Hm1.
  match goal with |- context [get_active_stories ?x owner] =>
    set (m0 := x); assert (same_rows m m0) as Hm0
      by (subst m0; case_goal_if; rows_chain); clearbody m0 end.
  destruct (get_active_stories m0 owner) as [a|].
  - intros Hm1. apply bind_Some in Hm1 as (m2 & Hm2 & Hm1). apply (inj Some) in Hm1.
    subst m1.
    assert (same_rows m0 m2) as H02.
    { destruct (story_list_id_is_valid (story_list_id_ a));
        [|apply (inj Some) in Hm2; by subst m2].
      apply bind_Some in Hm2 as (m3 & Hm3 & Hm2).
      apply bind_Some in Hm2 as (sl & _ & Hm2). apply (inj Some) in Hm2. subst m2.
      apply delete_active_stories_from_story_list_rows in Hm3.
      cbn [negb andb]. rows_chain. }
    rows_chain.
  - intros Hm1. apply (inj Some) in Hm1. subst m1. rows_chain.
Qed.

(** With a valid snapshot the non-empty branch writes no row. *)
Lemma on_update_active_stories_nonempty_rows td owner max_read first_id ids promise
    m m' :
  on_update_active_stories_nonempty td owner max_read first_id ids promise true m
    = Some m' ->
  same_rows m m'.
Proof.
  unfold on_update_active_stories_nonempty.
  match goal with |- context [get_or_create_active_stories ?o ?r ?f ?x] =>
    assert (same_rows m (get_or_create_active_stories o r f x).2) as Hm1
      by (unfold get_or_create_active_stories;
          by repeat case_goal_if; destruct (get_active_stories _ owner));
    destruct (get_or_create_active_stories o r f x) as [[a mr] m1] end.
  cbn [snd] in Hm1.
  match goal with |- context [update_active_stories_order _ _ _ _ ?x] =>
    set (m2 := x); assert (same_rows m1 m2) as Hm2
      by (subst m2; case_goal_if; rows_chain); clearbody m2 end.
  intros H. apply bind_Some in H as ([[m3 a3] ns3] & Hm3 & H).
  rewrite andb_false_r in H. apply (inj Some) in H. subst m'.
  assert (same_rows m2 m3) as H23.
  { destruct (_ || _);
      apply bind_Some in Hm3 as ([[[m4 a4] ns4] r4] & Hm4 & Hm3);
      apply update_active_stories_order_rows in Hm4;
      apply (inj Some) in Hm3; injection Hm3 as <- _ _;
      [|destruct r4]; rows_chain. }
  rows_chain.
Qed.

(** C3, as the code has it.  [on_update_active_stories] keeps, in the order
    the caller gave them, exactly the ids that are server-assigned and whose
    story is in the store and not expired; the kept list is therefore
    strictly ascending whenever the caller's list is (the function itself
    does not sort).  If nothing is kept the owner's entry is removed;
    otherwise the entry holds the kept ids and, as its [max_read_story_id],
    the caller's value replaced by 0 when it is below the first kept id (a
    new entry takes the mark remembered for the owner instead, when that one
    is larger and not below the first kept id); the mark is thus 0 or at
    least the first kept id.  If anything was dropped the snapshot of the
    database is not trusted: the call behaves as with [from_database = false]
    and, with a message database, ends by deleting the owner's row when
    nothing is kept and by writing it when the entry has changed.  A snapshot
    from which nothing was dropped writes no row.  On a well-formed manager
    the call completes. *)
Theorem C3_on_update_active_stories (td : Td) (owner : Z) (max_read : Z)
    (ids : list Z) (promise : option nat) (from_db : bool) (m : StoryManager) :
  let kept := kept_story_ids td m owner ids in
  let old_entry := default new_ActiveStories (active_stories_ m !! owner) in
  let run := fun b => on_update_active_stories td owner max_read ids promise b m in
  (is_bot td = false ->
   dialog_id_is_valid td owner = true ->
   server_story_ids_valid td ->
   owner_keys_consistent owner old_entry m ->
   (forall id s, last kept = Some id -> get_story m (owner, id) = Some s -> 0 < date_ s) ->
   is_Some (run from_db)) /\
  (forall m',
     run from_db = Some m' ->
     stories_ m' = stories_ m /\
     match kept with
     | [] => active_stories_ m' !! owner = None
     | first_id :: _ =>
         exists a, active_stories_ m' !! owner = Some a /\
           story_ids_ a = kept /\
           (max_read_story_id_ a = 0 \/ first_id <= max_read_story_id_ a) /\
           max_read_story_id_ a
           = (let reset := if max_read <? first_id then 0 else max_read in
              match active_stories_ m !! owner with
              | Some _ => reset
              | None =>
                  let remembered := default 0 (max_read_story_ids_ m !! owner) in
                  if bool_decide (remembered <> 0) && (reset <? remembered)
                     && (first_id <=? remembered)
                  then remembered else reset
              end)
     end) /\
  (forall id, id ∈ kept <->
     id ∈ ids /\ story_id_is_server td id = true
     /\ is_active_story td (get_story m (owner, id)) = true) /\
  sublist kept ids /\
  (StronglySorted Z.lt ids -> StronglySorted Z.lt kept) /\
  (kept <> ids -> run true = run false) /\
  (forall m',
     use_message_database td = true ->
     from_db = false \/ kept <> ids ->
     run from_db = Some m' ->
     match active_stories_ m' !! owner with
     | None => last (effects_ m') = Some (DbDeleteActiveStories owner promise)
     | Some a =>
         story_ids_ a <> story_ids_ old_entry
         \/ max_read_story_id_ a <> max_read_story_id_ old_entry
         \/ private_order_ a <> private_order_ old_entry
         \/ story_list_id_ a <> story_list_id_ old_entry ->
         last (effects_ m')
         = Some (DbAddActiveStories owner (story_list_id_ a)
                   (if story_list_id_is_valid (story_list_id_ a)
                    then private_order_ a else 0)
                   (max_read_story_id_ a)
                   (List.filter (fun i => story_id_is_valid td (info_story_id_ i))
                      (map (fun story_id => get_story_info td m (owner, story_id))
                           (story_ids_ a)))
                   promise)
     end) /\
  (forall m',
     from_db = true -> kept = ids -> run from_db = Some m' ->
     active_stories_rows (effects_ m') = active_stories_rows (effects_ m)).
Proof.
  cbv zeta. split_and!.
  - apply on_update_active_stories_Some.
  - intros m' Hrun. apply on_update_active_stories_spec in Hrun as [Hframe Hentry].
    split; [by apply frame_stories|exact Hentry].
  - apply kept_story_ids_spec.
  - apply filter_sublist.
  - apply StronglySorted_filter.
  - intros Hne. apply remove_if_changed in Hne.
    unfold on_update_active_stories, kept_story_ids in *.
    destruct (negb _); [done|].
    destruct (remove_if (is_dropped_story_id td m owner) ids) as [kept removed].
    simpl in Hne. by subst removed.
  - intros m' Hdb Hinvalid Hrun.
    pose proof (on_update_active_stories_spec _ _ _ _ _ _ _ _ Hrun) as [_ Hentry].
    assert ((remove_if (is_dropped_story_id td m owner) ids).2 = true \/ from_db = false)
      as Hflag.
    { destruct Hinvalid as [?|Hne]; [by right|left]. by apply remove_if_changed. }
    unfold on_update_active_stories, kept_story_ids in *.
    destruct (negb _); [done|].
    destruct (remove_if (is_dropped_story_id td m owner) ids) as [kept removed].
    cbn [fst snd] in *.
    assert ((if removed then false else from_db) = false) as Hfalse
      by (destruct Hflag as [-> | ->]; [done|by destruct removed]).
    rewrite Hfalse in Hrun. destruct kept as [|first_id kept].
    + rewrite Hentry. by apply (on_update_active_stories_empty_row td owner promise m).
    + destruct Hentry as (a & Ha & _). rewrite Ha.
      by apply (on_update_active_stories_nonempty_row _ _ _ _ _ _ _ _ _ Hdb Hrun).
  - intros m' -> Hsame Hrun.
    unfold on_update_active_stories, kept_story_ids in *.
    destruct (negb _); [done|].
    pose proof (remove_if_kept_all (is_dropped_story_id td m owner) ids Hsame) as Hrem.
    destruct (remove_if (is_dropped_story_id td m owner) ids) as [kept removed].
    cbn [fst snd] in *. subst removed. destruct kept as [|first_id kept].
    + by apply on_update_active_stories_empty_rows in Hrun.
    + by apply on_update_active_stories_nonempty_rows in Hrun.
Qed.

Lemma sample_manager_dates id s :
  get_story sample_manager (2, id) = Some s -> 0 < date_ s.
Proof.
  unfold get_story. cbn. intros H.
  apply lookup_insert_Some in H as [[_ <-]|[_ H]]; [done|].
  apply lookup_singleton_Some in H as [_ <-]. done.
Qed.

Lemma C3_on_update_active_stories_witness :
  let td := with_message_database (sample_td 1000 false false false) in
  (exists m' a,
     on_update_active_stories td 2 4 [0; 3; 5; 7] None true sample_manager = Some m' /\
     active_stories_ m' !! 2 = Some a /\
     story_ids_ a = [3; 5] /\
     max_read_story_id_ a = 4 /\
     last (effects_ m')
     = Some (DbAddActiveStories 2 StoryListId_main (950 + 2 ^ 33 + 2 ^ 35) 4
               [mkStoryInfo 3 900 2000 false; mkStoryInfo 5 950 2000 false] None)) /\
  (exists m',
     on_update_active_stories td 2 4 [3; 5] None true sample_manager = Some m' /\
     active_stories_rows (effects_ m') = []).
Proof.
  intros td. split; cycle 1.
  { destruct (C3_on_update_active_stories td 2 4 [3; 5] None true sample_manager)
      as (Hrun & _ & _ & _ & _ & _ & _ & Hrows).
    destruct Hrun as [m' Hm'];
      [reflexivity | reflexivity
      | intros id H; cbn in *; by apply andb_true_iff in H as [H _]
      | apply sample_manager_consistent
      | intros id s _; apply sample_manager_dates |].
    exists m'. split; [exact Hm'|].
    by rewrite (Hrows m' eq_refl ltac:(by vm_compute) Hm'). }
  assert (Hk : kept_story_ids td sample_manager 2 [0; 3; 5; 7] = [3; 5])
    by (by vm_compute).
  destruct (C3_on_update_active_stories td 2 4 [0; 3; 5; 7] None true sample_manager)
    as (Hrun & Hpost & _ & _ & _ & _ & Hrow & _).
  destruct Hrun as [m' Hm'];
    [reflexivity | reflexivity
    | intros id H; cbn in *; by apply andb_true_iff in H as [H _]
    | apply sample_manager_consistent
    | intros id s _; apply sample_manager_dates |].
  destruct (Hpost m' Hm') as [_ Hentry]. rewrite Hk in Hentry.
  destruct Hentry as (a & Ha & Hids & _ & Hread).
  assert (kept_story_ids td sample_manager 2 [0; 3; 5; 7] <> [0; 3; 5; 7]) as Hne
    by (by rewrite Hk).
  specialize (Hrow m' eq_refl (or_intror Hne) Hm').
  rewrite Ha in Hrow.
  assert (private_order_ a = 950 + 2 ^ 33 + 2 ^ 35
          /\ story_list_id_ a = StoryListId_main) as [Hp Hl].
  { vm_compute in Hm'. injection Hm' as <-. vm_compute in Ha. by injection Ha as <-. }
  assert (max_read_story_id_ a = 4) as Hmark by exact Hread.
  exists m', a. split_and!; [exact Hm'|exact Ha|by rewrite Hids|exact Hmark|].
  rewrite Hrow; [|left; by rewrite Hids]. rewrite Hids, Hp, Hl, Hmark. reflexivity.
Defined.

(** C3 as stated fails: handed the active server ids 5 and 3 in this order,
    the function stores them in this order. *)
Lemma C3_counterexample :
  let td := sample_td 1000 false false false in
  (m' ← on_update_active_stories td 2 0 [5; 3] None false sample_manager;
   a ← active_stories_ m' !! 2;
   Some (story_ids_ a)) = Some [5; 3]
  /\ ~ StronglySorted Z.lt [5; 3].
Proof.
  split; [by vm_compute|].
  intros H. apply StronglySorted_inv in H as [_ H].
  apply Forall_cons in H as [H _]. lia.
Qed.

(** ** Expiry (on_story_expire_timeout, on_story_changed, on_delete_story) *)

(** Without a change to publish or save, [on_story_changed] only re-arms the
    timers of the story. *)
Lemma on_story_changed_rearm td id story from_db m :
  is_active_story td (Some story) = true ->
  0 < global_id_ story ->
  exists m',
    on_story_changed td id story false false from_db m = Some m' /\
    same_but_timers m m' /\
    story_expire_timeout_ m'
      = <[global_id_ story := to_int32 (expire_date_ story - unix_time td)]>
          (story_expire_timeout_ m) /\
    story_can_get_viewers_timeout_ m'
      = if negb (is_error (can_get_story_viewers td id story))
        then <[global_id_ story :=
                 to_int32 (get_story_viewers_expire_date td story - unix_time td)]>
               (story_can_get_viewers_timeout_ m)
        else story_can_get_viewers_timeout_ m.
Proof.
  intros Hact Hgid. unfold on_story_changed. rewrite Hact.
  apply Z.ltb_lt in Hgid. rewrite Hgid. cbn [mbind option_bind].
  destruct (negb (is_error (can_get_story_viewers td id story)));
    destruct (bool_decide (content_ story = None) || negb (story_id_is_valid td id.2));
    cbn [orb]; eexists; (split; [reflexivity|]); by split_and!.
Qed.

Lemma kept_story_ids_subseteq td m owner ids id :
  id ∈ kept_story_ids td m owner ids -> id ∈ ids.
Proof. intros H. by apply kept_story_ids_spec in H as [? _]. Qed.

Lemma elem_of_remove_value l x y : y ∈ remove_value l x <-> y ∈ l /\ y <> x.
Proof.
  unfold remove_value. rewrite !list_elem_of_In, List.filter_In, negb_true_iff.
  by rewrite Z.eqb_neq.
Qed.

(** The ids of the owner's entry after [on_update_active_stories], when there
    is an entry. *)
Lemma on_update_active_stories_ids td owner max_read ids promise from_db m m' a :
  on_update_active_stories td owner max_read ids promise from_db m = Some m' ->
  active_stories_ m' !! owner = Some a ->
  story_ids_ a = kept_story_ids td m owner ids.
Proof.
  intros Hrun Ha. apply on_update_active_stories_spec in Hrun as [_ Hentry].
  destruct (kept_story_ids td m owner ids); [congruence|].
  destruct Hentry as (a' & Ha' & Hids & _). congruence.
Qed.

(** Goals [l ++ a `prefix_of` l ++ b] between two logs. *)
Ltac solve_prefix :=
  rewrite <- ?app_assoc; simpl;
  repeat first [apply prefix_app | apply prefix_cons];
  first [reflexivity | by eexists | apply prefix_nil].

(** What [forget_story] writes. *)
Lemma forget_story_spec td id story m :
  0 < global_id_ story ->
  exists m',
    forget_story td id story m = Some m' /\
    without_story_part m' = without_story_part m /\
    stories_ m' = delete id (stories_ m) /\
    stories_by_global_id_ m' = delete (global_id_ story) (stories_by_global_id_ m) /\
    inaccessible_story_full_ids_ m' = inaccessible_story_full_ids_ m /\
    being_edited_stories_ m' = delete id (being_edited_stories_ m) /\
    edit_generations_ m' = delete id (edit_generations_ m) /\
    cached_story_viewers_ m' = delete id (cached_story_viewers_ m) /\
    (effects_ m
       ++ (if is_update_sent_ story
           then [SendUpdate (updateStoryDeleted id.1 id.2)] else [])
       ++ map FileDelete (get_story_file_ids (Some story)))
      `prefix_of` effects_ m'.
Proof.
  intros Hgid. apply Z.ltb_lt in Hgid.
  unfold forget_story, unregister_story_global_id. rewrite Hgid.
  cbn [mbind option_bind]. eexists. split; [reflexivity|].
  unfold delete_story_files.
  destruct (is_update_sent_ story); cbn;
    (match goal with
     | |- context [match ?x with Some _ => _ | None => _ end] =>
         destruct x as [edited|] eqn:He
     end;
     [match goal with |- context [if ?c then _ else _] => destruct c end|]);
    cbn; split_and!; try reflexivity;
    try (symmetry; apply delete_id; exact He);
    solve_prefix.
Qed.

Lemma get_active_stories_force_loaded td owner m :
  active_stories_loaded td owner m ->
  get_active_stories_force td owner m = Some (m, active_stories_ m !! owner).
Proof.
  intros Hloaded. unfold get_active_stories_force, get_active_stories.
  destruct (active_stories_ m !! owner) as [a|] eqn:Ha; [done|].
  destruct Hloaded as [[a Ha']|[Hdb|Hfailed]]; [congruence| |].
  - by rewrite Hdb.
  - rewrite (bool_decide_eq_true_2 _ Hfailed). by rewrite orb_true_r.
Qed.

(** Dropping an id from the owner's active list: the step shared by
    [on_delete_story] and [on_story_expire_timeout]. *)
Lemma drop_from_active_stories td owner sid ids m :
  is_bot td = false ->
  dialog_id_is_valid td owner = true ->
  server_story_ids_valid td ->
  owner_keys_consistent owner
    (default new_ActiveStories (active_stories_ m !! owner)) m ->
  (forall x s, get_story m (owner, x) = Some s -> 0 < date_ s) ->
  is_active_story td (get_story m (owner, sid)) = false \/ sid ∉ ids ->
  forall a, active_stories_ m !! owner = Some a ->
  exists m',
    on_update_active_stories td owner (max_read_story_id_ a) ids None false m = Some m' /\
    same_but_active m m' /\
    (forall a', active_stories_ m' !! owner = Some a' -> sid ∉ story_ids_ a').
Proof.
  intros Hbot Hvalid Hserver Hwf Hdates Hsid a Ha.
  destruct (on_update_active_stories_Some td owner (max_read_story_id_ a) ids None
              false m) as [m' Hrun]; [done|done|done|done|by eauto|].
  exists m'. split; [done|].
  pose proof (on_update_active_stories_spec _ _ _ _ _ _ _ _ Hrun) as [Hframe _].
  split; [done|]. intros a' Ha' Hin.
  rewrite (on_update_active_stories_ids _ _ _ _ _ _ _ _ _ Hrun Ha') in Hin.
  apply kept_story_ids_spec in Hin as (Hin & _ & Hact).
  destruct Hsid as [Hexp|Hnotin]; [congruence|done].
Qed.

(** The complete deletion of a stored story. *)
Lemma on_delete_story_spec td id story m :
  is_bot td = false ->
  dialog_id_is_valid td id.1 = true ->
  server_story_ids_valid td ->
  story_id_is_server td id.2 = true ->
  story_full_id_is_valid td id = true ->
  get_story m id = Some story ->
  content_ story <> None ->
  0 < global_id_ story ->
  active_stories_loaded td id.1 m ->
  owner_keys_consistent id.1
    (default new_ActiveStories (active_stories_ m !! id.1)) m ->
  (forall sid s, get_story m (id.1, sid) = Some s -> 0 < date_ s) ->
  exists m',
    on_delete_story td id m = Some m' /\
    stories_ m' = delete id (stories_ m) /\
    stories_by_global_id_ m' = delete (global_id_ story) (stories_by_global_id_ m) /\
    inaccessible_story_full_ids_ m'
      = <[id := time_now td]> (inaccessible_story_full_ids_ m) /\
    being_edited_stories_ m' = delete id (being_edited_stories_ m) /\
    edit_generations_ m' = delete id (edit_generations_ m) /\
    cached_story_viewers_ m' = delete id (cached_story_viewers_ m) /\
    (forall a, active_stories_ m' !! id.1 = Some a -> id.2 ∉ story_ids_ a) /\
    (effects_ m
       ++ [MessagesUpdateStoryMaxReplyMediaTimestamp id]
       ++ (if is_update_sent_ story
           then [SendUpdate (updateStoryDeleted id.1 id.2)] else [])
       ++ map FileDelete (get_story_file_ids (Some story)))
      `prefix_of` effects_ m' /\
    (use_message_database td = true -> last (effects_ m') = Some (DbDeleteStory id)).
Proof.
  intros Hbot Hdialog Hsv Hserver Hvalid Hstory Hcontent Hgid Hloaded Hwf Hdates.
  unfold on_delete_story. rewrite Hserver. cbn [negb].
  set (m_a := emit _ (upd_inaccessible_story_full_ids_ _ m)).
  assert (get_story_force td id m_a = Some (m_a, Some story)) as ->.
  { assert (get_story m_a id = Some story) as Hs by exact Hstory.
    unfold get_story_force. rewrite Hvalid. cbn [negb]. cbv zeta. rewrite Hs.
    rewrite bool_decide_eq_true_2 by (apply not_eq_None_Some; exact Hcontent).
    reflexivity. }
  cbn [mbind option_bind].
  destruct (forget_story_spec td id story m_a Hgid)
    as (m_g & -> & Hframe & Hst & Hgl & Hin & Hbe & Heg & Hcv & Heff).
  cbn [mbind option_bind].
  assert (active_stories_ m_g = active_stories_ m) as Hact
    by exact (f_equal active_stories_ Hframe).
  assert (story_list_main_ m_g = story_list_main_ m) as Hl1
    by exact (f_equal story_list_main_ Hframe).
  assert (story_list_archive_ m_g = story_list_archive_ m) as Hl2
    by exact (f_equal story_list_archive_ Hframe).
  assert (failed_to_load_active_stories_ m_g = failed_to_load_active_stories_ m) as Hfl
    by exact (f_equal failed_to_load_active_stories_ Hframe).
  rewrite get_active_stories_force_loaded
    by (unfold active_stories_loaded; by rewrite Hact, Hfl).
  cbn [mbind option_bind].
  (* the manager after the active list has been re-evaluated *)
  assert (exists m_h,
    match active_stories_ m_g !! id.1 with
    | Some a =>
        if contains (story_ids_ a) id.2
        then on_update_active_stories td id.1 (max_read_story_id_ a)
               (remove_value (story_ids_ a) id.2) None false m_g
        else Some m_g
    | None => Some m_g
    end = Some m_h /\
    same_but_active m_g m_h /\
    (forall a, active_stories_ m_h !! id.1 = Some a -> id.2 ∉ story_ids_ a))
    as (m_h & -> & Hgh & Hentry).
  { destruct (active_stories_ m_g !! id.1) as [a|] eqn:Ha;
      [|exists m_g; split_and!; [done|reflexivity|by intros a; rewrite Ha]].
    unfold contains. case_bool_decide as Hc;
      [|exists m_g; split_and!; [done|reflexivity|intros a' Ha'; by simplify_eq]].
    apply (drop_from_active_stories td id.1 id.2 _ m_g); try done.
    - rewrite Ha. simpl. rewrite Hact in Ha. rewrite Ha in Hwf.
      by apply (owner_keys_consistent_ext id.1 a a m m_g) in Hwf.
    - intros x s Hx. unfold get_story in Hx. rewrite Hst in Hx.
      apply lookup_delete_Some in Hx as [_ Hx]. by eapply Hdates.
    - right. intros Hx. by apply elem_of_remove_value in Hx as [_ ?]. }
  cbn [mbind option_bind]. eexists. split; [reflexivity|].
  destruct Hgh as [Hgh Hlog].
  unfold delete_story_from_database.
  split_and!.
  - case_goal_if; exact (eq_trans (f_equal stories_ Hgh) Hst).
  - case_goal_if; exact (eq_trans (f_equal stories_by_global_id_ Hgh) Hgl).
  - case_goal_if; exact (eq_trans (f_equal inaccessible_story_full_ids_ Hgh) Hin).
  - case_goal_if; exact (eq_trans (f_equal being_edited_stories_ Hgh) Hbe).
  - case_goal_if; exact (eq_trans (f_equal edit_generations_ Hgh) Heg).
  - case_goal_if; exact (eq_trans (f_equal cached_story_viewers_ Hgh) Hcv).
  - case_goal_if; exact Hentry.
  - etrans; [|etrans; [exact Hlog|case_goal_if; [by eexists|done]]].
    etrans; [|exact Heff]. subst m_a. cbn. by rewrite <- !app_assoc.
  - intros ->. cbn. apply last_snoc.
Qed.

(** The body of [on_story_expire_timeout] once the story is found. *)
Lemma on_story_expire_timeout_found td gid id story m :
  close_flag td = false ->
  stories_by_global_id_ m !! gid = Some id ->
  get_story m id = Some story ->
  on_story_expire_timeout td gid m =
    if is_active_story td (Some story) then
      on_story_changed td id story false false false m
    else if negb (dialog_id_is_valid td id.1) then None
    else
      m1 ← (if negb (is_story_owned td id.1) && bool_decide (content_ story <> None)
               && negb (is_pinned_ story)
            then on_delete_story td id m else Some m);
      match get_active_stories m1 id.1 with
      | Some a =>
          if contains (story_ids_ a) id.2 then
            on_update_active_stories td id.1 (max_read_story_id_ a) (story_ids_ a)
              None false m1
          else Some m1
      | None => Some m1
      end.
Proof.
  intros Hclose Hgid Hstory. unfold on_story_expire_timeout.
  rewrite Hclose, Hgid. cbv zeta.
  change (default (0, 0) (Some id)) with id. by rewrite Hstory.
Qed.

(** X1.  When the expire timer fires before the wall-clock deadline, nothing is
    deleted and nothing is emitted, but the callback is not a no-op: through
    [on_story_changed] it re-arms the expire timer of the story for the
    remaining time (and the viewers timer while viewers can be fetched); all
    other members of the manager are unchanged. *)
Theorem expire_timeout_before_deadline_rearms (td : Td) (gid : Z) (id : Z * Z)
    (story : Story) (m : StoryManager) :
  close_flag td = false ->
  stories_by_global_id_ m !! gid = Some id ->
  get_story m id = Some story ->
  unix_time td < expire_date_ story ->
  0 < global_id_ story ->
  exists m',
    on_story_expire_timeout td gid m = Some m' /\
    same_but_timers m m' /\
    effects_ m' = effects_ m /\
    stories_ m' = stories_ m /\
    active_stories_ m' = active_stories_ m /\
    story_expire_timeout_ m'
      = <[global_id_ story := to_int32 (expire_date_ story - unix_time td)]>
          (story_expire_timeout_ m) /\
    story_can_get_viewers_timeout_ m'
      = if negb (is_error (can_get_story_viewers td id story))
        then <[global_id_ story :=
                 to_int32 (get_story_viewers_expire_date td story - unix_time td)]>
               (story_can_get_viewers_timeout_ m)
        else story_can_get_viewers_timeout_ m.
Proof.
  intros Hclose Hgid Hstory Hnow Hpos.
  rewrite (on_story_expire_timeout_found td gid id story m) by done.
  cbn [is_active_story]. apply Z.ltb_lt in Hnow as Hnow'. rewrite Hnow'.
  destruct (on_story_changed_rearm td id story false m)
    as (m' & Hrun & Hframe & Hexp & Hview); [done|done|].
  exists m'. split_and!; [done|done| | | |done|done].
  - exact (f_equal effects_ Hframe).
  - exact (f_equal stories_ Hframe).
  - exact (f_equal active_stories_ Hframe).
Qed.

Lemma expire_timeout_before_deadline_rearms_witness :
  let td := sample_td 1000 false false false in
  exists m',
    on_story_expire_timeout td 1 sample_manager = Some m' /\
    story_expire_timeout_ m' !! 1 = Some 1000 /\
    stories_ m' = stories_ sample_manager.
Proof.
  intros td.
  destruct (expire_timeout_before_deadline_rearms td 1 (2, 3)
              (sample_story 900 2000 (Some [31]) false 1) sample_manager)
    as (m' & Hrun & _ & _ & Hst & _ & Hexp & _);
    [reflexivity | by vm_compute | by vm_compute | by vm_compute | by vm_compute |].
  exists m'. split_and!; [exact Hrun| |exact Hst].
  rewrite Hexp. by vm_compute.
Defined.

(** X2.  When the expire timer fires after the deadline for a story that is not
    owned, has content and is not pinned, the story is deleted entirely: the
    record, its global id and its cached viewers are gone, a tombstone with
    the current time is left, the files are deleted, the database row is
    deleted when there is a database, [updateStoryDeleted] is sent if the
    story had been published, and the owner's active list no longer holds the
    id. *)
Theorem expire_timeout_deletes_foreign_story (td : Td) (gid : Z) (owner sid : Z)
    (story : Story) (m : StoryManager) :
  close_flag td = false ->
  stories_by_global_id_ m !! gid = Some (owner, sid) ->
  get_story m (owner, sid) = Some story ->
  expire_date_ story <= unix_time td ->
  is_story_owned td owner = false ->
  content_ story <> None ->
  is_pinned_ story = false ->
  is_bot td = false ->
  dialog_id_is_valid td owner = true ->
  server_story_ids_valid td ->
  story_id_is_server td sid = true ->
  story_full_id_is_valid td (owner, sid) = true ->
  0 < global_id_ story ->
  active_stories_loaded td owner m ->
  owner_keys_consistent owner
    (default new_ActiveStories (active_stories_ m !! owner)) m ->
  (forall x s, get_story m (owner, x) = Some s -> 0 < date_ s) ->
  exists m',
    on_story_expire_timeout td gid m = Some m' /\
    stories_ m' !! (owner, sid) = None /\
    stories_by_global_id_ m' !! global_id_ story = None /\
    cached_story_viewers_ m' !! (owner, sid) = None /\
    inaccessible_story_full_ids_ m' !! (owner, sid) = Some (time_now td) /\
    (use_message_database td = true -> DbDeleteStory (owner, sid) ∈ effects_ m') /\
    (forall f, f ∈ get_story_file_ids (Some story) -> FileDelete f ∈ effects_ m') /\
    (is_update_sent_ story = true ->
     SendUpdate (updateStoryDeleted owner sid) ∈ effects_ m') /\
    (forall a, active_stories_ m' !! owner = Some a -> sid ∉ story_ids_ a).
Proof.
  intros Hclose Hgid Hstory Hnow Howned Hcontent Hpinned Hbot Hvalid Hsv Hserver Hfull
    Hpos Hloaded Hwf Hdates.
  rewrite (on_story_expire_timeout_found td gid (owner, sid) story m) by done.
  cbn [is_active_story fst snd]. apply Z.ltb_ge in Hnow as Hnow'. rewrite Hnow'.
  rewrite Hvalid. cbn [negb].
  rewrite Howned, Hpinned, (bool_decide_eq_true_2 _ Hcontent). cbn [negb andb].
  destruct (on_delete_story_spec td (owner, sid) story m)
    as (m1 & -> & Hst & Hgl & Hin & _ & _ & Hcv & Hentry & Heff & Hdb);
    [done..|].
  cbn [mbind option_bind]. cbn [fst snd] in *.
  exists m1. split.
  { unfold get_active_stories.
    destruct (active_stories_ m1 !! owner) as [a|] eqn:Ha; [|done].
    unfold contains. by rewrite bool_decide_eq_false_2 by (by apply Hentry). }
  split_and!.
  - rewrite Hst. apply lookup_delete_eq.
  - rewrite Hgl. apply lookup_delete_eq.
  - rewrite Hcv. apply lookup_delete_eq.
  - rewrite Hin. apply lookup_insert_eq.
  - intros Huse. apply Hdb in Huse. by apply last_Some_elem_of.
  - intros f Hf. destruct Heff as [k ->].
    rewrite !elem_of_app. left. right. right. right.
    by apply list_elem_of_fmap_2.
  - intros Hsent. destruct Heff as [k ->]. rewrite Hsent.
    rewrite !elem_of_app. left. right. right. left. by apply list_elem_of_singleton.
  - exact Hentry.
Qed.

Lemma expire_timeout_deletes_foreign_story_witness :
  let td := sample_td 3000 false false false in
  exists m',
    on_story_expire_timeout td 1 sample_manager = Some m' /\
    stories_ m' !! (2, 3) = None /\
    FileDelete 31 ∈ effects_ m' /\
    SendUpdate (updateStoryDeleted 2 3) ∈ effects_ m'.
Proof.
  intros td.
  destruct (expire_timeout_deletes_foreign_story td 1 2 3
              (sample_story 900 2000 (Some [31]) false 1) sample_manager)
    as (m' & Hrun & Hst & _ & _ & _ & _ & Hfiles & Hsent & _);
    [reflexivity | by vm_compute | by vm_compute | by vm_compute | reflexivity
    | done | reflexivity | reflexivity | reflexivity
    | apply sample_td_server_story_ids_valid | reflexivity | reflexivity
    | by vm_compute | right; left; reflexivity | apply sample_manager_consistent
    | apply sample_manager_dates |].
  exists m'. split_and!; [exact Hrun|exact Hst| |by apply Hsent].
  apply Hfiles. by vm_compute; left.
Defined.

(** X3.  When the expire timer fires after the deadline for a story that is owned,
    or pinned, or known only as a stub, the story record is kept (with every
    other member outside the active-stories part), and the id is dropped from
    the owner's active list. *)
Theorem expire_timeout_keeps_own_or_pinned_story (td : Td) (gid : Z) (owner sid : Z)
    (story : Story) (m : StoryManager) :
  close_flag td = false ->
  stories_by_global_id_ m !! gid = Some (owner, sid) ->
  get_story m (owner, sid) = Some story ->
  expire_date_ story <= unix_time td ->
  is_story_owned td owner = true \/ content_ story = None \/ is_pinned_ story = true ->
  is_bot td = false ->
  dialog_id_is_valid td owner = true ->
  server_story_ids_valid td ->
  owner_keys_consistent owner
    (default new_ActiveStories (active_stories_ m !! owner)) m ->
  (forall x s, get_story m (owner, x) = Some s -> 0 < date_ s) ->
  exists m',
    on_story_expire_timeout td gid m = Some m' /\
    same_but_active m m' /\
    get_story m' (owner, sid) = Some story /\
    (forall a, active_stories_ m' !! owner = Some a -> sid ∉ story_ids_ a).
Proof.
  intros Hclose Hgid Hstory Hnow Hkeep Hbot Hvalid Hsv Hwf Hdates.
  rewrite (on_story_expire_timeout_found td gid (owner, sid) story m) by done.
  cbn [is_active_story fst snd]. apply Z.ltb_ge in Hnow as Hnow'. rewrite Hnow'.
  rewrite Hvalid. cbn [negb].
  assert (negb (is_story_owned td owner) && bool_decide (content_ story <> None)
          && negb (is_pinned_ story) = false) as ->.
  { destruct Hkeep as [-> | [Hc | ->]].
    - done.
    - rewrite (bool_decide_eq_false_2 (content_ story <> None)) by (intros H; by apply H).
      by rewrite andb_false_r.
    - by rewrite andb_false_r. }
  cbn [mbind option_bind]. unfold get_active_stories.
  pose proof Hwf as Hwf'.
  destruct (active_stories_ m !! owner) as [a|] eqn:Ha in |- *.
  - unfold contains. destruct (decide (sid ∈ story_ids_ a)) as [Hin|Hin].
    + rewrite (bool_decide_eq_true_2 _ Hin).
      assert (is_active_story td (get_story m (owner, sid)) = false
              \/ sid ∉ story_ids_ a) as Hor.
      { left. rewrite Hstory. cbn [is_active_story]. exact Hnow'. }
      destruct (drop_from_active_stories td owner sid (story_ids_ a) m
                  Hbot Hvalid Hsv Hwf Hdates Hor a Ha)
        as (m' & Hrun & Hframe & Hgone).
      exists m'. split_and!; [done|done| |done].
      unfold get_story. destruct Hframe as [Hframe _].
      rewrite <- Hstory. unfold get_story.
      exact (f_equal (fun x => stories_ x !! (owner, sid)) Hframe).
    + rewrite (bool_decide_eq_false_2 _ Hin).
      exists m. split_and!; [done|reflexivity|done|].
      intros a' Ha'. rewrite Ha in Ha'. by simplify_eq.
  - exists m. split_and!; [done|reflexivity|done|].
    intros a' Ha'. by rewrite Ha in Ha'.
Qed.

Lemma sample_manager_own_consistent :
  owner_keys_consistent 1 (mkActiveStories 0 [7] StoryListId_none 0 0)
    sample_manager_own.
Proof.
  split; [done|]. intros l o _ Hin. destruct l; simpl in Hin; set_solver.
Qed.

Lemma sample_manager_own_dates id s :
  get_story sample_manager_own (1, id) = Some s -> 0 < date_ s.
Proof.
  unfold get_story. cbn. intros H.
  apply lookup_insert_Some in H as [[_ <-]|[_ H]]; [done|].
  apply lookup_insert_Some in H as [[? _]|[_ H]]; [done|].
  apply lookup_singleton_Some in H as [? _]. done.
Qed.

Lemma expire_timeout_keeps_own_or_pinned_story_witness :
  let td := sample_td 3000 false false false in
  exists m',
    on_story_expire_timeout td 3 sample_manager_own = Some m' /\
    is_Some (get_story m' (1, 7)) /\
    (forall a, active_stories_ m' !! 1 = Some a -> 7 ∉ story_ids_ a).
Proof.
  intros td.
  destruct (expire_timeout_keeps_own_or_pinned_story td 3 1 7
              (sample_story 900 2000 (Some [71]) false 3) sample_manager_own)
    as (m' & Hrun & _ & Hst & Hgone);
    [reflexivity | by vm_compute | by vm_compute | by vm_compute
    | left; reflexivity | reflexivity | reflexivity
    | apply sample_td_server_story_ids_valid
    | exact sample_manager_own_consistent | apply sample_manager_own_dates |].
  exists m'. split_and!; [exact Hrun|by eexists|exact Hgone].
Defined.

(** ** The send queue *)

Lemma sent_story_nums_app es es' :
  sent_story_nums (es ++ es') = sent_story_nums es ++ sent_story_nums es'.
Proof. unfold sent_story_nums. apply flat_map_app. Qed.

#[local] Instance same_send_queue_refl : Reflexive same_send_queue.
Proof. by intros m. Qed.

#[local] Instance same_send_queue_trans : Transitive same_send_queue.
Proof.
  intros m1 m2 m3 (H1 & H2 & H3 & H4) (H1' & H2' & H3' & H4').
  split_and!; congruence.
Qed.

Lemma same_send_queue_emits es m :
  sent_story_nums es = [] -> same_send_queue m (emits es m).
Proof.
  intros Hes. split_and!; try done.
  cbn. rewrite sent_story_nums_app, Hes. apply app_nil_r.
Qed.

Lemma same_send_queue_ok m m' :
  same_send_queue m m' -> send_queue_ok m -> send_queue_ok m'.
Proof.
  intros (H1 & H2 & H3 & H4) Hok. unfold send_queue_ok.
  rewrite H1, H2, H3, H4. exact Hok.
Qed.

Lemma sent_story_nums_external ids :
  sent_story_nums (map MessagesOnExternalUpdateMessageContent ids) = [].
Proof. by induction ids. Qed.

Lemma sent_story_nums_file_delete ids :
  sent_story_nums (map FileDelete ids) = [].
Proof. by induction ids. Qed.

Lemma on_story_changed_send_queue td id story a b c m m' :
  on_story_changed td id story a b c m = Some m' -> same_send_queue m m'.
Proof.
  unfold on_story_changed, send_update_story. intros H.
  repeat match type of H with
         | context [if ?c then _ else _] => destruct c
         | context [match ?x with Some _ => _ | None => _ end] => destruct x
         | context [get_story_object ?a ?b ?c ?d] => destruct (get_story_object a b c d)
         | _ => progress cbn [mbind option_bind] in H
         end;
    try discriminate; apply (inj Some) in H; subst m';
    (split_and!; [done..|]); cbn;
    rewrite ?sent_story_nums_app, ?sent_story_nums_external; cbn;
    rewrite ?app_nil_r; try done.
Qed.

Lemma StronglySorted_snoc (l : list Z) (n : Z) :
  StronglySorted Z.le l -> (forall x, x ∈ l -> x <= n) ->
  StronglySorted Z.le (l ++ [n]).
Proof.
  induction 1 as [|a l Hl IH Ha]; intros Hle; cbn.
  - repeat constructor.
  - constructor.
    + apply IH. intros x Hx. apply Hle. by right.
    + apply Forall_app. split; [done|].
      constructor; [|constructor]. apply Hle. by left.
Qed.

Lemma foldr_min_spec (l : list Z) (n : Z) :
  foldr (fun x acc => Some (match acc with None => x | Some y => Z.min x y end)) None l
    = Some n ->
  n ∈ l /\ forall x, x ∈ l -> n <= x.
Proof.
  revert n. induction l as [|a l IH]; intros n; cbn; [done|].
  destruct (foldr _ None l) as [y|] eqn:Hy.
  - intros [= <-]. destruct (IH y eq_refl) as [Hin Hmin]. split.
    + destruct (Z.min_spec a y) as [[_ ->]|[_ ->]]; [by left|by right].
    + intros x [->|Hx]%elem_of_cons; [lia|]. specialize (Hmin x Hx). lia.
  - intros [= <-]. destruct l as [|b l]; [|done]. split; [by left|].
    intros x [->|Hx]%elem_of_cons; [lia|]. by apply elem_of_nil in Hx.
Qed.

(** [*begin()] of the set of unsent numbers is its least element. *)
Lemma set_begin_spec (s : gset Z) (n : Z) :
  set_begin s = Some n -> n ∈ s /\ forall x, x ∈ s -> n <= x.
Proof.
  unfold set_begin. intros [Hin Hmin]%foldr_min_spec. split.
  - by apply elem_of_elements.
  - intros x Hx. apply Hmin. by apply elem_of_elements.
Qed.

Lemma set_begin_None (s : gset Z) : set_begin s = None -> s = ∅.
Proof.
  unfold set_begin. intros H. apply leibniz_equiv, elements_empty_inv.
  destruct (elements s); [done|]. cbn in H. by destruct (foldr _ _ _).
Qed.

Ltac solve_same_queue :=
  split_and!; cbn;
  rewrite ?sent_story_nums_app, ?sent_story_nums_external, ?sent_story_nums_file_delete;
  cbn; rewrite ?app_nil_r; done.

Lemma same_send_queue_emit e m :
  sent_story_nums [e] = [] -> same_send_queue m (emit e m).
Proof. apply same_send_queue_emits. Qed.

Lemma try_send_story_ok m : send_queue_ok m -> send_queue_ok (try_send_story m).
Proof.
  intros Hok. unfold try_send_story.
  destruct (set_begin (yet_unsent_stories_ m)) as [n|] eqn:Hmin; [|done].
  destruct (ready_to_send_stories_ m !! n) as [r|] eqn:Hr; [|done].
  destruct Hok as (H0 & H1 & H2 & H3 & H4 & H5).
  apply set_begin_spec in Hmin as [Hin Hmin].
  pose proof (H4 n r Hr) as Hnum.
  unfold send_queue_ok. cbn. rewrite sent_story_nums_app. cbn. rewrite Hnum.
  split_and!; [done|done| | | |].
  - intros k [Hk| ->%list_elem_of_singleton]%elem_of_app; auto.
  - intros k x [Hk| ->%list_elem_of_singleton]%elem_of_app Hx; auto.
  - intros k r' [_ Hk]%lookup_delete_Some. by apply H4.
  - apply StronglySorted_snoc; [done|]. intros x Hx. by apply H3.
Qed.

Lemma send_queue_ok_erase x m :
  send_queue_ok m -> send_queue_ok (upd_yet_unsent_stories_ (fun s => s ∖ {[ x ]}) m).
Proof.
  intros (H0 & H1 & H2 & H3 & H4 & H5). unfold send_queue_ok. cbn.
  split_and!; [done| |done| |done|done].
  - intros y Hy. apply H1. set_solver.
  - intros n y Hn Hy. apply H3; [done|set_solver].
Qed.

Lemma send_queue_ok_count c m :
  send_queue_ok m -> send_story_count_ m <= c ->
  send_queue_ok (upd_send_story_count_ (fun _ => c) m).
Proof.
  intros (H0 & H1 & H2 & H3 & H4 & H5) Hc. unfold send_queue_ok. cbn.
  split_and!; [lia| | |done|done|done].
  - intros y Hy. specialize (H1 y Hy). lia.
  - intros y Hy. specialize (H2 y Hy). lia.
Qed.

Lemma do_send_story_send_queue td p bad_parts m m' :
  do_send_story td p bad_parts m = Some m' -> same_send_queue m m'.
Proof.
  unfold do_send_story. intros H.
  destruct (content_ (story_ p)) as [c|]; [|done]. cbn [mbind option_bind] in H.
  destruct (negb _); [done|].
  destruct (being_uploaded_files_ m !! _); [done|].
  apply (inj Some) in H. subst m'. solve_same_queue.
Qed.

Lemma edit_generation_at_send_queue id m :
  same_send_queue m (edit_generation_at id m).2.
Proof. unfold edit_generation_at. by destruct (edit_generations_ m !! id). Qed.

Lemma do_edit_story_send_queue td file_id p input m m' :
  do_edit_story td file_id p input m = Some m' -> same_send_queue m m'.
Proof.
  unfold do_edit_story. intros H.
  destruct (get_story m _) as [story|];
    [destruct (being_edited_stories_ m !! _) as [e|]|].
  - pose proof (edit_generation_at_send_queue (dialog_id_ p, story_id_ p) m) as Hg.
    destruct (edit_generation_at _ m) as [g m1]. cbn [snd] in Hg.
    etrans; [exact Hg|].
    destruct (bool_decide (g <> _)).
    + apply (inj Some) in H. subst m'. destruct (file_id_is_valid td file_id);
        [solve_same_queue|done].
    + destruct (bool_decide (content_ story = None)); [done|].
      apply (inj Some) in H. subst m'. solve_same_queue.
  - apply (inj Some) in H. subst m'. destruct (file_id_is_valid td file_id);
      [solve_same_queue|done].
  - apply (inj Some) in H. subst m'. destruct (file_id_is_valid td file_id);
      [solve_same_queue|done].
Qed.

Lemma set_promises_send_queue ps m : same_send_queue m (set_promises ps m).
Proof.
  unfold set_promises. revert m. induction ps as [|p ps IH]; intros m; [done|].
  cbn [foldl]. etrans; [|apply IH]. destruct p; [solve_same_queue|done].
Qed.

Lemma fail_promises_send_queue ps code msg m :
  same_send_queue m (fail_promises ps code msg m).
Proof.
  unfold fail_promises. revert m. induction ps as [|p ps IH]; intros m; [done|].
  cbn [foldl]. etrans; [|apply IH]. destruct p; [solve_same_queue|done].
Qed.

Lemma delete_pending_story_ok td file_id p status m m' :
  send_queue_ok m ->
  delete_pending_story td file_id p status m = Some m' ->
  send_queue_ok m' /\ send_story_count_ m' = send_story_count_ m.
Proof.
  intros Hok. unfold delete_pending_story.
  set (m0 := if file_id_is_valid td file_id then _ else m).
  assert (same_send_queue m m0) as H0.
  { subst m0. destruct (file_id_is_valid td file_id); [solve_same_queue|done]. }
  clearbody m0. apply (same_send_queue_ok _ _ H0) in Hok.
  destruct H0 as [<- _]. clear m.
  destruct (story_id_is_server td (story_id_ p)).
  - assert (forall m1, same_send_queue m0 m1 ->
              send_queue_ok m1 /\ send_story_count_ m1 = send_story_count_ m0)
      as Hdone.
    { intros m1 H1. split; [by eapply same_send_queue_ok|]. by destruct H1. }
    destruct (get_story m0 _) as [story|];
      [destruct (being_edited_stories_ m0 !! _) as [e|]|];
      [|intros [= <-]; by apply Hdone..].
    pose proof (edit_generation_at_send_queue (dialog_id_ p, story_id_ p) m0) as Hg.
    destruct (edit_generation_at _ m0) as [g m1]. cbn [snd] in Hg.
    destruct (bool_decide (g <> _)); [intros [= <-]; by apply Hdone|].
    destruct (bool_decide (content_ story = None)); [done|].
    intros H. apply bind_Some in H as (m2 & H2 & H).
    apply on_story_changed_send_queue in H2.
    destruct (bool_decide (log_event_id_ p = 0)); [|done].
    apply (inj Some) in H. subst m'. apply Hdone.
    etrans; [exact Hg|].
    etrans; [|destruct status; [apply set_promises_send_queue
                               |apply fail_promises_send_queue]].
    etrans; [|exact H2].
    destruct (bool_decide (edited_log_event_id_ e <> 0)); solve_same_queue.
  - intros [= <-].
    pose proof (try_send_story_ok _ (send_queue_ok_erase (send_story_num_ p) _ Hok))
      as Hok'.
    assert (send_story_count_
              (try_send_story
                 (upd_yet_unsent_stories_ (fun s => s ∖ {[ send_story_num_ p ]}) m0))
            = send_story_count_ m0) as Hc.
    { unfold try_send_story. cbn. destruct (set_begin _); [|done].
      by destruct (ready_to_send_stories_ m0 !! _). }
    destruct (bool_decide (log_event_id_ p <> 0)); [|done].
    split; [|exact Hc]. eapply same_send_queue_ok; [|exact Hok']. solve_same_queue.
Qed.

Lemma same_send_queue_done m m' :
  send_queue_ok m -> same_send_queue m m' ->
  send_queue_ok m' /\ send_story_count_ m' = send_story_count_ m.
Proof. intros Hok H. split; [by eapply same_send_queue_ok|]. by destruct H. Qed.

Lemma try_send_story_count m :
  send_story_count_ (try_send_story m) = send_story_count_ m.
Proof.
  unfold try_send_story. destruct (set_begin _); [|done].
  by destruct (ready_to_send_stories_ m !! _).
Qed.

Lemma on_upload_story_ok td file_id input m m' :
  send_queue_ok m ->
  on_upload_story td file_id input m = Some m' ->
  send_queue_ok m' /\ send_story_count_ m' = send_story_count_ m.
Proof.
  intros Hok. unfold on_upload_story.
  destruct (close_flag td); [by intros [= <-]|].
  destruct (being_uploaded_files_ m !! file_id) as [p|]; [|by intros [= <-]].
  set (m0 := upd_being_uploaded_files_ (delete file_id) m).
  assert (same_send_queue m m0) as H0 by done.
  clearbody m0. apply (same_send_queue_ok _ _ H0) in Hok.
  destruct H0 as [<- _]. clear m.
  destruct (file_is_encrypted td file_id); [done|].
  destruct (bool_decide (input = None) && file_has_remote_location td file_id).
  - destruct (file_remote_location_is_web td file_id);
      [by apply delete_pending_story_ok|].
    destruct (was_reuploaded_ p); [by apply delete_pending_story_ok|].
    intros H%do_send_story_send_queue. apply same_send_queue_done; [done|].
    etrans; [|exact H]. solve_same_queue.
  - destruct input as [input|]; [|done].
    destruct (story_id_is_server td (story_id_ p)).
    + intros H%do_edit_story_send_queue. by apply same_send_queue_done.
    + intros [= <-]. rewrite try_send_story_count. split; [|done].
      apply try_send_story_ok.
      destruct Hok as (H0 & H1 & H2 & H3 & H4 & H5). unfold send_queue_ok. cbn.
      split_and!; [done..| |done].
      intros k r. destruct (ready_to_send_stories_ m0 !! send_story_num_ p) eqn:Hp.
      * apply H4.
      * intros [[<- <-]|[_ Hk]]%lookup_insert_Some; [done|by apply H4].
Qed.

Lemma on_upload_story_error_ok td file_id code msg m m' :
  send_queue_ok m ->
  on_upload_story_error td file_id code msg m = Some m' ->
  send_queue_ok m' /\ send_story_count_ m' = send_story_count_ m.
Proof.
  intros Hok. unfold on_upload_story_error.
  destruct (close_flag td); [by intros [= <-]|].
  destruct (being_uploaded_files_ m !! file_id) as [p|]; [|by intros [= <-]].
  intros H. apply delete_pending_story_ok in H; [done|].
  eapply same_send_queue_ok; [|exact Hok]. done.
Qed.

Lemma to_uint32_succ c : 0 <= c < UINT32_MAX -> to_uint32 (c + 1) = c + 1.
Proof. unfold UINT32_MAX, to_uint32. intros H. apply Z.mod_small. lia. Qed.

Lemma send_story_ok td content caption privacy period pinned protect random_id m m' r :
  send_queue_ok m -> send_story_count_ m < UINT32_MAX ->
  send_story td content caption privacy period pinned protect random_id m
    = Some (m', r) ->
  send_queue_ok m' /\ send_story_count_ m <= send_story_count_ m' <= send_story_count_ m + 1.
Proof.
  intros Hok Hc. unfold send_story.
  destruct content as [content|]; [|intros [= <- _]; split; [done|lia]].
  destruct caption as [caption|]; [|intros [= <- _]; split; [done|lia]].
  destruct privacy as [privacy|]; [|intros [= <- _]; split; [done|lia]].
  cbv zeta.
  match goal with |- context [if ?c then Some (m, _) else _] => destruct c end;
    [intros [= <- _]; split; [done|lia]|].
  pose proof Hok as (Hpos & _).
  change (send_story_count_ (emit _ m)) with (send_story_count_ m).
  rewrite to_uint32_succ by lia.
  remember (send_story_count_ m + 1) as n eqn:Hndef.
  unfold save_send_story_log_event.
  set (m1 := upd_send_story_count_ (fun _ => n) (emit _ m)).
  assert (send_queue_ok m1) as Hok1.
  { subst m1. apply send_queue_ok_count; [|change (send_story_count_ m <= n); lia].
    eapply same_send_queue_ok; [|exact Hok]. solve_same_queue. }
  assert (send_story_count_ m1 = n) as Hn by done.
  clearbody m1.
  set (lm := if negb (use_message_database td) then (0, m1) else _).
  assert (send_queue_ok lm.2 /\ send_story_count_ lm.2 = n) as [Hok2 Hn2].
  { subst lm. destruct (negb (use_message_database td)); cbn [snd]; [done|].
    split; [|done]. eapply same_send_queue_ok; [|exact Hok1]. solve_same_queue. }
  destruct lm as [log_event_id m2]. cbn [snd] in Hok2, Hn2.
  intros H. apply bind_Some in H as (m3 & H3 & H).
  apply do_send_story_send_queue in H3.
  apply (inj Some) in H. injection H as <- _.
  assert (send_queue_ok (upd_yet_unsent_stories_ (union {[ n ]}) m2) /\
          send_story_count_ (upd_yet_unsent_stories_ (union {[ n ]}) m2) = n)
    as [Hok3 Hn3].
  { split; [|done]. destruct Hok2 as (H0 & H1 & H2 & H4 & H5 & H6).
    unfold send_queue_ok. cbn. split_and!; [done| |done| |done|done].
    - intros x [->%elem_of_singleton|Hx]%elem_of_union; [|by apply H1].
      apply Z.eq_le_incl. symmetry. exact Hn2.
    - intros k x Hk [->%elem_of_singleton|Hx]%elem_of_union; [|by apply H4].
      specialize (H2 k Hk). lia. }
  apply (same_send_queue_ok _ _ H3) in Hok3. destruct H3 as [H3 _].
  split.
  - destruct (bool_decide _); [|done].
    eapply same_send_queue_ok; [|exact Hok3]. done.
  - assert (send_story_count_ m3 = n) as Hm3 by congruence.
    assert (forall m4, send_story_count_ m4 = n ->
              send_story_count_ m <= send_story_count_ m4 <= n)
      as Hfin by (intros m4 Hm4; lia).
    destruct (bool_decide _); apply Hfin; exact Hm3.
Qed.

Lemma promise_set_error_send_queue p code msg m :
  same_send_queue m (promise_set_error p code msg m).
Proof. destruct p; [solve_same_queue|done]. Qed.

Lemma promise_set_value_send_queue p m : same_send_queue m (promise_set_value p m).
Proof. destruct p; [solve_same_queue|done]. Qed.

Lemma send_queue_bump m c m1 m' :
  send_queue_ok m -> send_story_count_ m <= c ->
  same_send_queue (upd_send_story_count_ (fun _ => c) m) m1 ->
  same_send_queue m1 m' ->
  send_queue_ok m' /\ send_story_count_ m' = c.
Proof.
  intros Hok Hc H1 H2.
  assert (same_send_queue (upd_send_story_count_ (fun _ => c) m) m') as H
    by (etrans; done).
  split; [|by destruct H].
  eapply same_send_queue_ok; [exact H|]. by apply send_queue_ok_count.
Qed.

Lemma edit_story_ok td story_id content caption promise m m' :
  send_queue_ok m -> send_story_count_ m < UINT32_MAX ->
  edit_story td story_id content caption promise m = Some m' ->
  send_queue_ok m' /\ send_story_count_ m <= send_story_count_ m' <= send_story_count_ m + 1.
Proof.
  intros Hok Hc H.
  assert (forall m1, same_send_queue m m1 ->
            send_queue_ok m1 /\
            send_story_count_ m <= send_story_count_ m1 <= send_story_count_ m + 1)
    as Hsame.
  { intros m1 H1. split; [by eapply same_send_queue_ok|]. destruct H1 as [-> _]. lia. }
  assert (forall m1, send_queue_ok m1 /\ send_story_count_ m1 = send_story_count_ m + 1 ->
            send_queue_ok m1 /\
            send_story_count_ m <= send_story_count_ m1 <= send_story_count_ m + 1)
    as Hbump.
  { intros m1 [H1 H2]. split; [done|]. rewrite H2. lia. }
  pose proof Hok as (Hpos & _).
  unfold edit_story in H. rewrite to_uint32_succ in H by lia.
  destruct (get_story m _) as [story|];
    [|apply (inj Some) in H; subst m'; apply Hsame, promise_set_error_send_queue].
  destruct (bool_decide (content_ story = None));
    [apply (inj Some) in H; subst m'; apply Hsame, promise_set_error_send_queue|].
  destruct (negb (story_id_is_server td story_id));
    [apply (inj Some) in H; subst m'; apply Hsame, promise_set_error_send_queue|].
  destruct content as [[c|code msg]|], caption as [[cap|code' msg']|];
    try (apply (inj Some) in H; subst m'; apply Hsame, promise_set_error_send_queue);
    cbv beta iota zeta in H;
    repeat match type of H with
           | context [if ?c then _ else _] => destruct c; cbv beta iota zeta in H
           | context [match ?x with Some _ => _ | None => _ end] =>
               destruct x; cbv beta iota zeta in H
           | context [default _ ?x] => destruct x; cbn [default] in H
           end;
    try (apply (inj Some) in H; subst m'; apply Hsame, promise_set_value_send_queue);
    apply bind_Some in H as (m2 & H2 & H);
    apply on_story_changed_send_queue in H2;
    first [apply do_edit_story_send_queue in H | apply do_send_story_send_queue in H];
    apply Hbump;
    (eapply send_queue_bump; [exact Hok|lia| |etrans; [exact H2|exact H]]);
    solve_same_queue.
Qed.

Lemma run_send_call_ok td c m m' :
  send_queue_ok m -> send_story_count_ m < UINT32_MAX ->
  run_send_call td c m = Some m' ->
  send_queue_ok m' /\ send_story_count_ m <= send_story_count_ m' <= send_story_count_ m + 1.
Proof.
  intros Hok Hc.
  assert (forall m1, send_queue_ok m1 /\ send_story_count_ m1 = send_story_count_ m ->
            send_queue_ok m1 /\
            send_story_count_ m <= send_story_count_ m1 <= send_story_count_ m + 1)
    as Hsame.
  { intros m1 [H1 H2]. split; [done|]. rewrite H2. lia. }
  destruct c; cbn [run_send_call].
  - intros H. apply fmap_Some in H as ([m1 r] & H & ->). by eapply send_story_ok.
  - by apply edit_story_ok.
  - intros H. by eapply Hsame, on_upload_story_ok.
  - intros H. by eapply Hsame, on_upload_story_error_ok.
  - intros H. by eapply Hsame, delete_pending_story_ok.
  - intros H%do_send_story_send_queue. by apply Hsame, same_send_queue_done.
Qed.

Lemma new_StoryManager_send_queue_ok td : send_queue_ok (new_StoryManager td).
Proof.
  unfold send_queue_ok. cbn. split_and!; try done; try set_solver. constructor.
Qed.

(** X6.  Send queries leave in the order of the story numbers.  Whatever the
    requests, upload callbacks and query results are and however they
    interleave, as long as the 32-bit counter of stories does not wrap: the
    numbers of the stories for which a send query has been issued are in
    non-decreasing order (a story can be sent again after missing file
    parts, so a number may repeat), and no story that is still unsent has a
    smaller number than a story already issued. *)
Theorem send_queries_issued_in_order (calls : list (Td * SendCall))
    (m m' : StoryManager) :
  send_queue_ok m ->
  send_story_count_ m + Z.of_nat (length calls) <= UINT32_MAX ->
  run_send_calls calls m = Some m' ->
  StronglySorted Z.le (sent_story_nums (effects_ m')) /\
  (forall n x, n ∈ sent_story_nums (effects_ m') -> x ∈ yet_unsent_stories_ m' ->
               n <= x) /\
  send_queue_ok m'.
Proof.
  intros Hok Hlen Hrun.
  enough (send_queue_ok m') as Hok'.
  { split_and!; [|by apply Hok'|done]. by destruct Hok' as (_ & _ & _ & _ & _ & ?). }
  revert m Hok Hlen Hrun. induction calls as [|[td c] calls IH]; intros m Hok Hlen.
  - by intros [= <-].
  - cbn [run_send_calls]. intros Hrun.
    apply bind_Some in Hrun as (m1 & H1 & Hrun).
    cbn [length] in Hlen.
    apply run_send_call_ok in H1 as [Hok1 Hc1]; [|done|lia].
    apply (IH m1); [done|lia|done].
Qed.

Lemma send_queries_issued_in_order_witness :
  exists m',
    run_send_calls sample_send_calls (new_StoryManager (sample_td 1000 false false false))
      = Some m' /\
    sent_story_nums (effects_ m') = [1; 2] /\
    StronglySorted Z.le (sent_story_nums (effects_ m')).
Proof.
  destruct (run_send_calls sample_send_calls
              (new_StoryManager (sample_td 1000 false false false))) as [m'|] eqn:Hrun;
    [|by vm_compute in Hrun].
  exists m'. split; [done|]. split.
  - vm_compute in Hrun. injection Hrun as <-. reflexivity.
  - refine (proj1 (send_queries_issued_in_order sample_send_calls _ m'
                     (new_StoryManager_send_queue_ok _) _ Hrun)).
    by vm_compute.
Defined.

(** ** Sending a story *)

Lemma active_period_check td period :
  (if negb (period =? 86400)
      && negb (is_test_dc td && ((period =? 60) || (period =? 300)))
   then negb (option_is_premium td) || negb (contains premium_active_periods period)
   else false) = false
  <-> (period = 86400 \/ (is_test_dc td = true /\ (period = 60 \/ period = 300)) \/
       (option_is_premium td = true /\
        period ∈ [21600; 43200; 172800; 259200; 604800])).
Proof.
  unfold contains, premium_active_periods.
  change [6 * 3600; 12 * 3600; 2 * 86400; 3 * 86400; 7 * 86400]
    with [21600; 43200; 172800; 259200; 604800].
  destruct (Z.eqb_spec period 86400) as [->|H1]; cbn [negb andb]; [by split; auto|].
  destruct (is_test_dc td); cbn [andb negb].
  - destruct (Z.eqb_spec period 60) as [->|H2]; cbn [orb negb]; [by split; auto|].
    destruct (Z.eqb_spec period 300) as [->|H3]; cbn [orb negb]; [by split; auto|].
    destruct (option_is_premium td); cbn [negb orb].
    + rewrite negb_false_iff, bool_decide_eq_true. split; [auto|].
      intros [?|[[_ [?|?]]|[_ ?]]]; done.
    + split; [done|]. intros [?|[[_ [?|?]]|[? _]]]; done.
  - destruct (option_is_premium td); cbn [negb orb].
    + rewrite negb_false_iff, bool_decide_eq_true. split; [auto|].
      intros [?|[[? _]|[_ ?]]]; done.
    + split; [done|]. intros [?|[[? _]|[? _]]]; done.
Qed.

(** X4.  [send_story] answers "Invalid story active period specified", and changes
    nothing, exactly when the period is none of: one day; 60 or 300 seconds on
    a test data center; 6 or 12 hours or 2, 3 or 7 days for a Premium user.
    (The content, the caption and the privacy settings have been accepted.) *)
Theorem send_story_active_period (td : Td) (content : list Z) (caption : string)
    (privacy_rules : list Z) (active_period : Z) (is_pinned protect_content : bool)
    (random_id : Z) (m : StoryManager) :
  send_story td (Ok content) (Ok caption) (Ok privacy_rules) active_period is_pinned
             protect_content random_id m
    = Some (m, Error 400 "Invalid story active period specified")
  <-> ~ (active_period = 86400 \/
         (is_test_dc td = true /\ (active_period = 60 \/ active_period = 300)) \/
         (option_is_premium td = true /\
          active_period ∈ [21600; 43200; 172800; 259200; 604800])).
Proof.
  rewrite <- active_period_check. unfold send_story. cbv zeta.
  match goal with
  | |- context [if ?c then Some (m, _) else _] => destruct c eqn:Hc
  end.
  - split; [intros _ H; discriminate|done].
  - split; [|done]. intros H. exfalso.
    destruct (save_send_story_log_event td _) as [l m1].
    apply bind_Some in H as (m2 & _ & H). discriminate.
Qed.

(** X5.  An accepted [send_story] starts exactly one upload.  With an allowed
    period, a valid content file that is not being uploaded already: the
    promise receives a story object with id 0 and the current date, the story
    gets the next number, which joins the unsent numbers; the pending story
    is filed under its file with that number, the given random id, the dates
    [now] and [now + period], and the log event id of the binlog (0 without a
    message database); the upload is resumed with the number as upload order;
    and the store of stories is not touched. *)
Theorem send_story_starts_upload (td : Td) (content : list Z) (caption : string)
    (privacy_rules : list Z) (active_period : Z) (is_pinned protect_content : bool)
    (random_id : Z) (m : StoryManager) :
  let file_id := get_story_content_any_file_id td content in
  let num := to_uint32 (send_story_count_ m + 1) in
  (active_period = 86400 \/
   (is_test_dc td = true /\ (active_period = 60 \/ active_period = 300)) \/
   (option_is_premium td = true /\
    active_period ∈ [21600; 43200; 172800; 259200; 604800])) ->
  file_id_is_valid td file_id = true ->
  being_uploaded_files_ m !! file_id = None ->
  exists m' object p,
    send_story td (Ok content) (Ok caption) (Ok privacy_rules) active_period is_pinned
               protect_content random_id m = Some (m', Ok (Some object)) /\
    obj_id object = 0 /\ obj_date object = unix_time td /\
    obj_is_pinned object = is_pinned /\
    send_story_count_ m' = num /\
    yet_unsent_stories_ m' = {[ num ]} ∪ yet_unsent_stories_ m /\
    being_uploaded_files_ m' !! file_id = Some p /\
    send_story_num_ p = num /\ random_id_ p = random_id /\ story_id_ p = 0 /\
    dialog_id_ p = my_dialog_id td /\
    date_ (story_ p) = unix_time td /\
    expire_date_ (story_ p) = to_int32 (unix_time td + active_period) /\
    content_ (story_ p) = Some content /\
    log_event_id_ p = (if use_message_database td then binlog_next_id td else 0) /\
    last (effects_ m') = Some (FileResumeUpload file_id [] num) /\
    MessagesForceCreateDialog (my_dialog_id td) ∈ effects_ m' /\
    stories_ m' = stories_ m /\
    ready_to_send_stories_ m' = ready_to_send_stories_ m.
Proof.
  intros file_id num Hperiod Hvalid Hnone.
  apply active_period_check in Hperiod.
  unfold send_story. cbv zeta. rewrite Hperiod.
  unfold save_send_story_log_event, do_send_story.
  destruct (use_message_database td); cbn [negb fst snd];
    cbn [set_log_event_id story_ content_ mbind option_bind send_story_num_];
    fold file_id; rewrite Hvalid; cbn [negb];
    match goal with
    | |- context [being_uploaded_files_ ?X !! file_id] =>
        change (being_uploaded_files_ X) with (being_uploaded_files_ m)
    end;
    rewrite Hnone;
    cbn [mbind option_bind];
    unfold get_story_object; cbn [content_ fst snd is_pinned_ date_];
    unfold is_story_owned; rewrite (bool_decide_eq_true_2 (my_dialog_id td = my_dialog_id td)) by done;
    cbn [negb andb];
    rewrite (bool_decide_eq_true_2 (is_Some (Some _))) by (by eexists);
    eexists _, _, _; (split; [reflexivity|]);
    cbn; rewrite lookup_alter_eq, lookup_insert_eq; cbn;
    (split_and!; try reflexivity);
    try (by rewrite last_snoc);
    rewrite !elem_of_app; set_solver.
Qed.

Lemma send_story_starts_upload_witness :
  let td := sample_td 1000 false false true in
  exists m' object p,
    send_story td (Ok [11]) (Ok "a") (Ok []) (7 * 86400) true false 71
               (new_StoryManager td)
      = Some (m', Ok (Some object)) /\
    being_uploaded_files_ m' !! 11 = Some p /\
    send_story_num_ p = 1 /\
    expire_date_ (story_ p) = 605800.
Proof.
  intros td.
  destruct (send_story_starts_upload td [11] "a" [] (7 * 86400) true false 71
              (new_StoryManager td))
    as (m' & object & p & Hrun & _ & _ & _ & _ & _ & Hp & Hnum & _ & _ & _ & _ & Hexp & _);
    [right; right; split; [reflexivity|set_solver] | reflexivity | reflexivity |].
  exists m', object, p. split_and!; [exact Hrun|exact Hp|exact Hnum|exact Hexp].
Defined.

(** ** Editing a story *)

#[local] Instance same_edits_refl : Reflexive same_edits.
Proof. by intros m. Qed.

#[local] Instance same_edits_trans : Transitive same_edits.
Proof. intros m1 m2 m3 [H1 H2] [H1' H2']. split; congruence. Qed.

Lemma on_story_changed_edits td id story a b c m m' :
  on_story_changed td id story a b c m = Some m' -> same_edits m m'.
Proof.
  unfold on_story_changed, send_update_story. intros H.
  repeat match type of H with
         | context [if ?c then _ else _] => destruct c
         | context [match ?x with Some _ => _ | None => _ end] => destruct x
         | context [get_story_object ?a ?b ?c ?d] => destruct (get_story_object a b c d)
         | _ => progress cbn [mbind option_bind] in H
         end;
    try discriminate; apply (inj Some) in H; subst m'; done.
Qed.

Lemma do_send_story_edits td p bad_parts m m' :
  do_send_story td p bad_parts m = Some m' -> same_edits m m'.
Proof.
  unfold do_send_story. intros H.
  destruct (content_ (story_ p)) as [c|]; [|done]. cbn [mbind option_bind] in H.
  destruct (negb _); [done|].
  destruct (being_uploaded_files_ m !! _); [done|].
  apply (inj Some) in H. by subst m'.
Qed.

Lemma do_edit_story_edits td file_id p input m m' g :
  edit_generations_ m !! (dialog_id_ p, story_id_ p) = Some g ->
  do_edit_story td file_id p input m = Some m' -> same_edits m m'.
Proof.
  unfold do_edit_story, edit_generation_at. intros Hg H. rewrite Hg in H.
  destruct (get_story m _) as [story|];
    [destruct (being_edited_stories_ m !! _) as [e|]|].
  - destruct (bool_decide (g <> _)).
    + apply (inj Some) in H. subst m'. by destruct (file_id_is_valid td file_id).
    + destruct (bool_decide (content_ story = None)); [done|].
      apply (inj Some) in H. by subst m'.
  - apply (inj Some) in H. subst m'. by destruct (file_id_is_valid td file_id).
  - apply (inj Some) in H. subst m'. by destruct (file_id_is_valid td file_id).
Qed.

(** X9.  A pending edit whose generation is not the current one of its story is
    discarded: when its upload finishes, [do_edit_story] only cancels the
    upload and sends no query; when it fails or completes,
    [delete_pending_story] only forgets the partial upload, resolves no
    promise and keeps the newer edit pending.  (A missing generation counts
    as 0.) *)
Theorem outdated_edit_is_discarded (td : Td) (file_id : Z) (p : PendingStory)
    (input_file : option Z) (status : Result unit) (m : StoryManager) :
  let story_full_id := (dialog_id_ p, story_id_ p) in
  story_id_is_server td (story_id_ p) = true ->
  default 0 (edit_generations_ m !! story_full_id) <> random_id_ p ->
  exists m1 m2,
    do_edit_story td file_id p input_file m = Some m1 /\
    effects_ m1 = effects_ m ++
                  (if file_id_is_valid td file_id then [FileCancelUpload file_id] else []) /\
    being_edited_stories_ m1 = being_edited_stories_ m /\
    stories_ m1 = stories_ m /\
    delete_pending_story td file_id p status m = Some m2 /\
    effects_ m2 = effects_ m ++
                  (if file_id_is_valid td file_id
                   then [FileDeletePartialRemoteLocation file_id] else []) /\
    being_edited_stories_ m2 = being_edited_stories_ m /\
    stories_ m2 = stories_ m.
Proof.
  intros id Hserver Hgen.
  unfold do_edit_story, delete_pending_story. rewrite Hserver. fold id.
  unfold edit_generation_at.
  change (get_story (if file_id_is_valid td file_id then _ else m) id)
    with (get_story (if file_id_is_valid td file_id
                     then emit (FileDeletePartialRemoteLocation file_id) m else m) id).
  assert (get_story (if file_id_is_valid td file_id
                     then emit (FileDeletePartialRemoteLocation file_id) m else m) id
          = get_story m id) as -> by (by destruct (file_id_is_valid td file_id)).
  assert (forall A (f : StoryManager -> A),
            (forall e, f (emit e m) = f m) ->
            f (if file_id_is_valid td file_id
               then emit (FileDeletePartialRemoteLocation file_id) m else m) = f m)
    as Hif by (intros A f Hf; by destruct (file_id_is_valid td file_id)).
  rewrite (Hif _ (fun m => being_edited_stories_ m !! id)) by done.
  rewrite (Hif _ (fun m => edit_generations_ m !! id)) by done.
  destruct (get_story m id) as [story|];
    [destruct (being_edited_stories_ m !! id) as [e|]|].
  - destruct (edit_generations_ m !! id) as [g|] eqn:Hg; cbn [default] in Hgen;
      cbv beta iota zeta; rewrite !(bool_decide_eq_true_2 _ Hgen);
      destruct (file_id_is_valid td file_id);
      eexists _, _; (split; [reflexivity|]); cbn; rewrite ?app_nil_r;
      split_and!; reflexivity.
  - destruct (file_id_is_valid td file_id);
      eexists _, _; (split; [reflexivity|]); cbn; rewrite ?app_nil_r;
      split_and!; reflexivity.
  - destruct (file_id_is_valid td file_id);
      eexists _, _; (split; [reflexivity|]); cbn; rewrite ?app_nil_r;
      split_and!; reflexivity.
Qed.

Lemma outdated_edit_is_discarded_witness :
  let td := sample_td 1000 false false false in
  exists m1 m2,
    do_edit_story td 72 sample_first_edit (Some 1) sample_manager_editing = Some m1 /\
    effects_ m1 = [FileCancelUpload 72] /\
    delete_pending_story td 72 sample_first_edit (Ok ()) sample_manager_editing
      = Some m2 /\
    effects_ m2 = [FileDeletePartialRemoteLocation 72] /\
    is_Some (being_edited_stories_ m2 !! (1, 7)).
Proof.
  intros td.
  destruct (outdated_edit_is_discarded td 72 sample_first_edit (Some 1) (Ok ())
              sample_manager_editing)
    as (m1 & m2 & H1 & He1 & _ & _ & H2 & He2 & Hb2 & _);
    [reflexivity | by vm_compute |].
  exists m1, m2. split_and!; [exact H1|exact He1|exact H2|exact He2|].
  rewrite Hb2. by eexists.
Defined.

(** X8.  Every effective edit supersedes the edits before it.  When [edit_story]
    accepts an edit that changes the content or the caption, the edit
    generation of the story grows (by one for each of the two that changes),
    the promise is queued behind the ones already waiting, and from then on
    the upload result of any edit that was started under an earlier
    generation is discarded by [do_edit_story]: the upload is canceled and no
    edit query is sent for it. *)
Theorem edit_story_supersedes_older_edits (td : Td) (story_id : Z)
    (content : option (list Z)) (caption : option string) (promise : Promise)
    (story : Story) (m m' : StoryManager) :
  let story_full_id := (my_dialog_id td, story_id) in
  let generation := default 0 (edit_generations_ m !! story_full_id) in
  let current_caption :=
    match being_edited_stories_ m !! story_full_id with
    | Some edited => if edit_caption_ edited then edited_caption_ edited
                     else caption_ story
    | None => caption_ story
    end in
  get_story m story_full_id = Some story ->
  content_ story <> None ->
  story_id_is_server td story_id = true ->
  (is_Some content \/ exists c, caption = Some c /\ c <> current_caption) ->
  edit_story td story_id (Ok <$> content) (Ok <$> caption) promise m = Some m' ->
  let content_step := if content is Some _ then 1 else 0 in
  let caption_step :=
    match caption with
    | Some c => if bool_decide (current_caption = c) then 0 else 1
    | None => 0
    end in
  (exists generation' edited,
     edit_generations_ m' !! story_full_id = Some generation' /\
     generation' = generation + content_step + caption_step /\
     generation < generation' <= generation + 2 /\
     being_edited_stories_ m' !! story_full_id = Some edited /\
     last (promises_ edited) = Some promise) /\
  (forall p file_id input_file,
     (dialog_id_ p, story_id_ p) = story_full_id ->
     random_id_ p <= generation ->
     do_edit_story td file_id p input_file m'
       = Some (if file_id_is_valid td file_id
               then emit (FileCancelUpload file_id) m' else m')).
Proof.
  intros id g cur Hstory Hcontent Hserver Hchange Hrun cs ks.
  assert (exists g' e,
            edit_generations_ m' !! id = Some g' /\ g' = g + cs + ks /\
            g < g' <= g + 2 /\
            being_edited_stories_ m' !! id = Some e /\
            last (promises_ e) = Some promise) as Hnew.
  { unfold edit_story in Hrun. fold id in Hrun. rewrite Hstory in Hrun.
    rewrite (bool_decide_eq_false_2 _ Hcontent), Hserver in Hrun.
    cbn [negb] in Hrun.
    assert (forall M E G m2 P,
              edit_generations_ M !! id = Some G ->
              being_edited_stories_ M !! id = Some E ->
              same_edits M m2 ->
              (dialog_id_ P, story_id_ P) = id ->
              ((exists f i, do_edit_story td f P i m2 = Some m') \/
               (exists b, do_send_story td P b m2 = Some m')) ->
              edit_generations_ m' !! id = Some G /\
              being_edited_stories_ m' !! id = Some E) as Hfinish.
    { intros M E G m2 P HG HE [Hs1 Hs2] HP Hend.
      assert (same_edits m2 m') as [Hs3 Hs4].
      { destruct Hend as [(f & i & Hend)|(b & Hend)].
        - eapply do_edit_story_edits; [|exact Hend]. rewrite HP, Hs2. exact HG.
        - by eapply do_send_story_edits. }
      rewrite Hs4, Hs2, Hs3, Hs1. done. }
    subst g cur cs ks.
    destruct content as [c|], caption as [cap|]; cbn [fmap option_fmap option_map] in Hrun;
      cbv beta iota zeta in Hrun;
      destruct (being_edited_stories_ m !! id) as [e0|] eqn:He0;
      destruct (edit_generations_ m !! id) as [g0|] eqn:Hg0;
      cbn [default] in Hrun |- *;
      try match type of Hrun with
          | context [bool_decide (?x = cap)] =>
              destruct (bool_decide (x = cap)) eqn:Hcap in Hrun |- *
          end;
      repeat match type of Hrun with
             | context [if ?c then _ else _] => destruct c eqn:?; cbv beta iota zeta in Hrun
             end;
      try (exfalso;
           repeat match goal with
                  | H : _ && _ = true |- _ => apply andb_true_iff in H as [? ?]
                  | H : negb _ = true |- _ => apply negb_true_iff in H
                  | H : negb _ = false |- _ => apply negb_false_iff in H
                  | H : bool_decide _ = true |- _ => apply bool_decide_eq_true in H
                  | H : bool_decide _ = false |- _ => apply bool_decide_eq_false in H
                  end;
           destruct Hchange as [[? [=]]|(c' & [= <-] & Hc')]; congruence);
      apply bind_Some in Hrun as (m2 & H2 & Hrun);
      apply on_story_changed_edits in H2;
      (edestruct Hfinish as [HG HE];
         [| |exact H2|
          |first [left; eexists _, _; exact Hrun | right; eexists; exact Hrun]|]);
      cbn; rewrite ?lookup_insert_eq; try reflexivity;
      (eexists _, _; split; [exact HG|]; split; [|split; [|split; [exact HE|]]]);
      cbn; try reflexivity; try lia; by rewrite last_snoc. }
  split; [exact Hnew|].
  destruct Hnew as (g' & e & Hg' & _ & Hrange & He & _).
  intros p file_id input_file Hid Hold.
  unfold do_edit_story, edit_generation_at. rewrite Hid, Hg', He.
  destruct (get_story m' id); [|done].
  rewrite bool_decide_eq_true_2; [done|]. lia.
Qed.

Lemma edit_story_supersedes_older_edits_witness :
  let td := sample_td 1000 false false false in
  let older := mkPendingStory 1 7 (UINT32_MAX - 1) 0 false 0
                              (new_story_with_content (Some [72])) in
  exists m',
    edit_story td 7 None (Some (Ok "hello")) (Some 4%nat) sample_manager_own = Some m' /\
    edit_generations_ m' !! (1, 7) = Some 1 /\
    do_edit_story td 72 older (Some 1) m' = Some (emit (FileCancelUpload 72) m').
Proof.
  intros td older.
  destruct (edit_story td 7 None (Some (Ok "hello")) (Some 4%nat) sample_manager_own)
    as [m'|] eqn:Hrun; [|by vm_compute in Hrun].
  destruct (edit_story_supersedes_older_edits td 7 None (Some "hello") (Some 4%nat)
              (sample_story 900 2000 (Some [71]) false 3) sample_manager_own m')
    as [(g' & e & Hg' & Hexact & _) Hold];
    [by vm_compute | done | reflexivity
    | right; exists "hello"; split; [reflexivity|by vm_compute] | exact Hrun |].
  exists m'. split_and!; [reflexivity| |].
  - change (edit_generations_ m' !! (1, 7) = Some g') in Hg'.
    rewrite Hg', Hexact. by vm_compute.
  - apply (Hold older 72 (Some 1)); [reflexivity|by vm_compute].
Defined.

Lemma effects_emit e m : effects_ (emit e m) = effects_ m ++ [e].
Proof. reflexivity. Qed.

Lemma elem_of_effects_emit e' e m :
  e' ∈ effects_ (emit e m) <-> e' ∈ effects_ m \/ e' = e.
Proof. rewrite effects_emit, elem_of_app, list_elem_of_singleton. done. Qed.

(** What [delete_pending_story] leaves for a new story: its number is gone
    from the unsent numbers, the uploads are untouched, and a send query that
    is new is the one of a ready story filed under another number. *)
Lemma finished_send_frame td file_id p status m :
  story_id_is_server td (story_id_ p) = false ->
  exists m',
    delete_pending_story td file_id p status m = Some m' /\
    yet_unsent_stories_ m' = yet_unsent_stories_ m ∖ {[ send_story_num_ p ]} /\
    being_uploaded_files_ m' = being_uploaded_files_ m /\
    (forall f q i,
       SendQuery (SendStoryQuery f q i) ∈ effects_ m' ->
       SendQuery (SendStoryQuery f q i) ∈ effects_ m \/
       exists n r, n <> send_story_num_ p /\
                   ready_to_send_stories_ m !! n = Some r /\
                   q = ready_pending_story_ r).
Proof.
  intros Hserver. unfold delete_pending_story. rewrite Hserver.
  eexists. split; [reflexivity|].
  set (m0 := if file_id_is_valid td file_id then _ else m).
  assert (yet_unsent_stories_ m0 = yet_unsent_stories_ m /\
          being_uploaded_files_ m0 = being_uploaded_files_ m /\
          ready_to_send_stories_ m0 = ready_to_send_stories_ m /\
          (forall f q i, SendQuery (SendStoryQuery f q i) ∈ effects_ m0 ->
                         SendQuery (SendStoryQuery f q i) ∈ effects_ m))
    as (Hy & Hu & Hr & He).
  { subst m0. destruct (file_id_is_valid td file_id); [|by split_and!].
    split_and!; [done..|]. intros f q i Hq.
    by apply elem_of_effects_emit in Hq as [Hq|[=]]. }
  clearbody m0.
  set (m1 := try_send_story _).
  assert (yet_unsent_stories_ m1 = yet_unsent_stories_ m0 ∖ {[ send_story_num_ p ]} /\
          being_uploaded_files_ m1 = being_uploaded_files_ m0 /\
          (forall f q i,
             SendQuery (SendStoryQuery f q i) ∈ effects_ m1 ->
             SendQuery (SendStoryQuery f q i) ∈ effects_ m0 \/
             exists n r, n <> send_story_num_ p /\
                         ready_to_send_stories_ m0 !! n = Some r /\
                         q = ready_pending_story_ r))
    as (Hy1 & Hu1 & He1).
  { subst m1. unfold try_send_story.
    change (yet_unsent_stories_ (upd_yet_unsent_stories_ ?f m0))
      with (f (yet_unsent_stories_ m0)).
    change (ready_to_send_stories_ (upd_yet_unsent_stories_ _ m0))
      with (ready_to_send_stories_ m0).
    cbv beta.
    destruct (set_begin _) as [n|] eqn:Hmin;
      [destruct (ready_to_send_stories_ m0 !! n) as [r|] eqn:Hready|];
      (split_and!; [done..|]); try (intros f q i Hq; by left).
    intros f q i Hq.
    change (SendQuery (SendStoryQuery f q i)
            ∈ effects_ m0 ++ [SendQuery (SendStoryQuery (ready_file_id_ r)
                                (ready_pending_story_ r) (ready_input_file_ r))]) in Hq.
    apply elem_of_app in Hq as [Hq|Hq]; [by left|]. right.
    apply list_elem_of_singleton in Hq. injection Hq as -> -> ->.
    apply set_begin_spec in Hmin as [Hin _].
    apply elem_of_difference in Hin as [_ Hne].
    exists n, r. split_and!; [|done|done].
    intros ->. apply Hne. by apply elem_of_singleton. }
  clearbody m1.
  split_and!.
  - transitivity (yet_unsent_stories_ m1);
      [by destruct (bool_decide _)|by rewrite Hy1, Hy].
  - transitivity (being_uploaded_files_ m1);
      [by destruct (bool_decide _)|by rewrite Hu1, Hu].
  - intros f q i Hq.
    assert (SendQuery (SendStoryQuery f q i) ∈ effects_ m1) as Hq1.
    { destruct (bool_decide (log_event_id_ p <> 0)); [|done].
      by apply elem_of_effects_emit in Hq as [Hq|[=]]. }
    destruct (He1 f q i Hq1) as [Hold|(n & r & Hn & Hrn & ->)].
    + left. by apply He.
    + right. exists n, r. rewrite <- Hr. done.
Qed.

(** X7.  When the sending of a new story finishes, with success or with an error,
    its number leaves the unsent numbers and the next story is dispatched if
    it is ready: the send query of the story with the least remaining number
    is issued and that story leaves the ready stories; if that story is not
    ready, no query is issued.  The status makes no difference for a new
    story, and an existing log event of the story is erased last. *)
Theorem finished_send_dispatches_next (td : Td) (file_id : Z) (p : PendingStory)
    (status : Result unit) (m : StoryManager) :
  let rest := yet_unsent_stories_ m ∖ {[ send_story_num_ p ]} in
  story_id_is_server td (story_id_ p) = false ->
  exists m',
    delete_pending_story td file_id p status m = Some m' /\
    delete_pending_story td file_id p (Ok ()) m = Some m' /\
    yet_unsent_stories_ m' = rest /\
    stories_ m' = stories_ m /\
    (forall n r,
       set_begin rest = Some n -> ready_to_send_stories_ m !! n = Some r ->
       (forall x, x ∈ rest -> n <= x) /\
       ready_to_send_stories_ m' = delete n (ready_to_send_stories_ m) /\
       sent_story_nums (effects_ m')
         = sent_story_nums (effects_ m) ++ [send_story_num_ (ready_pending_story_ r)] /\
       SendQuery (SendStoryQuery (ready_file_id_ r) (ready_pending_story_ r)
                                 (ready_input_file_ r)) ∈ effects_ m') /\
    ((forall n, set_begin rest = Some n -> ready_to_send_stories_ m !! n = None) ->
     ready_to_send_stories_ m' = ready_to_send_stories_ m /\
     sent_story_nums (effects_ m') = sent_story_nums (effects_ m)) /\
    (log_event_id_ p <> 0 -> last (effects_ m') = Some (BinlogErase (log_event_id_ p))).
Proof.
  intros rest Hserver. unfold delete_pending_story. rewrite Hserver.
  eexists. split; [reflexivity|]. split; [reflexivity|].
  set (m0 := if file_id_is_valid td file_id then _ else m).
  assert (yet_unsent_stories_ m0 = yet_unsent_stories_ m /\
          ready_to_send_stories_ m0 = ready_to_send_stories_ m /\
          stories_ m0 = stories_ m /\
          sent_story_nums (effects_ m0) = sent_story_nums (effects_ m))
    as (Hy & Hr & Hs & He).
  { subst m0. destruct (file_id_is_valid td file_id); [|done].
    split_and!; [done..|]. cbn. rewrite sent_story_nums_app. apply app_nil_r. }
  clearbody m0.
  set (m1 := try_send_story _).
  assert (yet_unsent_stories_ m1 = rest /\ stories_ m1 = stories_ m /\
          (forall n r,
             set_begin rest = Some n -> ready_to_send_stories_ m !! n = Some r ->
             (forall x, x ∈ rest -> n <= x) /\
             ready_to_send_stories_ m1 = delete n (ready_to_send_stories_ m) /\
             sent_story_nums (effects_ m1)
               = sent_story_nums (effects_ m)
                 ++ [send_story_num_ (ready_pending_story_ r)] /\
             SendQuery (SendStoryQuery (ready_file_id_ r) (ready_pending_story_ r)
                                       (ready_input_file_ r)) ∈ effects_ m1) /\
          ((forall n, set_begin rest = Some n -> ready_to_send_stories_ m !! n = None) ->
           ready_to_send_stories_ m1 = ready_to_send_stories_ m /\
           sent_story_nums (effects_ m1) = sent_story_nums (effects_ m)))
    as (G1 & G2 & G3 & G4).
  { subst m1. unfold try_send_story.
    change (yet_unsent_stories_ (upd_yet_unsent_stories_ ?f m0))
      with (f (yet_unsent_stories_ m0)).
    change (ready_to_send_stories_ (upd_yet_unsent_stories_ _ m0))
      with (ready_to_send_stories_ m0).
    cbv beta. rewrite Hy, Hr. fold rest.
    destruct (set_begin rest) as [n|] eqn:Hmin;
      [destruct (ready_to_send_stories_ m !! n) as [r|] eqn:Hready|].
    - split_and!.
      + change (yet_unsent_stories_ m0 ∖ {[ send_story_num_ p ]} = rest). by rewrite Hy.
      + exact Hs.
      + intros n' r' [= <-]. rewrite Hready. intros [= <-].
        split; [by apply set_begin_spec|]. split_and!.
        * change (delete n (ready_to_send_stories_ m0)
                  = delete n (ready_to_send_stories_ m)). by rewrite Hr.
        * change (sent_story_nums (effects_ m0 ++ [SendQuery (SendStoryQuery
                    (ready_file_id_ r) (ready_pending_story_ r) (ready_input_file_ r))])
                  = sent_story_nums (effects_ m)
                    ++ [send_story_num_ (ready_pending_story_ r)]).
          by rewrite sent_story_nums_app, He.
        * change (SendQuery (SendStoryQuery (ready_file_id_ r) (ready_pending_story_ r)
                    (ready_input_file_ r))
                  ∈ effects_ m0 ++ [SendQuery (SendStoryQuery (ready_file_id_ r)
                      (ready_pending_story_ r) (ready_input_file_ r))]).
          apply elem_of_app. right. by apply list_elem_of_singleton.
      + intros Hnone. specialize (Hnone n eq_refl). by rewrite Hready in Hnone.
    - split_and!.
      + change (yet_unsent_stories_ m0 ∖ {[ send_story_num_ p ]} = rest). by rewrite Hy.
      + exact Hs.
      + intros n' r' [= <-]. by rewrite Hready.
      + intros _. split; [exact Hr|exact He].
    - split_and!.
      + change (yet_unsent_stories_ m0 ∖ {[ send_story_num_ p ]} = rest). by rewrite Hy.
      + exact Hs.
      + intros n' r' [=].
      + intros _. split; [exact Hr|exact He]. }
  clearbody m1.
  destruct (bool_decide (log_event_id_ p <> 0)) eqn:Hlog.
  - split_and!; [exact G1|exact G2| | |].
    + intros n r Hn Hread. destruct (G3 n r Hn Hread) as (K1 & K2 & K3 & K4).
      split_and!; [exact K1|exact K2| |].
      * change (sent_story_nums (effects_ m1 ++ [BinlogErase (log_event_id_ p)])
                = sent_story_nums (effects_ m)
                  ++ [send_story_num_ (ready_pending_story_ r)]).
        rewrite sent_story_nums_app, K3. apply app_nil_r.
      * change (SendQuery (SendStoryQuery (ready_file_id_ r) (ready_pending_story_ r)
                  (ready_input_file_ r))
                ∈ effects_ m1 ++ [BinlogErase (log_event_id_ p)]).
        apply elem_of_app. by left.
    + intros Hnone. destruct (G4 Hnone) as [K1 K2]. split; [exact K1|].
      change (sent_story_nums (effects_ m1 ++ [BinlogErase (log_event_id_ p)])
              = sent_story_nums (effects_ m)).
      rewrite sent_story_nums_app, K2. apply app_nil_r.
    + intros _. change (last (effects_ m1 ++ [BinlogErase (log_event_id_ p)])
                        = Some (BinlogErase (log_event_id_ p))).
      apply last_snoc.
  - split_and!; [exact G1|exact G2|exact G3|exact G4|].
    intros Hne. by apply bool_decide_eq_false in Hlog.
Qed.

Lemma finished_send_dispatches_next_witness :
  let td := sample_td 1000 false false false in
  let p := mkPendingStory 1 0 1 71 false 0 new_Story in
  exists m',
    delete_pending_story td 11 p (Error 500 "failed") sample_manager_sending = Some m' /\
    yet_unsent_stories_ m' = {[ 2 ]} /\
    sent_story_nums (effects_ m') = [1; 2].
Proof.
  intros td p.
  destruct (finished_send_dispatches_next td 11 p (Error 500 "failed")
              sample_manager_sending)
    as (m' & Hrun & _ & Hy & _ & Hnext & _); [reflexivity|].
  exists m'. split; [exact Hrun|]. split.
  - rewrite Hy. by vm_compute.
  - destruct (ready_to_send_stories_ sample_manager_sending !! 2) as [r|] eqn:Hr;
      [|by vm_compute in Hr].
    destruct (Hnext 2 r) as (_ & _ & Hs & _); [by vm_compute|exact Hr|].
    rewrite Hs. vm_compute in Hr. injection Hr as <-. by vm_compute.
Defined.

(** ** Opened stories *)

(** X13.  [close_story] answers "The story wasn't opened" exactly when the sender
    is known and accessible, the story id is valid, the story is an own
    story already on the server, and its count of openings is zero or
    missing.  For other people's stories the error never occurs. *)
Theorem close_story_wasnt_opened (td : Td) (owner_dialog_id story_id : Z)
    (m : StoryManager) :
  (close_story td owner_dialog_id story_id m).2 = Error 400 "The story wasn't opened"
  <-> (have_dialog_force td owner_dialog_id = true /\
       have_input_peer_read td owner_dialog_id = true /\
       story_id_is_valid td story_id = true /\
       is_story_owned td owner_dialog_id = true /\
       story_id_is_server td story_id = true /\
       default 0 (opened_owned_stories_ m !! (owner_dialog_id, story_id)) = 0).
Proof.
  unfold close_story.
  destruct (have_dialog_force td owner_dialog_id); cbn [negb];
    [|split; [done|by intros (? & _)]].
  destruct (have_input_peer_read td owner_dialog_id); cbn [negb];
    [|split; [done|by intros (_ & ? & _)]].
  destruct (story_id_is_valid td story_id); cbn [negb];
    [|split; [done|by intros (_ & _ & ? & _)]].
  destruct (is_story_owned td owner_dialog_id); cbn [andb];
    [destruct (story_id_is_server td story_id)|].
  - destruct (Z.eqb_spec (default 0 (opened_owned_stories_ m !! (owner_dialog_id, story_id))) 0)
      as [H0|H0].
    + cbn [negb snd]. by split.
    + split; [|by intros (_ & _ & _ & _ & _ & ?)].
      intros H. exfalso.
      destruct (_ - 1 =? 0); cbn [negb] in H;
        match type of H with
        | context [get_story ?a ?b] => destruct (get_story a b)
        end; discriminate.
  - cbn [negb]. split; [|by intros (_ & _ & _ & _ & ? & _)].
    destruct (get_story m _); discriminate.
  - cbn [negb]. split; [|by intros (_ & _ & _ & ? & _)].
    destruct (get_story m _); [|discriminate].
    destruct (story_id_is_server td story_id); discriminate.
Qed.

(** X14.  Closing an own story that is on the server and has been opened [n > 0]
    times succeeds and takes one opening back: the count becomes [n - 1], and
    the entry is removed when it reaches zero; when that was the last opened
    own story, the timer of the interaction updates is canceled. *)
Theorem close_story_takes_one_opening_back (td : Td) (story_id : Z) (n : Z)
    (m : StoryManager) :
  let owner_dialog_id := my_dialog_id td in
  let story_full_id := (owner_dialog_id, story_id) in
  let m' := (close_story td owner_dialog_id story_id m).1 in
  have_dialog_force td owner_dialog_id = true ->
  have_input_peer_read td owner_dialog_id = true ->
  story_id_is_valid td story_id = true ->
  story_id_is_server td story_id = true ->
  opened_owned_stories_ m !! story_full_id = Some n ->
  0 < n ->
  (close_story td owner_dialog_id story_id m).2 = Ok () /\
  opened_owned_stories_ m' !! story_full_id = (if n =? 1 then None else Some (n - 1)) /\
  (forall other, other <> story_full_id ->
     opened_owned_stories_ m' !! other = opened_owned_stories_ m !! other) /\
  (opened_owned_stories_ m' = ∅ -> has_interaction_info_update_timeout_ m' = false) /\
  stories_ m' = stories_ m /\ effects_ m' = effects_ m.
Proof.
  intros owner id m' Hdialog Hpeer Hvalid Hserver Hcount Hn. subst m'.
  unfold close_story. rewrite Hdialog, Hpeer, Hvalid, Hserver. cbn [negb].
  unfold is_story_owned. rewrite (bool_decide_eq_true_2 (owner = my_dialog_id td)) by done.
  cbn [andb]. fold id. rewrite Hcount. change (default 0 (Some n)) with n.
  destruct (Z.eqb_spec n 0) as [->|_]; [lia|].
  replace (n - 1 =? 0) with (n =? 1)
    by (destruct (Z.eqb_spec n 1), (Z.eqb_spec (n - 1) 0); lia).
  destruct (Z.eqb_spec n 1) as [->|Hn1]; cbv beta iota zeta; cbn [negb].
  - change (opened_owned_stories_ (upd_opened_owned_stories_ (delete id) m))
      with (delete id (opened_owned_stories_ m)).
    destruct (bool_decide (delete id (opened_owned_stories_ m) = ∅)) eqn:Hempty;
      match goal with
      | |- context [get_story ?a ?b] => destruct (get_story a b) as [story|]
      end;
      repeat match goal with
             | |- context [if ?c then _ else _] => destruct c
             end;
      cbn [fst snd];
      (split_and!; [done| | | |done|done]);
      try (cbn; apply lookup_delete_eq);
      try (intros other Hother; cbn; by apply lookup_delete_ne);
      try (intros _; reflexivity);
      intros Hnow; apply bool_decide_eq_false in Hempty; by destruct Hempty.
  - match goal with
    | |- context [get_story ?a ?b] => destruct (get_story a b) as [story|]
    end;
      repeat match goal with
             | |- context [if ?c then _ else _] => destruct c
             end;
      cbn [fst snd];
      (split_and!; [done| | | |done|done]);
      try (cbn; apply lookup_insert_eq);
      try (intros other Hother; cbn; by apply lookup_insert_ne);
      intros Hnow; exfalso;
      apply (f_equal (fun s => s !! id)) in Hnow; cbn in Hnow;
      by rewrite lookup_insert_eq, lookup_empty in Hnow.
Qed.

Lemma close_story_takes_one_opening_back_witness :
  let td := sample_td 1000 false false false in
  let m := upd_opened_owned_stories_ (insert (1, 7) 2) sample_manager_own in
  (close_story td 1 7 m).2 = Ok () /\
  opened_owned_stories_ (close_story td 1 7 m).1 !! (1, 7) = Some 1.
Proof.
  intros td m.
  destruct (close_story_takes_one_opening_back td 7 2 m) as (Hres & Hcount & _);
    [reflexivity | reflexivity | reflexivity | reflexivity | by vm_compute | lia |].
  split; [exact Hres|exact Hcount].
Defined.

(** ** Story viewers *)

Lemma on_story_changed_cached td id story a b c m m' :
  on_story_changed td id story a b c m = Some m' ->
  cached_story_viewers_ m' = cached_story_viewers_ m.
Proof.
  unfold on_story_changed, send_update_story. intros H.
  repeat match type of H with
         | context [if ?c then _ else _] => destruct c
         | context [match ?x with Some _ => _ | None => _ end] => destruct x
         | context [get_story_object ?a ?b ?c ?d] => destruct (get_story_object a b c d)
         | _ => progress cbn [mbind option_bind] in H
         end;
    try discriminate; apply (inj Some) in H; subst m'; done.
Qed.

(** X10.  The cached total number of viewers of a story never decreases.  Whatever
    the server answers to a request for viewers, a cache entry that exists
    stays, and its total count afterwards is at least what it was; when the
    answer is accepted for a story with content, it is the larger of the old
    count and the received count (the number of received viewers, when the
    received count is negative or smaller than that number). *)
Theorem cached_viewer_count_never_decreases (is_empty : Z * Z -> bool) (td : Td)
    (story_id : Z) (offset : Z * Z) (r_view_list : Result (Z * list (Z * Z)))
    (cached : CachedStoryViewers) (m m' : StoryManager) (result : Result (list (Z * Z))) :
  let story_full_id := (my_dialog_id td, story_id) in
  cached_story_viewers_ m !! story_full_id = Some (Some cached) ->
  on_get_story_viewers is_empty td story_id offset r_view_list m = Some (m', result) ->
  exists cached',
    cached_story_viewers_ m' !! story_full_id = Some (Some cached') /\
    total_count_ cached <= total_count_ cached' /\
    (forall count views story,
       r_view_list = Ok (count, views) -> close_flag td = false ->
       get_story m story_full_id = Some story -> content_ story <> None ->
       let size := Z.of_nat (length views) in
       let total_count :=
         if (count <? 0) || (count <? size) then to_int32 size else count in
       total_count_ cached' = Z.max (total_count_ cached) total_count /\
       result = Ok views).
Proof.
  intros id Hcached Hrun. unfold on_get_story_viewers in Hrun. fold id in Hrun.
  assert (exists cached',
            cached_story_viewers_ m !! id = Some (Some cached') /\
            total_count_ cached <= total_count_ cached') as Hsame
    by (exists cached; split; [done|lia]).
  destruct r_view_list as [[count views]|code msg].
  - destruct (close_flag td) eqn:Hclose; cbn [andb negb is_error] in Hrun.
    { injection Hrun as <- _. destruct Hsame as (c' & H1 & H2).
      exists c'. split_and!; [done..|]. intros ? ? ? _ [=]. }
    destruct (negb (story_id_is_server td story_id)); [done|].
    destruct (get_story m id) as [story|] eqn:Hstory.
    2:{ injection Hrun as <- _. destruct Hsame as (c' & H1 & H2).
        exists c'. split_and!; [done..|]. intros ? ? ? _ _ [=]. }
    apply bind_Some in Hrun as (m1 & H1 & Hrun). injection Hrun as <- <-.
    destruct (content_ story) as [content|] eqn:Hcontent.
    2:{ apply (inj Some) in H1. subst m1. destruct Hsame as (c' & H1 & H2).
        exists c'. split_and!; [done..|]. intros ? ? s _ _ [= <-] Hc. by destruct Hc. }
    destruct (set_view_count td (interaction_info_ story) count) as [info changed].
    apply bind_Some in H1 as (m2 & H2 & H1). apply (inj Some) in H1. subst m1.
    assert (cached_story_viewers_ m2 !! id = Some (Some cached)) as Hc2.
    { destruct changed.
      - apply on_story_changed_cached in H2. rewrite H2. exact Hcached.
      - apply (inj Some) in H2. subst m2. exact Hcached. }
    rewrite Hc2. cbn [default].
    eexists. split; [cbn; apply lookup_insert_eq|]. cbn [total_count_].
    split.
    + destruct (_ <? total_count_ cached) eqn:Hlt; [lia|]. apply Z.ltb_ge in Hlt. lia.
    + intros count' views' story' [= <- <-] _ _ _. split; [|done].
      cbv zeta. destruct (_ <? total_count_ cached) eqn:Hlt.
      * apply Z.ltb_lt in Hlt. lia.
      * apply Z.ltb_ge in Hlt. lia.
  - assert (m' = m) as ->.
    { destruct (close_flag td); cbn in Hrun; by injection Hrun as <- _. }
    destruct Hsame as (c' & H1 & H2).
    exists c'. split_and!; [done..|]. intros ? ? ? [=].
Qed.

Lemma cached_viewer_count_never_decreases_witness :
  let td := sample_td 1000 false false false in
  let m := upd_cached_story_viewers_
             (insert (1, 7) (Some (mkCachedStoryViewers 5 []))) sample_manager_own in
  exists m' cached',
    on_get_story_viewers sample_viewer_is_empty td 7 (0, 0) (Ok (3, [(2, 990)])) m
      = Some (m', Ok [(2, 990)]) /\
    cached_story_viewers_ m' !! (1, 7) = Some (Some cached') /\
    total_count_ cached' = 5.
Proof.
  intros td m.
  destruct (on_get_story_viewers sample_viewer_is_empty td 7 (0, 0)
              (Ok (3, [(2, 990)])) m) as [[m' res]|] eqn:Hrun;
    [|by vm_compute in Hrun].
  destruct (cached_viewer_count_never_decreases sample_viewer_is_empty td 7 (0, 0)
              (Ok (3, [(2, 990)])) (mkCachedStoryViewers 5 []) m m' res)
    as (cached' & Hc' & _ & Hmax); [by vm_compute | exact Hrun |].
  destruct (Hmax 3 [(2, 990)] (sample_story 900 2000 (Some [71]) false 3))
    as [Ht ->]; [reflexivity | reflexivity | by vm_compute | done |].
  exists m', cached'. split_and!; [reflexivity|exact Hc'|].
  rewrite Ht. by vm_compute.
Defined.

(** X11.  [get_story_viewers] asks the server only when it has to.  A missing story
    and a non-positive limit are errors that change nothing.  A query for the
    viewers is sent only for an own story on the server whose viewers have not
    expired and whose view count is not zero, and then the promise is left to
    the query; whenever the promise is answered at once (an error, the empty
    list, or viewers from the cache) no query is sent.  The stories are never
    changed. *)
Theorem get_story_viewers_asks_server_only_when_needed (is_empty : Z * Z -> bool)
    (td : Td) (story_id : Z) (offset : option (Z * Z)) (limit : Z) (promise : Promise)
    (m m' : StoryManager) (result : option (Result (list (Z * Z)))) :
  let story_full_id := (my_dialog_id td, story_id) in
  get_story_viewers is_empty td story_id offset limit promise m = (m', result) ->
  (get_story m story_full_id = None ->
   result = Some (Error 400 "Story not found") /\ m' = m) /\
  (is_Some (get_story m story_full_id) -> limit <= 0 ->
   result = Some (Error 400 "Parameter limit must be positive") /\ m' = m) /\
  (result = None ->
   exists story,
     get_story m story_full_id = Some story /\ 0 < limit /\
     can_get_story_viewers td story_full_id story = Ok () /\
     get_view_count td (interaction_info_ story) <> 0 /\
     effects_ m' = effects_ m ++
       [SendQuery (GetStoryViewsListQuery story_id
                     (match offset with Some o => o.2 | None => 0 end)
                     (match offset with Some o => o.1 | None => 0 end)
                     limit promise)]) /\
  (result <> None -> forall q, SendQuery q ∈ effects_ m' -> SendQuery q ∈ effects_ m) /\
  stories_ m' = stories_ m.
Proof.
  intros id. unfold get_story_viewers. fold id.
  destruct (get_story m id) as [story|] eqn:Hstory.
  2:{ intros [= <- <-]. split_and!; done. }
  destruct (Z.leb_spec limit 0) as [Hlimit|Hlimit].
  { intros [= <- <-]. split_and!; try done. }
  destruct (can_get_story_viewers td id story) as [[]|code msg] eqn:Hcan;
    cbn [is_error orb].
  2:{ intros [= <- <-]. split_and!; try done. lia. }
  destruct (Z.eqb_spec (get_view_count td (interaction_info_ story)) 0) as [Hviews|Hviews].
  { intros [= <- <-]. split_and!; try done. lia. }
  cbv zeta.
  set (m1 := match cached_story_viewers_ m !! id with Some _ => m | None => _ end).
  assert (effects_ m1 = effects_ m /\ stories_ m1 = stories_ m) as [He Hs]
    by (subst m1; by destruct (cached_story_viewers_ m !! id)).
  clearbody m1.
  destruct (bool_decide (_ <> [])).
  - intros [= <- <-]. split_and!; try done; [intros _ ?; lia|].
    intros _ q Hq. apply elem_of_effects_emit in Hq as [Hq|[=]]. by rewrite <- He.
  - intros [= <- <-]. split_and!; try done; [intros _ ?; lia|].
    intros _. exists story. split_and!; [done..|].
    by rewrite effects_emit, He.
Qed.

Lemma get_story_viewers_asks_server_only_when_needed_witness :
  let td := sample_td 1000 false false false in
  let m := upd_stories_
             (alter (set_interaction_info (mkStoryInteractionInfo 4 [])) (1, 7))
             sample_manager_own in
  exists m',
    get_story_viewers sample_viewer_is_empty td 7 None 10 (Some 1%nat) m = (m', None) /\
    last (effects_ m') = Some (SendQuery (GetStoryViewsListQuery 7 0 0 10 (Some 1%nat))).
Proof.
  intros td m.
  destruct (get_story_viewers sample_viewer_is_empty td 7 None 10 (Some 1%nat) m)
    as [m' r] eqn:Hrun.
  pose proof (get_story_viewers_asks_server_only_when_needed sample_viewer_is_empty
                td 7 None 10 (Some 1%nat) m m' r Hrun) as (_ & _ & Hquery & _).
  assert (r = None) as -> by (vm_compute in Hrun; by injection Hrun as _ <-).
  destruct (Hquery eq_refl) as (story & _ & _ & _ & _ & He).
  exists m'. split; [reflexivity|]. rewrite He. apply last_snoc.
Defined.

(** ** The ordered lists stay consistent *)

Lemma ordered_update_in td l0 l m :
  ordered_stories_ (story_list_of l (update_story_list_sent_total_count_in td l0 m))
  = ordered_stories_ (story_list_of l m).
Proof.
  unfold update_story_list_sent_total_count_in.
  pose proof (update_sent_total_count_frame td l0 (story_list_of l0 m))
    as (_ & _ & _ & _ & Ho & _).
  unfold story_list_of, upd_story_list in *.
  destruct (decide (l = StoryListId_archive)), (decide (l0 = StoryListId_archive));
    cbn; done.
Qed.

Lemma ordered_upd_story_list (l0 l : StoryListId)
    (g : gset (Z * Z) -> gset (Z * Z)) (m : StoryManager) :
  story_list_id_is_valid l = true -> story_list_id_is_valid l0 = true ->
  ordered_stories_
    (story_list_of l (upd_story_list l0
                        (fun sl => set_ordered_stories (g (ordered_stories_ sl)) sl) m))
  = if decide (l = l0) then g (ordered_stories_ (story_list_of l m))
    else ordered_stories_ (story_list_of l m).
Proof. by destruct l, l0. Qed.

Lemma store_new_orders_lists td owner a np pub l ns m l0 :
  story_list_of l0 (store_new_orders td owner a np pub l ns m).1.1.1 = story_list_of l0 m.
Proof.
  unfold store_new_orders, send_update_chat_active_stories.
  repeat case_goal_if; cbn; reflexivity.
Qed.

(** The keys of the ordered lists after the owner's key has been moved. *)
Lemma update_order_in_story_lists_ordered td owner a np l m m' pub l0 :
  is_bot td = false ->
  owner_keys_consistent owner a m ->
  update_order_in_story_lists td owner a np l m = Some (m', pub) ->
  story_list_id_is_valid l0 = true ->
  ordered_stories_ (story_list_of l0 m') =
    if story_list_id_is_valid l then
      if bool_decide (private_order_ a <> np) || bool_decide (story_list_id_ a <> l) then
        (if decide (l0 = l) then {[ (np, owner) ]} else ∅)
        ∪ (ordered_stories_ (story_list_of l0 m)
           ∖ (if decide (l0 = story_list_id_ a)
              then {[ (private_order_ a, owner) ]} else ∅))
      else ordered_stories_ (story_list_of l0 m)
    else
      ordered_stories_ (story_list_of l0 m)
      ∖ (if decide (l0 = story_list_id_ a) then {[ (private_order_ a, owner) ]} else ∅).
Proof.
  intros Hbot [Hin Huniq] Hrun Hl0. unfold update_order_in_story_lists in Hrun.
  assert (forall m0,
            ordered_stories_
              (story_list_of l0
                 (if story_list_id_is_valid (story_list_id_ a)
                  then upd_story_list (story_list_id_ a)
                         (fun sl => set_ordered_stories
                            (ordered_stories_ sl ∖ {[(private_order_ a, owner)]}) sl) m0
                  else m0))
            = ordered_stories_ (story_list_of l0 m0)
              ∖ (if decide (l0 = story_list_id_ a)
                 then {[ (private_order_ a, owner) ]} else ∅)) as Hdel.
  { intros m0. destruct (story_list_id_is_valid (story_list_id_ a)) eqn:Hv.
    - rewrite (ordered_upd_story_list _ _ (fun s => s ∖ {[(private_order_ a, owner)]}))
        by done.
      destruct (decide (l0 = story_list_id_ a)); [done|by rewrite difference_empty_L].
    - destruct (decide (l0 = story_list_id_ a)) as [->|_]; [congruence|].
      by rewrite difference_empty_L. }
  destruct (story_list_id_is_valid l) eqn:Hl; cbn [mbind option_bind] in Hrun.
  - rewrite get_story_list_valid in Hrun by done. cbn [mbind option_bind] in Hrun.
    destruct (bool_decide (private_order_ a <> np) || bool_decide (story_list_id_ a <> l))
      eqn:Hmoved; cbn [mbind option_bind] in Hrun; [|by injection Hrun as <- _].
    rewrite delete_active_stories_from_story_list_Some in Hrun by done.
    cbn [mbind option_bind] in Hrun.
    destruct (bool_decide ((np, owner) ∈ _)); [done|].
    apply bind_Some in Hrun as (m3 & H3 & Hrun). injection Hrun as <- _.
    apply bind_Some in H3 as (m2 & H2 & H3). injection H3 as <-.
    rewrite ordered_update_in.
    assert (ordered_stories_ (story_list_of l0 m2)
            = ordered_stories_
                (story_list_of l0
                   (upd_story_list l
                      (fun sl => set_ordered_stories
                         ({[(np, owner)]} ∪ ordered_stories_ sl) sl)
                      (if story_list_id_is_valid (story_list_id_ a)
                       then upd_story_list (story_list_id_ a)
                              (fun sl => set_ordered_stories
                                 (ordered_stories_ sl ∖ {[(private_order_ a, owner)]}) sl) m
                       else m)))) as ->.
    { destruct (bool_decide (story_list_id_ a <> l)
                && story_list_id_is_valid (story_list_id_ a)) eqn:Hold.
      - apply andb_true_iff in Hold as [_ Hold].
        rewrite update_story_list_sent_total_count_by_id_valid in H2 by done.
        injection H2 as <-. apply ordered_update_in.
      - by injection H2 as <-. }
    rewrite (ordered_upd_story_list _ _ (fun s => {[(np, owner)]} ∪ s)) by done.
    rewrite Hdel. destruct (decide (l0 = l)); [done|]. by rewrite union_empty_l_L.
  - destruct (story_list_id_is_valid (story_list_id_ a)) eqn:Hv.
    + rewrite delete_active_stories_from_story_list_Some in Hrun by auto.
      cbn [mbind option_bind] in Hrun.
      rewrite update_story_list_sent_total_count_by_id_valid in Hrun by done.
      cbn [mbind option_bind] in Hrun. injection Hrun as <- _.
      rewrite ordered_update_in, Hv. exact (Hdel m).
    + injection Hrun as <- _.
      destruct (decide (l0 = story_list_id_ a)) as [->|_]; [congruence|].
      by rewrite difference_empty_L.
Qed.

(** [update_active_stories_order] keeps the ordered lists consistent with the
    entry it returns, and moves no key but the owner's. *)
Lemma update_active_stories_order_consistent (td : Td) (owner : Z)
    (a a' : ActiveStories) (need_save need_save' changed : bool) (m m' : StoryManager) :
  owner_keys_consistent owner a m ->
  update_active_stories_order td owner a need_save m
    = Some (m', a', need_save', changed) ->
  owner_keys_consistent owner a' m' /\
  (forall l order other,
     story_list_id_is_valid l = true -> other <> owner ->
     (order, other) ∈ ordered_stories_ (story_list_of l m')
     <-> (order, other) ∈ ordered_stories_ (story_list_of l m)).
Proof.
  intros Hwf Hrun. unfold update_active_stories_order in Hrun.
  destruct (is_bot td) eqn:Hbot; [by simplify_eq|].
  apply bind_Some in Hrun as (last_id & _ & Hrun).
  destruct (negb _); [done|].
  apply bind_Some in Hrun as (last_story & _ & Hrun).
  set (np := new_private_order td owner a last_id last_story) in *.
  destruct (np =? 0); [done|].
  set (l := get_dialog_story_list_id td owner) in *.
  apply bind_Some in Hrun as ([m1 pub] & Hm1 & Hrun).
  pose proof (update_order_in_story_lists_ordered td owner a np l m m1 pub) as Hord.
  specialize (fun l0 => Hord l0 Hbot Hwf Hm1).
  pose proof (store_new_orders_entry td owner a np pub l need_save m1)
    as (Hp & _ & Hl & _).
  pose proof (store_new_orders_lists td owner a np pub l need_save m1) as Hlists.
  apply (inj Some) in Hrun. rewrite Hrun in Hp, Hl, Hlists.
  cbn [fst snd] in Hp, Hl, Hlists. clear Hrun Hm1.
  destruct Hwf as [Hin Huniq].
  assert (bool_decide (private_order_ a <> np) || bool_decide (story_list_id_ a <> l)
          = false -> private_order_ a = np /\ story_list_id_ a = l) as Hsame.
  { intros [H1 H2]%orb_false_iff. apply bool_decide_eq_false in H1, H2.
    split; [by destruct (decide (private_order_ a = np))
           |by destruct (decide (story_list_id_ a = l))]. }
  split; [split|].
  - rewrite Hl, Hp, Hlists. intros Hv. rewrite Hord, Hv by done.
    destruct (_ || _) eqn:Hmoved.
    + rewrite decide_True by done. set_solver.
    + destruct (Hsame eq_refl) as [<- <-]. by apply Hin.
  - intros l0 o Hv. rewrite Hl, Hp, Hlists, Hord by done.
    destruct (story_list_id_is_valid l) eqn:Hlv.
    + destruct (_ || _) eqn:Hmoved.
      * intros [Hnew|[Hold Hnot]%elem_of_difference]%elem_of_union.
        -- destruct (decide (l0 = l)); [|set_solver].
           apply elem_of_singleton in Hnew. by injection Hnew as ->.
        -- exfalso. destruct (Huniq l0 o Hv Hold) as [-> ->].
           rewrite decide_True in Hnot by done. set_solver.
      * intros Hold. destruct (Hsame eq_refl) as [<- <-]. by apply Huniq.
    + intros [Hold Hnot]%elem_of_difference. exfalso.
      destruct (Huniq l0 o Hv Hold) as [-> ->].
      rewrite decide_True in Hnot by done. set_solver.
  - intros l0 o other Hv Hother. rewrite Hlists, Hord by done.
    destruct (story_list_id_is_valid l); [destruct (_ || _)|];
      destruct (decide (l0 = l)), (decide (l0 = story_list_id_ a)); set_solver.
Qed.


#[local] Instance same_story_lists_refl : Reflexive same_story_lists.
Proof. by intros m. Qed.

#[local] Instance same_story_lists_trans : Transitive same_story_lists.
Proof. intros m1 m2 m3 [H1 H2] [H1' H2']. split; congruence. Qed.

Lemma same_story_lists_of m m' l :
  same_story_lists m m' -> story_list_of l m' = story_list_of l m.
Proof. intros [H1 H2]. unfold story_list_of. by destruct (decide _). Qed.

Lemma save_active_stories_lists td owner a promise m m' :
  save_active_stories td owner a promise m = Some m' -> same_story_lists m m'.
Proof.
  unfold save_active_stories, promise_set_value. intros H.
  destruct (negb _); [|destruct a; [destruct (bool_decide _); [done|]|]];
    apply (inj Some) in H; subst m'; [by destruct promise|done|done].
Qed.

Lemma promise_set_value_lists promise m :
  same_story_lists m (promise_set_value promise m).
Proof. by destruct promise. Qed.

Lemma get_or_create_active_stories_same_lists owner max_read first_id m :
  same_story_lists m (get_or_create_active_stories owner max_read first_id m).2.
Proof.
  pose proof (get_or_create_active_stories_lists owner max_read first_id m) as [H1 H2].
  by split.
Qed.

Lemma ordered_upd_story_list_other (l0 l : StoryListId) (f : StoryList -> StoryList)
    (m : StoryManager) :
  (forall sl, ordered_stories_ (f sl) = ordered_stories_ sl) ->
  ordered_stories_ (story_list_of l0 (upd_story_list l f m))
  = ordered_stories_ (story_list_of l0 m).
Proof.
  intros Hf. unfold story_list_of, upd_story_list.
  destruct (decide (l0 = StoryListId_archive)), (decide (l = StoryListId_archive));
    cbn; by rewrite ?Hf.
Qed.

(** The keys of the ordered lists after the owner's entry has been removed. *)
Lemma on_update_active_stories_empty_ordered td owner promise from_db m m' l0 :
  on_update_active_stories_empty td owner promise from_db m = Some m' ->
  story_list_id_is_valid l0 = true ->
  let a := default new_ActiveStories (active_stories_ m !! owner) in
  ordered_stories_ (story_list_of l0 m')
  = ordered_stories_ (story_list_of l0 m)
    ∖ (if decide (l0 = story_list_id_ a) then {[ (private_order_ a, owner) ]} else ∅).
Proof.
  intros Hrun Hl0 a. unfold on_update_active_stories_empty in Hrun.
  apply bind_Some in Hrun as (m1 & Hm1 & Hrun).
  apply bind_Some in Hrun as (m_s & Hsave & Hrun). apply (inj Some) in Hrun.
  assert (story_list_of l0 m' = story_list_of l0 m1) as ->.
  { subst m'. apply same_story_lists_of.
    destruct (negb from_db); [by apply save_active_stories_lists in Hsave|].
    apply (inj Some) in Hsave. by subst m_s. }
  revert Hm1. unfold get_active_stories.
  match goal with |- context [active_stories_ ?x !! owner] => set (m0 := x) end.
  assert (same_story_lists m m0 /\ active_stories_ m0 = active_stories_ m) as [Hl Ha]
    by (subst m0; by destruct (bool_decide _)).
  clearbody m0. rewrite Ha. subst a.
  rewrite <- (same_story_lists_of m m0 l0 Hl).
  destruct (active_stories_ m !! owner) as [a|]; cbn [default].
  - intros Hm1. apply bind_Some in Hm1 as (m2 & Hm2 & Hm1). apply (inj Some) in Hm1.
    subst m1.
    change (ordered_stories_ (story_list_of l0 m2)
            = ordered_stories_ (story_list_of l0 m0)
              ∖ (if decide (l0 = story_list_id_ a)
                 then {[ (private_order_ a, owner) ]} else ∅)).
    destruct (story_list_id_is_valid (story_list_id_ a)) eqn:Hv.
    + apply bind_Some in Hm2 as (m3 & Hm3 & Hm2).
      apply bind_Some in Hm2 as (sl & _ & Hm2). apply (inj Some) in Hm2. subst m2.
      rewrite ordered_update_in.
      assert (ordered_stories_ (story_list_of l0 m3)
              = ordered_stories_ (story_list_of l0 m0)
                ∖ (if decide (l0 = story_list_id_ a)
                   then {[ (private_order_ a, owner) ]} else ∅)) as <-.
      { unfold delete_active_stories_from_story_list in Hm3. rewrite Hv in Hm3.
        cbn [negb] in Hm3. apply bind_Some in Hm3 as (sl' & _ & Hm3).
        destruct (bool_decide _); [|done]. apply (inj Some) in Hm3. subst m3.
        rewrite (ordered_upd_story_list _ _ (fun s => s ∖ {[(private_order_ a, owner)]}))
          by done.
        destruct (decide (l0 = story_list_id_ a)); [done|by rewrite difference_empty_L]. }
      destruct (_ && _); [|done].
      unfold save_story_list.
      destruct (_ || _); [by apply ordered_upd_story_list_other|].
      change (ordered_stories_
                (story_list_of l0
                   (upd_story_list (story_list_id_ a)
                      (fun sl0 => set_server_total_count
                                    (to_int32 (server_total_count_ sl0 - 1)) sl0) m3))
              = ordered_stories_ (story_list_of l0 m3)).
      by apply ordered_upd_story_list_other.
    + apply (inj Some) in Hm2. subst m2.
      destruct (decide (l0 = story_list_id_ a)) as [->|_]; [congruence|].
      by rewrite difference_empty_L.
  - intros Hm1. apply (inj Some) in Hm1. subst m1.
    change (story_list_of l0 (upd_max_read_story_ids_ (delete owner) m0))
      with (story_list_of l0 m0).
    destruct (decide (l0 = story_list_id_ new_ActiveStories)) as [->|_]; [done|].
    by rewrite difference_empty_L.
Qed.

(** The entry and the lists after the owner's entry has been created or
    updated. *)
Lemma on_update_active_stories_nonempty_consistent td owner max_read first_id ids
    promise from_db m m' :
  owner_keys_consistent owner (default new_ActiveStories (active_stories_ m !! owner)) m ->
  on_update_active_stories_nonempty td owner max_read first_id ids promise from_db m
    = Some m' ->
  (exists a', active_stories_ m' !! owner = Some a' /\ owner_keys_consistent owner a' m') /\
  (forall l order other,
     story_list_id_is_valid l = true -> other <> owner ->
     (order, other) ∈ ordered_stories_ (story_list_of l m')
     <-> (order, other) ∈ ordered_stories_ (story_list_of l m)).
Proof.
  intros Hwf. unfold on_update_active_stories_nonempty.
  match goal with |- context [get_or_create_active_stories ?o ?r ?f ?x] =>
    pose proof (get_or_create_active_stories_spec o r f x) as (_ & _ & Ha);
    pose proof (get_or_create_active_stories_same_lists o r f x) as Hl1;
    destruct (get_or_create_active_stories o r f x) as [[a mr] m1] end.
  cbn [fst snd] in Ha, Hl1.
  change (active_stories_ (upd_failed_to_load_active_stories_ ?f m))
    with (active_stories_ m) in Ha.
  assert (same_story_lists m m1) as Hm1 by (etrans; [|exact Hl1]; done).
  clear Hl1.
  match goal with |- context [update_active_stories_order _ _ _ _ ?x] =>
    set (m2 := x);
    assert (same_story_lists m m2) as Hm2
      by (subst m2; etrans; [exact Hm1|]; by destruct (bool_decide _));
    clearbody m2 end.
  assert (forall A, story_list_id_ A = story_list_id_ a ->
            private_order_ A = private_order_ a -> owner_keys_consistent owner A m2)
    as Hwf2.
  { intros A E1 E2. subst a. destruct Hm2 as [H1 H2].
    apply (owner_keys_consistent_ext owner _ A m m2) in Hwf; done. }
  assert (forall l, story_list_of l m2 = story_list_of l m) as Hof
    by (intros l; by apply same_story_lists_of).
  intros H. apply bind_Some in H as ([[m3 a3] ns3] & Hm3 & H).
  assert (owner_keys_consistent owner a3 m3 /\
          (forall l order other,
             story_list_id_is_valid l = true -> other <> owner ->
             (order, other) ∈ ordered_stories_ (story_list_of l m3)
             <-> (order, other) ∈ ordered_stories_ (story_list_of l m))) as [Hwf3 Hoth3].
  { destruct (bool_decide (max_read_story_id_ a <> mr) || bool_decide (story_ids_ a <> ids)).
    - apply bind_Some in Hm3 as ([[[m4 a4] ns4] r4] & Hm4 & Hm3).
      apply update_active_stories_order_consistent in Hm4 as [Hc Ho];
        [|by apply Hwf2].
      injection Hm3 as <- <- _. split.
      + eapply owner_keys_consistent_ext; [| | | |exact Hc]; done.
      + intros l o other Hv Hne.
        change (story_list_of l (send_update_chat_active_stories td owner (Some a4) m4))
          with (story_list_of l m4).
        rewrite Ho, Hof by done. done.
    - apply bind_Some in Hm3 as ([[[m4 a4] ns4] r4] & Hm4 & Hm3).
      apply update_active_stories_order_consistent in Hm4 as [Hc Ho];
        [|by apply Hwf2].
      injection Hm3 as <- <- _. split.
      + eapply owner_keys_consistent_ext; [| | | |exact Hc]; try done;
          by destruct r4.
      + intros l o other Hv Hne.
        assert (story_list_of l (if r4 then send_update_chat_active_stories td owner
                                              (Some a4) m4 else m4)
                = story_list_of l m4) as -> by (by destruct r4).
        rewrite Ho, Hof by done. done. }
  assert (same_story_lists m3 m' /\ active_stories_ m' !! owner = Some a3) as [Hl' Ha'].
  { destruct (_ && _).
    - split.
      + etrans; [|exact (save_active_stories_lists _ _ _ _ _ _ H)]. done.
      + rewrite (frame_active_stories _ _ (save_active_stories_frame _ _ _ _ _ _ H)).
        apply lookup_insert_eq.
    - apply (inj Some) in H. subst m'. split.
      + etrans; [|apply promise_set_value_lists]. done.
      + match goal with |- active_stories_ (promise_set_value ?p ?mm) !! _ = _ =>
          rewrite (frame_active_stories _ _ (promise_set_value_frame p mm)) end.
        apply lookup_insert_eq. }
  split.
  - exists a3. split; [exact Ha'|]. destruct Hl' as [H1 H2].
    eapply owner_keys_consistent_ext; [exact H1|exact H2|done|done|exact Hwf3].
  - intros l o other Hv Hne. rewrite (same_story_lists_of m3 m' l Hl'). by apply Hoth3.
Qed.

(** X15.  [on_update_active_stories] keeps the ordered lists consistent with the
    owner's entry, and moves no key but the owner's.  If before the call the
    owner's key is in the list that the owner's entry names and in no other
    place, then after the call the same holds for the entry that the call
    leaves (no key at all when the entry is removed); and the keys of all
    other owners are in the lists where they were. *)
Theorem on_update_active_stories_keeps_lists_consistent (td : Td) (owner : Z)
    (max_read : Z) (ids : list Z) (promise : Promise) (from_db : bool)
    (m m' : StoryManager) :
  owner_keys_consistent owner (default new_ActiveStories (active_stories_ m !! owner)) m ->
  on_update_active_stories td owner max_read ids promise from_db m = Some m' ->
  owner_keys_consistent owner
    (default new_ActiveStories (active_stories_ m' !! owner)) m' /\
  (forall l order other,
     story_list_id_is_valid l = true -> other <> owner ->
     (order, other) ∈ ordered_stories_ (story_list_of l m')
     <-> (order, other) ∈ ordered_stories_ (story_list_of l m)).
Proof.
  intros Hwf Hrun. unfold on_update_active_stories in Hrun.
  destruct (negb (dialog_id_is_valid td owner)); [done|].
  destruct (remove_if _ ids) as [kept removed].
  destruct kept as [|first_id kept].
  - pose proof (fun l0 => on_update_active_stories_empty_ordered _ _ _ _ _ _ l0 Hrun)
      as Hord.
    cbv zeta in Hord.
    apply on_update_active_stories_empty_spec in Hrun as [_ Hnone].
    rewrite Hnone. cbn [default]. destruct Hwf as [Hin Huniq]. split; [split|].
    + done.
    + intros l o Hv. rewrite Hord by done.
      intros [Hold Hnot]%elem_of_difference. exfalso.
      destruct (Huniq l o Hv Hold) as [-> ->].
      rewrite decide_True in Hnot by done. set_solver.
    + intros l o other Hv Hne. rewrite Hord by done.
      destruct (decide _); set_solver.
  - apply on_update_active_stories_nonempty_consistent in Hrun
      as [(a' & Ha' & Hwf') Hoth]; [|done].
    rewrite Ha'. done.
Qed.

Lemma on_update_active_stories_keeps_lists_consistent_witness :
  let td := sample_td 1000 false false false in
  exists m' a',
    on_update_active_stories td 2 4 [0; 3; 5; 7] None true sample_manager = Some m' /\
    active_stories_ m' !! 2 = Some a' /\
    (private_order_ a', 2) ∈ ordered_stories_ (story_list_main_ m').
Proof.
  intros td.
  destruct (on_update_active_stories td 2 4 [0; 3; 5; 7] None true sample_manager)
    as [m'|] eqn:Hrun; [|by vm_compute in Hrun].
  destruct (on_update_active_stories_keeps_lists_consistent td 2 4 [0; 3; 5; 7] None
              true sample_manager m') as [[Hin _] _];
    [apply sample_manager_consistent | exact Hrun |].
  destruct (active_stories_ m' !! 2) as [a'|] eqn:Ha';
    [|vm_compute in Hrun; injection Hrun as <-; by vm_compute in Ha'].
  assert (story_list_id_ a' = StoryListId_main) as Hl.
  { vm_compute in Hrun. injection Hrun as <-. vm_compute in Ha'. by injection Ha' as <-. }
  exists m', a'. split_and!; [reflexivity|exact Ha'|].
  change (default new_ActiveStories (Some a')) with a' in Hin.
  rewrite Hl in Hin. by apply Hin.
Defined.

(** ** Further properties of the list counts and of deletion *)

(** X16.  [update_story_list_sent_total_count] is idempotent: a second call right
    after the first finds the count up to date, changes nothing and sends no
    second [updateStoryListChatCount]. *)
Theorem update_story_list_sent_total_count_idempotent (td : Td) (l : StoryListId)
    (sl : StoryList) :
  let sl' := (update_story_list_sent_total_count td l sl).1 in
  update_story_list_sent_total_count td l sl' = (sl', []).
Proof.
  cbv zeta. unfold update_story_list_sent_total_count.
  destruct ((server_total_count_ sl =? -1) || is_bot td) eqn:Hguard.
  - cbn [fst]. by rewrite Hguard.
  - set (n := if bool_decide (list_last_story_date_ sl <> MAX_DIALOG_DATE td)
              then Z.max (to_int32 (Z.of_nat (size (ordered_stories_ sl))))
                         (server_total_count_ sl)
              else to_int32 (Z.of_nat (size (ordered_stories_ sl)))).
    destruct (bool_decide (sent_total_count_ sl <> n)) eqn:Hne; cbn [fst].
    + change (server_total_count_ (set_sent_total_count n sl))
        with (server_total_count_ sl).
      rewrite Hguard.
      change (ordered_stories_ (set_sent_total_count n sl)) with (ordered_stories_ sl).
      change (list_last_story_date_ (set_sent_total_count n sl))
        with (list_last_story_date_ sl).
      change (sent_total_count_ (set_sent_total_count n sl)) with n.
      fold n. by rewrite (bool_decide_eq_false_2 (n <> n)) by (by intros ?).
    + rewrite Hguard. fold n. by rewrite Hne.
Qed.

(** X17.  For a server story id whose story is unknown, or known only as a stub
    without content, [on_delete_story] reads nothing from the database and
    forgets nothing: the tombstone that it has just set keeps
    [get_story_force] from the database, so the result is the same whatever
    the database holds.  The story is marked inaccessible at the current
    time, the replied messages are told, the database row is deleted when
    there is a database, and nothing else changes; a stub stays in the store
    and in the active list of its owner. *)
Theorem on_delete_story_without_content (td : Td) (story_full_id : Z * Z)
    (m : StoryManager) :
  story_id_is_server td story_full_id.2 = true ->
  get_story m story_full_id ≫= content_ = None ->
  (exists m',
    on_delete_story td story_full_id m = Some m' /\
    m' = delete_story_from_database td story_full_id
           (emit (MessagesUpdateStoryMaxReplyMediaTimestamp story_full_id)
              (upd_inaccessible_story_full_ids_
                 (insert story_full_id (time_now td)) m)) /\
    inaccessible_story_full_ids_ m'
      = <[story_full_id := time_now td]> (inaccessible_story_full_ids_ m) /\
    effects_ m' = effects_ m
                  ++ [MessagesUpdateStoryMaxReplyMediaTimestamp story_full_id]
                  ++ (if use_message_database td
                      then [DbDeleteStory story_full_id] else []) /\
    stories_ m' = stories_ m /\
    stories_by_global_id_ m' = stories_by_global_id_ m /\
    active_stories_ m' = active_stories_ m /\
    story_list_main_ m' = story_list_main_ m /\
    story_list_archive_ m' = story_list_archive_ m) /\
  (forall td',
     story_id_is_server td' story_full_id.2 = true ->
     time_now td' = time_now td ->
     use_message_database td' = use_message_database td ->
     on_delete_story td' story_full_id m = on_delete_story td story_full_id m).
Proof.
  intros Hserver Hcontent.
  assert (forall t, story_id_is_server t story_full_id.2 = true ->
            on_delete_story t story_full_id m
            = Some (delete_story_from_database t story_full_id
                      (emit (MessagesUpdateStoryMaxReplyMediaTimestamp story_full_id)
                         (upd_inaccessible_story_full_ids_
                            (insert story_full_id (time_now t)) m)))) as Hrun.
  { intros t Ht. unfold on_delete_story. cbv zeta. rewrite Ht.
    cbn [negb]. unfold get_story_force.
    destruct (negb (story_full_id_is_valid t story_full_id)); [done|].
    change (get_story (emit ?e (upd_inaccessible_story_full_ids_ ?f m)) story_full_id)
      with (get_story m story_full_id).
    rewrite Hcontent.
    rewrite (bool_decide_eq_false_2 (is_Some None)) by (by intros [? ?]).
    assert (is_inaccessible_story
              (emit (MessagesUpdateStoryMaxReplyMediaTimestamp story_full_id)
                 (upd_inaccessible_story_full_ids_
                    (insert story_full_id (time_now t)) m)) story_full_id = true)
      as ->.
    { unfold is_inaccessible_story. apply bool_decide_eq_true. cbn.
      rewrite lookup_insert_eq. by eexists. }
    by rewrite orb_true_r. }
  split.
  - eexists. split; [by apply Hrun|]. split; [reflexivity|].
    unfold delete_story_from_database.
    destruct (use_message_database td);
      cbn; rewrite <- ?app_assoc; split_and!; reflexivity.
  - intros td' Hserver' Hnow Hdb. rewrite !Hrun by done.
    unfold delete_story_from_database. by rewrite Hnow, Hdb.
Qed.

Lemma on_delete_story_without_content_witness :
  let td := sample_td 3000 false false false in
  exists m',
    on_delete_story td (2, 4) sample_manager = Some m' /\
    inaccessible_story_full_ids_ m' !! (2, 4) = Some 3000 /\
    stories_ m' = stories_ sample_manager.
Proof.
  intros td.
  destruct (on_delete_story_without_content td (2, 4) sample_manager)
    as [(m' & Hrun & _ & Hin & _ & Hst & _) _]; [reflexivity | by vm_compute |].
  exists m'. split_and!; [exact Hrun| |exact Hst].
  rewrite Hin. apply lookup_insert_eq.
Defined.

(** ** Subscriptions, registered messages, expired viewers *)

(** X21.  A chat is put into a story list exactly when the user is subscribed to
    its stories: the changelog chat, the user's own chat and the chats of
    contacts.  A subscribed chat goes to the archive when it is not a user
    chat, or when it is another user whose stories are hidden, and to the
    main list otherwise; in particular the user's own stories are never in
    the archive when the own chat is a user chat. *)
Theorem get_dialog_story_list_id_subscribed (td : Td) (owner_dialog_id : Z) :
  let l := get_dialog_story_list_id td owner_dialog_id in
  let is_user := bool_decide (dialog_id_get_type td owner_dialog_id = DialogType_User) in
  let hidden_other :=
    bool_decide (owner_dialog_id <> my_dialog_id td)
    && get_user_stories_hidden td (dialog_id_get_user_id td owner_dialog_id) in
  story_list_id_is_valid l = is_subscribed_to_dialog_stories td owner_dialog_id /\
  (is_subscribed_to_dialog_stories td owner_dialog_id = true <->
   owner_dialog_id = get_changelog_story_dialog_id td \/
   (is_user = true /\
    (owner_dialog_id = my_dialog_id td \/
     is_user_contact td (dialog_id_get_user_id td owner_dialog_id) = true))) /\
  (l = StoryListId_archive <->
   is_subscribed_to_dialog_stories td owner_dialog_id = true /\
   (is_user = false \/ hidden_other = true)) /\
  (l = StoryListId_main <->
   is_subscribed_to_dialog_stories td owner_dialog_id = true /\
   is_user = true /\ hidden_other = false).
Proof.
  cbv zeta. unfold get_dialog_story_list_id, is_subscribed_to_dialog_stories.
  destruct (dialog_id_get_type td owner_dialog_id) eqn:Htype;
    destruct (is_user_contact td _) eqn:Hcontact;
    destruct (get_user_stories_hidden td _) eqn:Hhidden;
    repeat case_bool_decide; cbn [negb andb orb story_list_id_is_valid];
    (split_and!; [reflexivity|..]); split; naive_solver.
Qed.

Lemma filter_not_eq_snoc (l : list (Z * Z)) (x : Z * Z) :
  x ∉ l -> List.filter (fun y => negb (bool_decide (y = x))) (l ++ [x]) = l.
Proof.
  intros Hx. rewrite List.filter_app. cbn.
  rewrite (bool_decide_eq_true_2 (x = x)) by done. cbn. rewrite app_nil_r.
  induction l as [|a l IH]; [done|]. cbn.
  apply not_elem_of_cons in Hx as [Hne Hx].
  rewrite (bool_decide_eq_false_2 (a = x)) by (by intros ?). cbn. by rewrite IH.
Qed.

(** X19.  Registering a message for a story and unregistering it again restores
    the registered messages, and both steps keep every registered set
    non-empty, which is what [on_story_changed] checks before it notifies the
    messages of a story. *)
Theorem register_then_unregister_story (td : Td) (story_full_id : Z * Z)
    (full_message_id : Z * Z) (m : StoryManager) :
  is_bot td = false ->
  story_full_id_is_valid td story_full_id = true ->
  story_messages_nonempty m ->
  full_message_id ∉ default [] (story_messages_ m !! story_full_id) ->
  exists m1 m2,
    register_story td story_full_id full_message_id m = Some m1 /\
    full_message_id ∈ default [] (story_messages_ m1 !! story_full_id) /\
    story_messages_nonempty m1 /\
    unregister_story td story_full_id full_message_id m1 = Some m2 /\
    story_messages_ m2 = story_messages_ m /\
    story_messages_nonempty m2.
Proof.
  intros Hbot Hvalid Hok Hnew.
  unfold register_story, unregister_story. rewrite Hbot, Hvalid. cbn [negb].
  rewrite (bool_decide_eq_false_2 _ Hnew).
  set (l := default [] (story_messages_ m !! story_full_id)) in *.
  eexists. exists m. split; [reflexivity|].
  change (story_messages_ (upd_story_messages_ ?f m)) with (f (story_messages_ m)).
  rewrite lookup_insert_eq.
  change (default [] (Some (l ++ [full_message_id]))) with (l ++ [full_message_id]).
  assert (full_message_id ∈ l ++ [full_message_id]) as Hin
    by (apply elem_of_app; right; by apply list_elem_of_singleton).
  split; [exact Hin|]. split.
  { intros id' l'. change (story_messages_ (upd_story_messages_ ?f m))
      with (f (story_messages_ m)).
    intros [[_ <-]|[_ H]]%lookup_insert_Some; [by destruct l|by eapply Hok]. }
  rewrite (bool_decide_eq_true_2 _ Hin). cbn [negb].
  rewrite filter_not_eq_snoc by done.
  assert (forall sm : gmap (Z * Z) (list (Z * Z)),
            sm = story_messages_ m ->
            upd_story_messages_ (fun _ => sm) m = m) as Hsame
    by (intros sm ->; reflexivity).
  destruct (decide (l = [])) as [Hl|Hl].
  - rewrite (bool_decide_eq_true_2 _ Hl).
    assert (story_messages_ m !! story_full_id = None) as Hnone.
    { destruct (story_messages_ m !! story_full_id) as [l0|] eqn:Hl0; [|done].
      subst l. cbn in Hl. subst l0. by destruct (Hok _ _ Hl0). }
    split_and!; [|reflexivity|exact Hok].
    f_equal. rewrite <- (Hsame (story_messages_ m)) at 2 by done.
    unfold upd_story_messages_. cbn. f_equal.
    rewrite delete_insert_eq. by apply delete_id.
  - rewrite (bool_decide_eq_false_2 _ Hl).
    assert (story_messages_ m !! story_full_id = Some l) as Hsome.
    { subst l. destruct (story_messages_ m !! story_full_id); [done|]. by destruct Hl. }
    split_and!; [|reflexivity|exact Hok].
    f_equal. rewrite <- (Hsame (story_messages_ m)) at 2 by done.
    unfold upd_story_messages_. cbn. f_equal.
    rewrite insert_insert_eq. by apply insert_id.
Qed.

Lemma register_then_unregister_story_witness :
  let td := sample_td 1000 false false false in
  exists m1 m2,
    register_story td (2, 3) (10, 100) sample_manager = Some m1 /\
    (10, 100) ∈ default [] (story_messages_ m1 !! (2, 3)) /\
    unregister_story td (2, 3) (10, 100) m1 = Some m2 /\
    story_messages_ m2 = story_messages_ sample_manager.
Proof.
  intros td.
  destruct (register_then_unregister_story td (2, 3) (10, 100) sample_manager)
    as (m1 & m2 & H1 & Hin & _ & H2 & Hsame & _);
    [reflexivity | reflexivity | by intros id l H | by vm_compute; apply not_elem_of_nil |].
  exists m1, m2. split_and!; [exact H1|exact Hin|exact H2|exact Hsame].
Defined.

(** X12.  When the viewers of an own story expire (the timer for them fires after
    the deadline), the cached viewers of the story are dropped, and if the
    story has been published an [updateStory] is sent that says that viewers
    cannot be fetched any more and have expired; nothing else changes but the
    mark that the update was sent.  No check of the function fails. *)
Theorem viewers_timeout_drops_cached_viewers (td : Td) (story_global_id : Z)
    (story_id : Z) (story : Story) (m : StoryManager) :
  let story_full_id := (my_dialog_id td, story_id) in
  close_flag td = false ->
  stories_by_global_id_ m !! story_global_id = Some story_full_id ->
  get_story m story_full_id = Some story ->
  story_id_is_server td story_id = true ->
  get_story_viewers_expire_date td story <= unix_time td ->
  exists m',
    on_story_can_get_viewers_timeout td story_global_id m = Some m' /\
    cached_story_viewers_ m' = delete story_full_id (cached_story_viewers_ m) /\
    (if bool_decide (content_ story <> None) && is_update_sent_ story
     then exists object,
            effects_ m' = effects_ m ++ [SendUpdate (updateStory object)] /\
            obj_id object = story_id /\
            obj_can_get_viewers object = false /\
            obj_has_expired_viewers object = true
     else effects_ m' = effects_ m) /\
    (forall other, other <> story_full_id -> stories_ m' !! other = stories_ m !! other) /\
    story_expire_timeout_ m' = story_expire_timeout_ m /\
    story_can_get_viewers_timeout_ m' = story_can_get_viewers_timeout_ m.
Proof.
  intros id Hclose Hgid Hstory Hserver Hexpired.
  unfold on_story_can_get_viewers_timeout. rewrite Hclose, Hgid.
  change (default (0, 0) (Some id)) with id. rewrite Hstory.
  assert (can_get_story_viewers td id story = Error 400 "Story is too old") as Hcan.
  { unfold can_get_story_viewers, is_story_owned.
    change (id.1) with (my_dialog_id td). change (id.2) with story_id.
    rewrite (bool_decide_eq_true_2 (my_dialog_id td = my_dialog_id td)) by done.
    rewrite Hserver. cbn [negb]. by rewrite (proj2 (Z.leb_le _ _) Hexpired). }
  rewrite Hcan. cbn [is_error negb].
  destruct (bool_decide (content_ story <> None) && is_update_sent_ story) eqn:Hsent.
  - apply andb_true_iff in Hsent as [Hcontent%bool_decide_eq_true _].
    unfold send_update_story, get_story_object.
    destruct (content_ story) as [content|] eqn:Hc; [|done].
    unfold is_story_owned.
    change (id.1) with (my_dialog_id td). change (id.2) with story_id.
    rewrite (bool_decide_eq_true_2 (my_dialog_id td = my_dialog_id td)) by done.
    cbn [negb andb mbind option_bind]. rewrite Hcan, Hserver. cbn [is_error negb andb].
    eexists. split; [reflexivity|]. split; [reflexivity|]. split.
    + eexists. split; [reflexivity|]. done.
    + split_and!; [|reflexivity|reflexivity].
      intros other Hother. cbn. by apply lookup_alter_ne.
  - cbn [mbind option_bind]. eexists. split; [reflexivity|]. split_and!; reflexivity.
Qed.

Lemma viewers_timeout_drops_cached_viewers_witness :
  let td := sample_td 100000 false false false in
  let m := upd_cached_story_viewers_
             (insert (1, 7) (Some (mkCachedStoryViewers 5 []))) sample_manager_own in
  exists m',
    on_story_can_get_viewers_timeout td 3 m = Some m' /\
    cached_story_viewers_ m' !! (1, 7) = None /\
    exists object, last (effects_ m') = Some (SendUpdate (updateStory object)) /\
                   obj_has_expired_viewers object = true.
Proof.
  intros td m.
  destruct (viewers_timeout_drops_cached_viewers td 3 7
              (sample_story 900 2000 (Some [71]) false 3) m)
    as (m' & Hrun & Hcache & Hupdate & _);
    [reflexivity | by vm_compute | by vm_compute | reflexivity | by vm_compute |].
  exists m'. split; [exact Hrun|]. split.
  - rewrite Hcache. apply lookup_delete_eq.
  - change (bool_decide (content_ (sample_story 900 2000 (Some [71]) false 3) <> None)
            && is_update_sent_ (sample_story 900 2000 (Some [71]) false 3))
      with (bool_decide (Some [71] <> (None : option (list Z))) && true) in Hupdate.
    rewrite (bool_decide_eq_true_2 (Some [71] <> None)) in Hupdate by done.
    destruct Hupdate as (object & He & _ & _ & Hexp).
    exists object. split; [|exact Hexp]. rewrite He. apply last_snoc.
Defined.

(** ** Global ids *)

Lemma on_story_changed_store td id story a b c m m' :
  on_story_changed td id story a b c m = Some m' ->
  (stories_ m' = stories_ m \/ stories_ m' = alter set_is_update_sent id (stories_ m)) /\
  stories_by_global_id_ m' = stories_by_global_id_ m /\
  max_story_global_id_ m' = max_story_global_id_ m /\
  inaccessible_story_full_ids_ m' = inaccessible_story_full_ids_ m /\
  deleted_story_full_ids_ m' = deleted_story_full_ids_ m.
Proof.
  unfold on_story_changed, send_update_story. intros H.
  repeat match type of H with
         | context [if ?c then _ else _] => destruct c
         | context [match ?x with Some _ => _ | None => _ end] => destruct x
         | context [get_story_object ?a ?b ?c ?d] => destruct (get_story_object a b c d)
         | _ => progress cbn [mbind option_bind] in H
         end;
    try discriminate; apply (inj Some) in H; subst m';
    (split; [first [by left|by right]|done]).
Qed.

(** No CHECK of [on_story_changed] fails when an active story has a global
    id, the update of a published story can be built, and no message set is
    empty. *)
Lemma on_story_changed_Some td id story is_changed need_save from_db m :
  (is_active_story td (Some story) = true -> 0 < global_id_ story) ->
  (content_ story <> None -> story_id_is_valid td id.2 = true ->
   is_changed = true -> is_update_sent_ story = true ->
   is_story_owned td id.1 = true \/ is_pinned_ story = true
   \/ is_active_story td (Some story) = true) ->
  story_messages_nonempty m ->
  is_Some (on_story_changed td id story is_changed need_save from_db m).
Proof.
  intros Hgid Hpub Hmsg. unfold on_story_changed.
  assert (forall x : StoryManager,
            is_Some (if is_active_story td (Some story)
                     then if 0 <? global_id_ story
                          then Some (upd_story_expire_timeout_
                                       (insert (global_id_ story)
                                          (to_int32 (expire_date_ story - unix_time td)))
                                       x)
                          else None
                     else Some x)) as Hfirst.
  { intros x. destruct (is_active_story td (Some story)); [|done].
    by rewrite (proj2 (Z.ltb_lt _ _) (Hgid eq_refl)). }
  destruct (Hfirst m) as [m1 Hm1].
  assert (story_messages_ m1 = story_messages_ m) as Hsame1.
  { destruct (is_active_story td (Some story)); [|by simplify_eq].
    destruct (0 <? global_id_ story); [|done]. apply (inj Some) in Hm1. by subst m1. }
  rewrite Hm1. cbn [mbind option_bind].
  match goal with |- context [if negb (is_error ?c) then ?x else ?y] =>
    set (m2 := if negb (is_error c) then x else y);
    assert (story_messages_ m2 = story_messages_ m) as Hsame2
      by (subst m2; by destruct (negb (is_error c))); clearbody m2 end.
  destruct (bool_decide (content_ story = None) || negb (story_id_is_valid td id.2))
    eqn:Hstub; [done|].
  apply orb_false_iff in Hstub as [Hc%bool_decide_eq_false Hv%negb_false_iff].
  destruct (is_changed || need_save); [|done].
  match goal with |- context [if is_changed && is_update_sent_ story then _ ?x else _] =>
    set (m3 := x);
    assert (story_messages_ m3 = story_messages_ m) as Hsame3
      by (subst m3; by destruct (_ && _)); clearbody m3 end.
  assert (exists m4, (if is_changed && is_update_sent_ story
                      then send_update_story td id story m3 else Some m3) = Some m4
                     /\ story_messages_ m4 = story_messages_ m) as (m4 & -> & Hsame4).
  { destruct (is_changed && is_update_sent_ story) eqn:Hsent; [|by exists m3].
    apply andb_true_iff in Hsent as [-> Hsent].
    unfold send_update_story, get_story_object.
    destruct (content_ story) as [content|] eqn:Hcontent; [|done].
    assert (negb (is_story_owned td id.1) && negb (is_pinned_ story)
            && negb (is_active_story td (Some story)) = false) as ->.
    { destruct (Hpub Hc Hv eq_refl Hsent) as [-> | [-> | ->]];
        by rewrite ?andb_false_r. }
    cbn [mbind option_bind]. eexists. split; [reflexivity|exact Hsame3]. }
  cbn [mbind option_bind].
  change (story_messages_ (emit ?e (emit ?e' m4))) with (story_messages_ m4).
  rewrite Hsame4.
  destruct (story_messages_ m !! id) as [l|] eqn:Hl; [|done].
  by rewrite (bool_decide_eq_false_2 _ (Hmsg _ _ Hl)).
Qed.

(** What [on_get_story_info] leaves when it returns. *)
Lemma on_get_story_info_spec (td : Td) (owner_dialog_id : Z)
    (story_info : StoryInfo) (m m' : StoryManager) (result : Z) :
  let story_full_id := (owner_dialog_id, info_story_id_ story_info) in
  global_ids_consistent m ->
  0 <= max_story_global_id_ m ->
  on_get_story_info td owner_dialog_id story_info m = Some (m', result) ->
  global_ids_consistent m' /\
  (story_id_is_server td (info_story_id_ story_info) = true ->
   story_full_id ∉ deleted_story_full_ids_ m ->
   result = info_story_id_ story_info /\
   exists story,
     get_story m' story_full_id = Some story /\
     date_ story = Z.max 1 (info_date_ story_info) /\
     (date_ story < 2 ^ 31 - 1 -> date_ story < expire_date_ story) /\
     is_for_close_friends_ story = info_is_for_close_friends_ story_info /\
     (get_story m story_full_id = None ->
      content_ story = None /\ global_id_ story = max_story_global_id_ m + 1 /\
      inaccessible_story_full_ids_ m' !! story_full_id = None)).
Proof.
  intros id Hok Hmax Hrun. unfold on_get_story_info in Hrun. fold id in Hrun.
  destruct (story_id_is_server td (info_story_id_ story_info)) eqn:Hserver;
    cbn [negb] in Hrun; [|injection Hrun as <- <-; by split].
  destruct (decide (id ∈ deleted_story_full_ids_ m)) as [Hdel|Hdel];
    [rewrite (bool_decide_eq_true_2 _ Hdel) in Hrun; injection Hrun as <- <-; by split|].
  rewrite (bool_decide_eq_false_2 _ Hdel) in Hrun.
  apply bind_Some in Hrun as ([story m1] & H1 & Hrun).
  change (get_story (emit ?e m) id) with (get_story m id) in H1.
  set (date := if info_date_ story_info <=? 0 then 1 else info_date_ story_info) in *.
  set (expire := if info_expire_date_ story_info <=? date then to_int32 (date + 1)
                 else info_expire_date_ story_info) in *.
  assert (date = Z.max 1 (info_date_ story_info)) as Hdate.
  { subst date. destruct (Z.leb_spec (info_date_ story_info) 0); lia. }
  assert (date < 2 ^ 31 - 1 -> date < expire) as Hexpire.
  { intros Hsmall. subst expire.
    destruct (Z.leb_spec (info_expire_date_ story_info) date); [|lia].
    rewrite to_int32_id; lia. }
  (* the story that is about to be updated, and the manager that holds it *)
  assert (global_ids_consistent m1 /\ get_story m1 id = Some story /\
          0 <= max_story_global_id_ m1 /\
          (get_story m id = None ->
           content_ story = None /\ global_id_ story = max_story_global_id_ m + 1 /\
           inaccessible_story_full_ids_ m1 !! id = None /\
           max_story_global_id_ m1 = max_story_global_id_ m + 1)) as (Hok1 & Hs1 & Hmax1 & Hnew).
  { destruct (get_story m id) as [s|] eqn:Hs.
    - injection H1 as <- <-. split_and!; [exact Hok|exact Hs|exact Hmax|done].
    - unfold register_story_global_id in H1. cbn in H1. injection H1 as <- <-.
      split_and!.
      + intros id' s'. unfold get_story. cbn.
        intros [[<- <-]|[Hne Hs']]%lookup_insert_Some.
        * cbn. rewrite lookup_insert_eq. split; [|done].
          assert (forall x, 0 <= x -> 0 < x + 1 <= x + 1) as Hx by (intros; lia).
          apply Hx. exact Hmax.
        * destruct (Hok id' s' Hs') as [Hr Hl].
          assert (forall g x, 0 < g <= x -> 0 < g <= x + 1 /\ g <> x + 1) as Hx
            by (intros; lia).
          destruct (Hx _ _ Hr) as [Hr1 Hr2]. split; [exact Hr1|].
          rewrite lookup_insert_ne by (intros Heq; apply Hr2; symmetry; exact Heq).
          exact Hl.
      + unfold get_story. cbn. apply lookup_insert_eq.
      + assert (forall x, 0 <= x -> 0 <= x + 1) as Hx by (intros; lia).
        apply Hx. exact Hmax.
      + intros _. cbn. split_and!; [done|done|apply lookup_delete_eq|done]. }
  clear H1.
  assert (forall s m2,
            get_story m2 id = Some s ->
            (forall id' s', id' <> id -> get_story m2 id' = Some s' ->
                            get_story m1 id' = Some s') ->
            global_id_ s = global_id_ story ->
            stories_by_global_id_ m2 = stories_by_global_id_ m1 ->
            max_story_global_id_ m2 = max_story_global_id_ m1 ->
            global_ids_consistent m2) as Hkeep.
  { intros s m2 Hs Hothers Hgid Hidx Hmx id' s' Hs'.
    rewrite Hidx, Hmx. destruct (decide (id' = id)) as [->|Hne].
    - rewrite Hs in Hs'. injection Hs' as <-. rewrite Hgid. by apply Hok1.
    - apply Hok1. by apply Hothers. }
  destruct (bool_decide (date_ story <> date) || bool_decide (expire_date_ story <> expire)
            || bool_decide (is_for_close_friends_ story
                            <> info_is_for_close_friends_ story_info)) eqn:Hchanged.
  - apply bind_Some in Hrun as (m2 & H2 & Hrun). injection Hrun as <- <-.
    apply on_story_changed_store in H2 as (Hst & Hidx & Hmx & Hina & _).
    set (story' := set_story_info date expire (info_is_for_close_friends_ story_info)
                                  story) in *.
    assert (exists s, get_story m2 id = Some s /\
                      (s = story' \/ s = set_is_update_sent story') /\
                      (forall id' s', id' <> id -> get_story m2 id' = Some s' ->
                                      get_story m1 id' = Some s')) as (s & Hs & Hform & Hothers).
    { unfold get_story. destruct Hst as [-> | ->]; cbn.
      - exists story'. rewrite lookup_insert_eq. split_and!; [done|by left|].
        intros id' s' Hne. by rewrite lookup_insert_ne.
      - exists (set_is_update_sent story').
        rewrite lookup_alter_eq, lookup_insert_eq. split_and!; [done|by right|].
        intros id' s' Hne. rewrite lookup_alter_ne, lookup_insert_ne by done. done. }
    split.
    + apply (Hkeep s m2 Hs Hothers); [by destruct Hform as [-> | ->]|exact Hidx|exact Hmx].
    + intros _ _. split; [done|]. exists s.
      split; [exact Hs|]. destruct Hform as [-> | ->]; cbn;
        (split_and!; [exact Hdate|exact Hexpire|done|]);
        intros Hn; destruct (Hnew Hn) as (Hc & Hg & Hi & _);
        (split_and!; [exact Hc|exact Hg|by rewrite Hina]).
  - injection Hrun as <- <-.
    apply orb_false_iff in Hchanged as [[Hd He]%orb_false_iff Hf].
    apply bool_decide_eq_false in Hd, He, Hf.
    assert (date_ story = date) as Hd' by (by destruct (decide (date_ story = date))).
    assert (expire_date_ story = expire) as He'
      by (by destruct (decide (expire_date_ story = expire))).
    assert (is_for_close_friends_ story = info_is_for_close_friends_ story_info) as Hf'.
    { by destruct (is_for_close_friends_ story),
           (info_is_for_close_friends_ story_info); try done; destruct Hf. }
    split; [exact Hok1|]. intros _ _. split; [done|]. exists story.
    split_and!; [exact Hs1|by rewrite Hd'|by rewrite Hd', He'|exact Hf'|].
    intros Hn. destruct (Hnew Hn) as (Hc & Hg & Hi & _). done.
Qed.

(** X18.  [on_get_story_info] keeps the global ids consistent and the dates sane,
    and it completes unless it has to publish a story that cannot be shown.
    On a manager in which every stored story has a positive global id that
    leads back to it and no message set is empty: for an id that is not a
    server id or that is marked deleted nothing happens and the result is
    [StoryId()]; otherwise the call aborts (the CHECK of [send_update_story])
    when the received dates or flag differ from those of a stored story that
    has content and a valid id, has been published, is not owned and not
    pinned, and whose received expire date is not after the current time;
    in every other case it returns the story id, the global ids stay
    consistent, and the story is stored (as a stub with a fresh global id if
    it was unknown, and then no longer marked inaccessible) with the
    received close-friends flag, a send date of at least 1 and, unless that
    date is the largest 32-bit value, a later expire date. *)
Theorem on_get_story_info_keeps_global_ids (td : Td) (owner_dialog_id : Z)
    (story_info : StoryInfo) (m : StoryManager) :
  let story_id := info_story_id_ story_info in
  let story_full_id := (owner_dialog_id, story_id) in
  let date := Z.max 1 (info_date_ story_info) in
  let expire_date :=
    if info_expire_date_ story_info <=? date then to_int32 (date + 1)
    else info_expire_date_ story_info in
  let changes (story : Story) : Prop :=
    date_ story <> date \/ expire_date_ story <> expire_date
    \/ is_for_close_friends_ story <> info_is_for_close_friends_ story_info in
  let unpublishable (story : Story) : Prop :=
    content_ story <> None /\ story_id_is_valid td story_id = true /\
    is_update_sent_ story = true /\ is_story_owned td owner_dialog_id = false /\
    is_pinned_ story = false /\ expire_date <= unix_time td in
  global_ids_consistent m ->
  0 <= max_story_global_id_ m ->
  story_messages_nonempty m ->
  (story_id_is_server td story_id = false \/ story_full_id ∈ deleted_story_full_ids_ m ->
   on_get_story_info td owner_dialog_id story_info m = Some (m, 0)) /\
  (story_id_is_server td story_id = true ->
   story_full_id ∉ deleted_story_full_ids_ m ->
   (forall story,
      get_story m story_full_id = Some story -> changes story -> unpublishable story ->
      on_get_story_info td owner_dialog_id story_info m = None) /\
   ((forall story,
       get_story m story_full_id = Some story -> changes story -> ~ unpublishable story) ->
    exists m' story,
      on_get_story_info td owner_dialog_id story_info m = Some (m', story_id) /\
      global_ids_consistent m' /\
      get_story m' story_full_id = Some story /\
      date_ story = date /\
      (date < 2 ^ 31 - 1 -> date < expire_date_ story) /\
      is_for_close_friends_ story = info_is_for_close_friends_ story_info /\
      (get_story m story_full_id = None ->
       content_ story = None /\ global_id_ story = max_story_global_id_ m + 1 /\
       inaccessible_story_full_ids_ m' !! story_full_id = None))).
Proof.
  intros sid id date expire changes unpublishable Hok Hmax Hmsg.
  assert ((if info_date_ story_info <=? 0 then 1 else info_date_ story_info) = date)
    as Hdate by (subst date; destruct (Z.leb_spec (info_date_ story_info) 0); lia).
  assert (forall story,
            bool_decide (date_ story <> date) || bool_decide (expire_date_ story <> expire)
            || bool_decide (is_for_close_friends_ story
                            <> info_is_for_close_friends_ story_info) = true
            <-> changes story) as Hchanges.
  { intros story. rewrite !orb_true_iff, !bool_decide_eq_true. subst changes.
    cbv beta. tauto. }
  split.
  { intros Hskip. unfold on_get_story_info. fold sid id.
    destruct (story_id_is_server td sid); cbn [negb]; [|done].
    destruct Hskip as [?|Hdel]; [done|]. by rewrite (bool_decide_eq_true_2 _ Hdel). }
  intros Hserver Hdel.
  assert (on_get_story_info td owner_dialog_id story_info m
          = '(story, m1) ← match get_story m id with
                           | Some story =>
                               Some (story, emit (MessagesForceCreateDialog owner_dialog_id) m)
                           | None =>
                               '(story, m1) ← register_story_global_id id new_Story
                                   (emit (MessagesForceCreateDialog owner_dialog_id) m);
                               Some (story,
                                     upd_inaccessible_story_full_ids_ (delete id)
                                       (upd_stories_ (insert id story) m1))
                           end;
            if bool_decide (date_ story <> date)
               || bool_decide (expire_date_ story <> expire)
               || bool_decide (is_for_close_friends_ story
                               <> info_is_for_close_friends_ story_info)
            then
              let story := set_story_info date expire
                             (info_is_for_close_friends_ story_info) story in
              m2 ← on_story_changed td id story true true false
                      (upd_stories_ (insert id story) m1);
              Some (m2, sid)
            else Some (m1, sid)) as Hunfold.
  { unfold on_get_story_info. fold sid id. rewrite Hserver. cbn [negb].
    rewrite (bool_decide_eq_false_2 _ Hdel). cbv zeta. subst expire.
    by rewrite Hdate. }
  split.
  - intros story Hs Hch (Hc & Hv & Hsent & Hown & Hpin & Hexp).
    rewrite Hunfold, Hs. cbn [mbind option_bind].
    rewrite (proj2 (Hchanges story) Hch). cbv zeta.
    assert (on_story_changed td id
              (set_story_info date expire (info_is_for_close_friends_ story_info) story)
              true true false
              (upd_stories_
                 (insert id (set_story_info date expire
                               (info_is_for_close_friends_ story_info) story))
                 (emit (MessagesForceCreateDialog owner_dialog_id) m)) = None) as ->; [|done].
    unfold on_story_changed, send_update_story, get_story_object.
    assert (is_active_story td
              (Some (set_story_info date expire
                       (info_is_for_close_friends_ story_info) story)) = false) as Hact.
    { cbn. by apply Z.ltb_ge. }
    rewrite Hact. cbn [mbind option_bind].
    change (content_ (set_story_info ?d ?e ?f story)) with (content_ story).
    change (is_update_sent_ (set_story_info ?d ?e ?f story)) with (is_update_sent_ story).
    change (is_pinned_ (set_story_info ?d ?e ?f story)) with (is_pinned_ story).
    rewrite (bool_decide_eq_false_2 _ Hc). change (id.2) with sid. rewrite Hv.
    cbn [negb orb andb]. rewrite Hsent.
    destruct (content_ story) as [content|] eqn:Hcontent; [|done].
    change (id.1) with owner_dialog_id. rewrite Hown, Hpin. cbn [negb andb].
    by rewrite ?Hact.
  - intros Hpub.
    assert (is_Some (on_get_story_info td owner_dialog_id story_info m))
      as [[m' r] Hrun].
    { rewrite Hunfold. clear Hunfold. destruct (get_story m id) as [story|] eqn:Hs.
      - cbn [mbind option_bind].
        destruct (bool_decide (date_ story <> date) || _ || _) eqn:Hch; [|done].
        apply Hchanges in Hch. cbv zeta.
        match goal with |- context [on_story_changed ?t ?i ?s ?a ?b ?c ?x] =>
          destruct (on_story_changed_Some t i s a b c x) as [m2 ->]; [| | |done] end.
        + intros _. by apply (Hok id story).
        + intros Hc Hv _ Hsent.
          change (content_ (set_story_info ?d ?e ?f story)) with (content_ story) in Hc.
          change (is_update_sent_ (set_story_info ?d ?e ?f story))
            with (is_update_sent_ story) in Hsent.
          change (is_pinned_ (set_story_info ?d ?e ?f story)) with (is_pinned_ story).
          destruct (is_story_owned td id.1) eqn:Hown; [by left|].
          destruct (is_pinned_ story) eqn:Hpin; [by right; left|].
          right. right. cbn. apply Z.ltb_lt.
          destruct (Z.lt_ge_cases (unix_time td) expire) as [|Hge]; [done|].
          exfalso. apply (Hpub story eq_refl Hch). by split_and!; [..|lia].
        + exact Hmsg.
      - unfold register_story_global_id. cbn [new_Story global_id_].
        rewrite (bool_decide_eq_true_2 (0 = 0)) by done. cbn [mbind option_bind].
        match goal with |- context [if ?c then _ else _] => destruct c; [|done] end.
        cbv zeta.
        match goal with |- context [on_story_changed ?t ?i ?s ?a ?b ?c ?x] =>
          destruct (on_story_changed_Some t i s a b c x) as [m2 ->]; [| | |done] end.
        + intros _. change (0 < max_story_global_id_ m + 1).
          assert (forall x, 0 <= x -> 0 < x + 1) as Hx by (intros; lia).
          apply Hx. exact Hmax.
        + intros Hc. by destruct Hc.
        + exact Hmsg. }
    pose proof (on_get_story_info_spec td owner_dialog_id story_info m m' r Hok Hmax Hrun)
      as [Hok' Hstory].
    destruct (Hstory Hserver Hdel) as (-> & story & Hs & Hd & He & Hf & Hnew).
    rewrite Hd in He. exists m', story. by split_and!.
Qed.

Lemma global_ids_consistent_sample : global_ids_consistent sample_manager.
Proof.
  intros id s. unfold get_story. cbn.
  intros [[<- <-]|[_ [<- <-]%lookup_singleton_Some]]%lookup_insert_Some;
    split; try (by vm_compute); cbn; lia.
Qed.

Lemma on_get_story_info_keeps_global_ids_witness :
  let td := sample_td 1000 false false false in
  (exists m' story,
     on_get_story_info td 2 (mkStoryInfo 8 0 0 true) sample_manager = Some (m', 8) /\
     get_story m' (2, 8) = Some story /\
     date_ story = 1 /\ global_id_ story = 3 /\
     stories_by_global_id_ m' !! 3 = Some (2, 8)) /\
  on_get_story_info td 2 (mkStoryInfo 3 900 950 false) sample_manager = None.
Proof.
  intros td.
  assert (story_messages_nonempty sample_manager) as Hmsg by (by intros id l H).
  split.
  - destruct (on_get_story_info_keeps_global_ids td 2 (mkStoryInfo 8 0 0 true)
                sample_manager global_ids_consistent_sample ltac:(by vm_compute) Hmsg)
      as [_ Hrun].
    destruct Hrun as [_ (m' & story & Hrun & Hok & Hs & Hd & _ & _ & Hnew)];
      [reflexivity | apply not_elem_of_empty | by intros story H; vm_compute in H |].
    destruct Hnew as (_ & Hg & _); [by vm_compute|].
    exists m', story. split_and!; [exact Hrun|exact Hs|exact Hd|exact Hg|].
    destruct (Hok (2, 8) story Hs) as [_ Hidx]. by rewrite Hg in Hidx.
  - destruct (on_get_story_info_keeps_global_ids td 2 (mkStoryInfo 3 900 950 false)
                sample_manager global_ids_consistent_sample ltac:(by vm_compute) Hmsg)
      as [_ Hrun].
    destruct Hrun as [Habort _]; [reflexivity | apply not_elem_of_empty |].
    apply (Habort (sample_story 900 2000 (Some [31]) false 1)).
    + by vm_compute.
    + right. left. by vm_compute.
    + split_and!; try reflexivity; [done|by vm_compute].
Defined.

(** ** Uploading again *)

(** X20.  A story is uploaded again at most once.  When the upload of a new story
    finishes without an input file although the file has a (non-web) remote
    location, the first time the file reference is deleted and the upload is
    resumed from scratch (bad parts [-1]) with the story marked as
    re-uploaded; when this happens to a story that is marked already, the
    story is given up: it leaves the uploads and the unsent numbers, so that
    the stories behind it can be sent.  In neither case a send query is
    issued for the story. *)
Theorem story_is_reuploaded_at_most_once (td : Td) (file_id : Z) (p : PendingStory)
    (content : list Z) (m : StoryManager) :
  close_flag td = false ->
  being_uploaded_files_ m !! file_id = Some p ->
  file_is_encrypted td file_id = false ->
  file_has_remote_location td file_id = true ->
  file_remote_location_is_web td file_id = false ->
  story_id_is_server td (story_id_ p) = false ->
  content_ (story_ p) = Some content ->
  get_story_content_any_file_id td content = file_id ->
  file_id_is_valid td file_id = true ->
  was_reuploaded_ p = false ->
  (forall k r, ready_to_send_stories_ m !! k = Some r ->
               send_story_num_ (ready_pending_story_ r) = k) ->
  exists m1 m2,
    on_upload_story td file_id None m = Some m1 /\
    being_uploaded_files_ m1 !! file_id = Some (set_was_reuploaded p) /\
    effects_ m1 = effects_ m ++ [FileDeleteFileReference file_id;
                                 FileResumeUpload file_id [-1] (send_story_num_ p)] /\
    yet_unsent_stories_ m1 = yet_unsent_stories_ m /\
    on_upload_story td file_id None m1 = Some m2 /\
    being_uploaded_files_ m2 !! file_id = None /\
    (send_story_num_ p ∉ yet_unsent_stories_ m2) /\
    (forall f q i, SendQuery (SendStoryQuery f q i) ∈ effects_ m2 ->
                   SendQuery (SendStoryQuery f q i) ∈ effects_ m \/
                   send_story_num_ q <> send_story_num_ p).
Proof.
  intros Hclose Hp Henc Hremote Hweb Hserver Hcontent Hfile Hvalid Hfirst Hready.
  set (m1 := emit (FileResumeUpload file_id [-1] (send_story_num_ p))
               (upd_being_uploaded_files_ (insert file_id (set_was_reuploaded p))
                  (emit (FileDeleteFileReference file_id)
                     (upd_being_uploaded_files_ (delete file_id) m)))).
  assert (on_upload_story td file_id None m = Some m1) as H1.
  { unfold on_upload_story. rewrite Hclose, Hp, Henc, Hremote, Hweb, Hfirst.
    rewrite (bool_decide_eq_true_2 (None = None)) by done. cbn [andb].
    unfold do_send_story. cbn [set_was_reuploaded story_ send_story_num_].
    rewrite Hcontent. cbn [mbind option_bind]. rewrite Hfile, Hvalid. cbn [negb].
    change (being_uploaded_files_ (emit ?e (upd_being_uploaded_files_ ?f m)))
      with (f (being_uploaded_files_ m)).
    by rewrite lookup_delete_eq. }
  assert (being_uploaded_files_ m1 !! file_id = Some (set_was_reuploaded p)) as Hp1
    by (cbn; apply lookup_insert_eq).
  assert (effects_ m1 = effects_ m ++ [FileDeleteFileReference file_id;
                                       FileResumeUpload file_id [-1] (send_story_num_ p)])
    as Heff1 by (cbn; by rewrite <- app_assoc).
  assert (forall f q i, SendQuery (SendStoryQuery f q i) ∈ effects_ m1 ->
                        SendQuery (SendStoryQuery f q i) ∈ effects_ m) as He1.
  { intros f q i Hq. rewrite Heff1 in Hq.
    apply elem_of_app in Hq as [Hq|Hq]; [done|].
    apply elem_of_cons in Hq as [[=]|Hq]. by apply list_elem_of_singleton in Hq. }
  assert (ready_to_send_stories_ m1 = ready_to_send_stories_ m) as Hr1 by done.
  assert (yet_unsent_stories_ m1 = yet_unsent_stories_ m) as Hy1 by done.
  clearbody m1.
  destruct (finished_send_frame td file_id (set_was_reuploaded p)
              (Error 500 "Failed to reupload story")
              (upd_being_uploaded_files_ (delete file_id) m1) Hserver)
    as (m2 & Hrun2 & Hy2 & Hu2 & Hq2).
  exists m1, m2. split_and!; [exact H1|exact Hp1|exact Heff1|exact Hy1| | | |].
  - unfold on_upload_story. rewrite Hclose, Hp1, Henc, Hremote, Hweb.
    rewrite (bool_decide_eq_true_2 (None = None)) by done. cbn [andb].
    change (was_reuploaded_ (set_was_reuploaded p)) with true. exact Hrun2.
  - rewrite Hu2. cbn. apply lookup_delete_eq.
  - rewrite Hy2. intros [_ Hne]%elem_of_difference. apply Hne.
    by apply elem_of_singleton.
  - intros f q i Hq. destruct (Hq2 f q i Hq) as [Hold|(n & r & Hn & Hrn & ->)].
    + left. by apply He1.
    + right. change (ready_to_send_stories_ m1 !! n = Some r) in Hrn.
      rewrite Hr1 in Hrn. rewrite (Hready n r Hrn). exact Hn.
Qed.

Lemma story_is_reuploaded_at_most_once_witness :
  let td := with_remote_files (sample_td 1000 false false false) in
  exists m1 m2,
    on_upload_story td 11 None sample_manager_uploading = Some m1 /\
    on_upload_story td 11 None m1 = Some m2 /\
    being_uploaded_files_ m2 !! 11 = None /\
    1 ∉ yet_unsent_stories_ m2.
Proof.
  intros td.
  destruct (story_is_reuploaded_at_most_once td 11 sample_pending_story [11]
              sample_manager_uploading)
    as (m1 & m2 & H1 & _ & _ & _ & H2 & Hu2 & Hn2 & _);
    [reflexivity | by vm_compute | reflexivity | reflexivity | reflexivity
    | reflexivity | reflexivity | reflexivity | reflexivity | reflexivity
    | intros k r H; change ((∅ : gmap Z ReadyToSendStory) !! k = Some r) in H;
      by rewrite lookup_empty in H |].
  exists m1, m2. split_and!; [exact H1|exact H2|exact Hu2|exact Hn2].
Defined.
